(** * ScholarBridge ingestion pipeline: a shallow embedding

    The development follows the TypeScript sources of the server:

    - [services/ai/utils.ts]: the link trust policy, the link verifier and
      the batch runner;
    - [services/ai/gemini.provider.ts], [services/ai/grok.provider.ts]: the
      per-entry validation loop of the providers;
    - [types/index.ts]: the zod schema of a parsed scholarship;
    - [services/ai/index.ts]: the lazily constructed provider manager;
    - [services/scholarshipService.ts]: store-time validation, the
      de-duplicating store step and the fetch log;
    - [db/Scholarship.ts]: the collection, its required paths, its time
      stamps and its unique index;
    - [cron/scheduler.ts]: the fetch cycle.

    JavaScript strings are modelled by [string] (one character per code
    unit, Latin-1 range), time values by [Z] (milliseconds since the epoch),
    a possibly invalid [Date] by [option Z] ([None] is the invalid date whose
    time value is NaN), promises by sequential evaluation, and exceptions by
    an explicit outcome type. *)

From Stdlib Require Import ZArith List String Ascii Bool Lia Arith.
Import ListNotations.
Local Open Scope string_scope.

(** ** Strings *)

Module Str.

(** [String.prototype.toLowerCase], on the letters A to Z. *)
Definition lower_char (c : ascii) : ascii :=
  let n := nat_of_ascii c in
  if (65 <=? n)%nat && (n <=? 90)%nat then ascii_of_nat (n + 32) else c.

Fixpoint toLowerCase (s : string) : string :=
  match s with
  | EmptyString => EmptyString
  | String c s' => String (lower_char c) (toLowerCase s')
  end.

(** White space stripped by [String.prototype.trim]: tab, line feed,
    vertical tab, form feed, carriage return, space, no-break space. *)
Definition is_ws (c : ascii) : bool :=
  let n := nat_of_ascii c in
  ((9 <=? n)%nat && (n <=? 13)%nat) || (n =? 32)%nat || (n =? 160)%nat.

Fixpoint trimStart (s : string) : string :=
  match s with
  | EmptyString => EmptyString
  | String c s' => if is_ws c then trimStart s' else s
  end.

Fixpoint trimEnd (s : string) : string :=
  match s with
  | EmptyString => EmptyString
  | String c s' =>
      match trimEnd s' with
      | EmptyString => if is_ws c then EmptyString else String c EmptyString
      | t => String c t
      end
  end.

Definition trim (s : string) : string := trimEnd (trimStart s).

(** [s.startsWith(p)] and [s.endsWith(p)]. *)
Definition startsWith (s p : string) : bool := String.prefix p s.

Fixpoint endsWith (s suffix : string) : bool :=
  (s =? suffix) ||
  match s with
  | EmptyString => false
  | String _ s' => endsWith s' suffix
  end.

(** [s.replace(/^www\./, EmptyString)]: one leading label is removed. *)
Definition strip_www (s : string) : string :=
  if String.prefix "www." s then substring 4 (String.length s - 4) s else s.

(** Case-insensitive equality, as an anchored regular expression with the
    [i] flag decides it on an escaped literal. *)
Definition ci_eq (a b : string) : bool := toLowerCase a =? toLowerCase b.

Definition is_digit (c : ascii) : bool :=
  let n := nat_of_ascii c in (48 <=? n)%nat && (n <=? 57)%nat.

Definition digit_val (c : ascii) : Z := Z.of_nat (nat_of_ascii c) - 48.

(** The pattern [/^\d{4}-\d{2}-\d{2}$/]. *)
Definition matches_ymd (s : string) : bool :=
  match s with
  | String y1 (String y2 (String y3 (String y4 (String d1
      (String m1 (String m2 (String d2 (String a1 (String a2 EmptyString))))))))) =>
      is_digit y1 && is_digit y2 && is_digit y3 && is_digit y4 &&
      Ascii.eqb d1 "-" && is_digit m1 && is_digit m2 &&
      Ascii.eqb d2 "-" && is_digit a1 && is_digit a2
  | _ => false
  end.

End Str.

(** ** Time values and the calendar of ECMAScript dates *)

Module Time.

Local Open Scope Z_scope.

Definition msPerDay : Z := 86400000.

Definition Day (t : Z) : Z := t / msPerDay.
Definition TimeWithinDay (t : Z) : Z := t mod msPerDay.

Definition DayFromYear (y : Z) : Z :=
  365 * (y - 1970) + (y - 1969) / 4 - (y - 1901) / 100 + (y - 1601) / 400.

(** The largest year whose first day is not after [day]: an estimate from
    the mean year length, corrected by one step either way. *)
Definition YearFromDay (day : Z) : Z :=
  let y0 := 1970 + (day * 400) / 146097 in
  if DayFromYear (y0 + 1) <=? day then y0 + 1
  else if day <? DayFromYear y0 then y0 - 1
  else y0.

Definition InLeapYear (y : Z) : Z :=
  if (y mod 4 =? 0) && (negb (y mod 100 =? 0) || (y mod 400 =? 0)) then 1 else 0.

(** Days of the year before month [m] (January is 0). *)
Definition monthStart (leap m : Z) : Z :=
  if m <=? 0 then 0
  else if m =? 1 then 31
  else if m =? 2 then 59 + leap
  else if m =? 3 then 90 + leap
  else if m =? 4 then 120 + leap
  else if m =? 5 then 151 + leap
  else if m =? 6 then 181 + leap
  else if m =? 7 then 212 + leap
  else if m =? 8 then 243 + leap
  else if m =? 9 then 273 + leap
  else if m =? 10 then 304 + leap
  else 334 + leap.

Definition MonthFromDayWithinYear (leap dwy : Z) : Z :=
  if dwy <? 31 then 0
  else if dwy <? 59 + leap then 1
  else if dwy <? 90 + leap then 2
  else if dwy <? 120 + leap then 3
  else if dwy <? 151 + leap then 4
  else if dwy <? 181 + leap then 5
  else if dwy <? 212 + leap then 6
  else if dwy <? 243 + leap then 7
  else if dwy <? 273 + leap then 8
  else if dwy <? 304 + leap then 9
  else if dwy <? 334 + leap then 10
  else 11.

Definition YearFromTime (t : Z) : Z := YearFromDay (Day t).
Definition DayWithinYear (t : Z) : Z := Day t - DayFromYear (YearFromTime t).
Definition MonthFromTime (t : Z) : Z :=
  MonthFromDayWithinYear (InLeapYear (YearFromTime t)) (DayWithinYear t).
Definition DateFromTime (t : Z) : Z :=
  DayWithinYear t - monthStart (InLeapYear (YearFromTime t)) (MonthFromTime t) + 1.

Definition MakeDay (year month date : Z) : Z :=
  let ym := year + month / 12 in
  let mn := month mod 12 in
  DayFromYear ym + monthStart (InLeapYear ym) mn + date - 1.

Definition MakeDate (day time : Z) : Z := day * msPerDay + time.

Section Local.

(** The offset of local time from UTC, in milliseconds, taken constant. *)
Variable LocalTZA : Z.

Definition LocalTime (t : Z) : Z := t + LocalTZA.
Definition UTC (t : Z) : Z := t - LocalTZA.

(** [d.getFullYear()]. *)
Definition getFullYear (t : Z) : Z := YearFromTime (LocalTime t).

(** [d.setFullYear(y)]: month, day of the month and time of day are kept. *)
Definition setFullYear (t y : Z) : Z :=
  let lt := LocalTime t in
  UTC (MakeDate (MakeDay y (MonthFromTime lt) (DateFromTime lt)) (TimeWithinDay lt)).

(** [new Date(y, m, d)]: local midnight of the given day (for a year that
    is not one of 0 to 99, which the constructor reads as 1900 onwards). *)
Definition newDate (y m d : Z) : Z := UTC (MakeDate (MakeDay y m d) 0).

End Local.

(** The comparisons [a < b] and [a > b] of two dates; both are false as soon
    as one side is the invalid date. *)
Definition date_lt (a b : option Z) : bool :=
  match a, b with
  | Some x, Some y => x <? y
  | _, _ => false
  end.

Definition date_gt (a b : option Z) : bool := date_lt b a.

End Time.

(** ** Values of the host runtime *)

(** What [new URL(s)] exposes of a parsed address. *)
Record URL := { protocol : string; hostname : string; pathname : string }.

(** A thrown [Error]: its message and, for driver errors, its code. *)
Record Error := { code : option Z; message : string }.

Inductive outcome (A : Type) : Type :=
| Ok (a : A)
| Throw (e : Error).
Arguments Ok {A} a.
Arguments Throw {A} e.

(** A value produced by [JSON.parse]. *)
#[local] Set Warnings "-register-all".
Inductive json : Type :=
| JNull
| JBool (b : bool)
| JNum (n : Z)
| JStr (s : string)
| JArr (items : list json)
| JObj (fields : list (string * json)).

(** What one call to the upstream model amounts to, seen from the provider:
    the call throws, the text is empty, the text is not JSON, or it parses. *)
Inductive UpstreamOutcome : Type :=
| ApiError (e : Error)
| RawEmpty
| RawUnparseable
| RawJson (data : json).

Inductive Method : Type := HEAD | GET.

Inductive ProviderKind : Type := OpenAI | Gemini | Grok.

(** [process.env], the four variables the server reads. *)
Record ProcessEnv := {
  AI_PROVIDER : option string;
  OPENAI_API_KEY : option string;
  GROK_API_KEY : option string;
  GEMINI_API_KEY : option string
}.

(** ** A small host for concrete runs

    The development is parametric in the URL parser and the date parser of
    the runtime. For concrete runs it is instantiated with the two readers
    below: addresses of the shape scheme://host/path?query#fragment, and
    dates of the shape YYYY-MM-DD read as UTC midnight, with months 1 to 12
    and days 1 to 31 as V8 accepts them. *)

Module Host.

Import Str.

Fixpoint take_until (stop : ascii -> bool) (s : string) : string * string :=
  match s with
  | EmptyString => (EmptyString, EmptyString)
  | String c s' =>
      if stop c then (EmptyString, s)
      else let (a, b) := take_until stop s' in (String c a, b)
  end.

Definition is_path_start (c : ascii) : bool :=
  Ascii.eqb c "/" || Ascii.eqb c "?" || Ascii.eqb c "#".

Definition is_path_end (c : ascii) : bool :=
  Ascii.eqb c "?" || Ascii.eqb c "#".

Definition URL_parse (s : string) : option URL :=
  match String.index 0 "://" s with
  | None => None
  | Some i =>
      let scheme := substring 0 i s in
      let rest := substring (i + 3) (String.length s - (i + 3)) s in
      let (authority, tail) := take_until is_path_start rest in
      let (path, _) := take_until is_path_end tail in
      if (String.length scheme =? 0)%nat || (String.length authority =? 0)%nat
      then None
      else Some {| protocol := toLowerCase scheme ++ ":";
                   hostname := toLowerCase authority;
                   pathname := if (String.length path =? 0)%nat then "/" else path |}
  end.

Local Open Scope Z_scope.

Definition Date_parse (s : string) : option Z :=
  if matches_ymd s then
    match s with
    | String y1 (String y2 (String y3 (String y4 (String _
        (String m1 (String m2 (String _ (String d1 (String d2 _))))))))) =>
        let y := 1000 * digit_val y1 + 100 * digit_val y2
                 + 10 * digit_val y3 + digit_val y4 in
        let m := 10 * digit_val m1 + digit_val m2 in
        let d := 10 * digit_val d1 + digit_val d2 in
        if (1 <=? m) && (m <=? 12) && (1 <=? d) && (d <=? 31)
        then Some (Time.MakeDate (Time.MakeDay y (m - 1) d) 0)
        else None
    | _ => None
    end
  else None.

End Host.

(** ** The candidate schema ([types/index.ts]) *)

(** [ParsedScholarship], the type zod infers from [ParsedScholarshipSchema]. *)
Record ParsedScholarship := {
  title : string;
  organization : string;
  country : string;
  level : string;
  field : string;
  category : string;
  deadline : string;
  description : string;
  link : string;
  amount : string;
  currency : string
}.

Definition LEVELS : list string :=
  ["Bachelor"; "Master"; "PhD"; "Postdoctoral"; "Any"].

Definition CATEGORIES : list string :=
  ["Merit-Based"; "Need-Based"; "Research"; "Sports"; "Women in STEM";
   "International"; "Government"; "Private"].

Definition CURRENCIES : list string :=
  ["USD"; "EUR"; "GBP"; "AUD"; "CAD"; "JPY"; "CNY"; "KRW"; "TRY"; "SEK";
   "NOK"; "DKK"; "CHF"; "NZD"; "SGD"; "HKD"; "INR"; "Other"].

Module Zod.

(** The property [k] of an object; [None] is [undefined]. The keys of a
    parsed object are distinct, so the first binding is the only one. *)
Fixpoint get (k : string) (fields : list (string * json)) : option json :=
  match fields with
  | [] => None
  | (k', v) :: rest => if k' =? k then Some v else get k rest
  end.

(** [z.string().min(n)]. *)
Definition string_min (n : nat) (v : option json) : option string :=
  match v with
  | Some (JStr s) => if (n <=? String.length s)%nat then Some s else None
  | _ => None
  end.

(** [z.enum(allowed)]. *)
Definition enum (allowed : list string) (v : option json) : option string :=
  match v with
  | Some (JStr s) => if existsb (String.eqb s) allowed then Some s else None
  | _ => None
  end.

(** [z.string().regex(/^\d{4}-\d{2}-\d{2}$/)]. *)
Definition string_ymd (v : option json) : option string :=
  match v with
  | Some (JStr s) => if Str.matches_ymd s then Some s else None
  | _ => None
  end.

(** [inner.default(d)]: the default stands in for [undefined] only. *)
Definition default {A : Type} (d : A) (inner : option json -> option A)
    (v : option json) : option A :=
  match v with
  | None => Some d
  | Some _ => inner v
  end.

End Zod.

(** ** The blocklist, identical in [utils.ts] and [scholarshipService.ts] *)

Definition BLOCKED_DOMAINS : list string :=
  [ "scholarshiptab.com"; "studentscholarships.org"; "scholarshipnext.com";
    "scholaropportunity.com"; "scholarships.com"; "fastweb.com";
    "scholarshipowl.com"; "scholarshipportal.com"; "findaid.org";
    "internationalscholarships.com"; "scholars4dev.com"; "afterschool.my";
    "opportunitiesforafricans.com"; "oyaop.com"; "aseanop.com"; "marj3.com";
    "opportunitydesk.org"; "scholarshipsads.com"; "scholarshipscorner.website";
    "grantfinder.com"; "scholarshipslab.com"; "uscholarships.us";
    "scholarshipau.com"; "happyfacetravels.com"; "worldscholarshipforum.com";
    "scholarshipscafe.com"; "scholarsme.com"; "myschoolscholarship.com";
    "facebook.com"; "twitter.com"; "x.com"; "linkedin.com"; "instagram.com";
    "youtube.com"; "tiktok.com"; "reddit.com"; "quora.com"; "pinterest.com";
    "medium.com"; "wordpress.com"; "blogspot.com"; "tumblr.com";
    "substack.com"; "wikipedia.org"; "wikidata.org"; "bbc.com"; "cnn.com";
    "theguardian.com"; "example.com"; "example.org"; "test.com"; "localhost" ].

(** The loop over the blocklist: [host === blocked || host.endsWith(. blocked)]. *)
Definition host_blocked (host : string) : bool :=
  existsb (fun blocked => (host =? blocked) || Str.endsWith host ("." ++ blocked))
          BLOCKED_DOMAINS.

(** ** Search query batches ([services/ai/queries.ts]) *)

Definition SEARCH_QUERY_SETS : list (list string) :=
  [ [ "site:.edu OR site:.ac.uk scholarships international students 2026 apply now";
      "site:.gov.au OR site:.gc.ca scholarships 2026 international students";
      "official university scholarships USA 2026 application open international students";
      "UK Russell Group university scholarships 2026 international apply" ];
    [ "site:daad.de scholarships 2026 international students";
      "Netherlands universities scholarships 2026 non-EU students official";
      "Sweden SI scholarships 2026 official application";
      "France Campus France Eiffel Excellence scholarship 2026" ];
    [ "site:jasso.go.jp OR MEXT scholarship 2026 official application";
      "site:.ac.kr KGSP GKS scholarship 2026 application";
      "CSC scholarship China 2026 official application international";
      "Turkiye Burslari scholarship 2026 official apply" ];
    [ "STEM scholarships women 2026 official university apply";
      "fully funded PhD scholarships 2026 official university application";
      "need-based scholarships developing countries 2026 official";
      "athletic scholarships NCAA universities 2026 official" ];
    [ "Fulbright scholarship 2026 official application site:fulbrightonline.org OR site:cies.org";
      "Chevening scholarship 2026 official site:chevening.org";
      "Erasmus Mundus Joint Master 2026 official site:ec.europa.eu OR site:eacea.ec.europa.eu";
      "Commonwealth scholarship 2026 official site:cscuk.fcdo.gov.uk" ] ].

Definition getSearchQueries (runIndex : nat) : list string :=
  nth (runIndex mod List.length SEARCH_QUERY_SETS) SEARCH_QUERY_SETS [].

(** ** Stored documents *)

(** A document of the [Scholarship] collection ([db/Scholarship.ts]), with
    the fields the schema declares and the two that its option
    [{ timestamps: true }] adds, [createdAt] and [updatedAt]. *)
Record ScholarshipDoc := {
  doc_id : nat;
  doc_title : string;
  doc_organization : string;
  doc_country : string;
  doc_level : string;
  doc_field : string;
  doc_category : string;
  doc_deadline : Z;
  doc_description : string;
  doc_link : string;
  doc_amount : option string;
  doc_currency : option string;
  doc_is_verified : bool;
  doc_verification_notes : option string;
  doc_source : option string;
  doc_created_at : Z;
  doc_updated_at : Z;
  doc_createdAt : Z;
  doc_updatedAt : Z
}.

(** [InsertScholarship], the type zod infers from
    [InsertScholarshipSchema] ([types/index.ts]): what the administration
    passes to [addScholarship]. *)
Record InsertScholarship := {
  ins_title : string;
  ins_organization : string;
  ins_country : string;
  ins_level : string;
  ins_field : string;
  ins_category : string;
  ins_deadline : string;
  ins_description : string;
  ins_link : string;
  ins_amount : option string;
  ins_currency : option string;
  ins_is_verified : Z;
  ins_source : option string
}.

Inductive FetchStatus : Type := running | completed | failed.

(** A document of the [FetchLog] collection. *)
Record FetchLog := {
  log_id : nat;
  search_queries : list string;
  status : FetchStatus;
  scholarships_found : nat;
  scholarships_added : nat;
  error : option string;
  started_at : Z;
  completed_at : option Z
}.

(** The three writes to the [FetchLog] collection: the [create] of
    [createFetchLog] and the [updateOne] of [completeFetchLog] and of
    [failFetchLog]. *)
Inductive FetchLogWrite : Type := create_log | complete_log | fail_log.

(** [AIServiceManager]: its configuration and its current provider. *)
Record AIServiceConfig := {
  provider : string;
  openaiApiKey : option string;
  grokApiKey : option string;
  geminiApiKey : option string
}.

Record Provider := { kind : ProviderKind; apiKey : string }.

Record AIServiceManager := {
  config : AIServiceConfig;
  currentProvider : option Provider
}.

(** The mutable state of the process and of the database: the run counter
    of the scheduler, the lazy singleton of the provider manager, the two
    collections and the next fresh [ObjectId]. *)
Record World := {
  runIndex : nat;
  aiServiceInstance : option AIServiceManager;
  Scholarship : list ScholarshipDoc;
  FetchLogs : list FetchLog;
  nextId : nat
}.

(** ** Sequencing *)

Definition obind {A B : Type} (o : option A) (k : A -> option B) : option B :=
  match o with
  | Some a => k a
  | None => None
  end.

(** A computation over the world that returns or throws. *)
Definition M (A : Type) : Type := World -> outcome A * World.

Definition ret {A : Type} (a : A) : M A := fun w => (Ok a, w).

Definition throw {A : Type} (e : Error) : M A := fun w => (Throw e, w).

Definition bind {A B : Type} (m : M A) (k : A -> M B) : M B :=
  fun w =>
    match m w with
    | (Ok a, w') => k a w'
    | (Throw e, w') => (Throw e, w')
    end.

(** [try { body } catch (error) { handler }]. *)
Definition try_catch {A : Type} (body : M A) (handler : Error -> M A) : M A :=
  fun w =>
    match body w with
    | (Ok a, w') => (Ok a, w')
    | (Throw e, w') => handler e w'
    end.

(** A computation that cannot touch the world, run inside [M]. *)
Definition lift {A : Type} (o : outcome A) : M A := fun w => (o, w).

Declare Scope js_scope.
Delimit Scope js_scope with js.
Notation "'let?' x := o 'in' k" := (obind o (fun x => k))
  (at level 10, x name, o at level 100, k at level 200).
Notation "x <- m ;; k" := (bind m (fun x => k))
  (at level 61, m at next level, right associativity) : js_scope.
Notation "m ;;; k" := (bind m (fun _ => k))
  (at level 61, right associativity) : js_scope.

(** [Promise.all] over the elements of a list, in order. *)
Fixpoint all_outcomes {A B : Type} (f : A -> outcome B) (l : list A)
  : outcome (list B) :=
  match l with
  | [] => Ok []
  | a :: rest =>
      match f a with
      | Throw e => Throw e
      | Ok b =>
          match all_outcomes f rest with
          | Throw e => Throw e
          | Ok bs => Ok (b :: bs)
          end
      end
  end.

(** [l.slice(0, 5), l.slice(5, 10), ...]: the windows of the link check. *)
Fixpoint windows5 {A : Type} (l : list A) : list (list A) :=
  match l with
  | a :: b :: c :: d :: e :: rest => [a; b; c; d; e] :: windows5 rest
  | [] => []
  | short => [short]
  end.

(** ** Sample data for concrete runs *)

Module Sample.

Local Open Scope Z_scope.

(** 2026-06-15, 2025-12-01 and 2026-12-31 at midnight UTC. *)
Definition mid_june_2026 : Z := 1781481600000.
Definition dec_first_2025 : Z := 1764547200000.
Definition new_years_eve_2026 : Z := 1798675200000.

Definition jan_first_2020 : Z := 1577836800000.
Definition jan_first_2026 : Z := 1767225600000.
Definition mid_jan_2026 : Z := 1768435200000.
Definition feb_first_2026 : Z := 1769904000000.
Definition jan_14_2027 : Z := 1799884800000.
Definition jan_15_2027 : Z := 1799971200000.

Definition long_text : string :=
  "Covers full tuition and a monthly stipend for admitted students.".

Definition longer_text : string :=
  "Covers full tuition, travel and a monthly stipend for all admitted students.".

Definition forty_chars : string := "Covers tuition for admitted students ok.".

Definition sixty_chars : string :=
  "Full tuition waiver plus stipend for two years of graduates.".

Definition entry (t dl lk : string) : json :=
  JObj [ ("title", JStr t); ("organization", JStr "MIT");
         ("country", JStr "USA"); ("level", JStr "Master");
         ("field", JStr "Any"); ("category", JStr "Research");
         ("deadline", JStr dl); ("description", JStr long_text);
         ("link", JStr lk); ("amount", JStr "Full tuition");
         ("currency", JStr "USD") ].

Definition past_entry : json :=
  entry "Expired Fellowship" "2020-01-01" "https://mit.edu/expired".
Definition blocked_entry : json :=
  entry "Aggregated Fellowship" "2027-01-15" "https://scholarships.com/x".
Definition good_entry : json :=
  entry "Presidential Fellowship" "2027-01-15" "https://mit.edu/apply".
Definition no_title_entry : json :=
  JObj [ ("organization", JStr "MIT"); ("country", JStr "USA");
         ("level", JStr "Master"); ("field", JStr "Any");
         ("category", JStr "Research"); ("deadline", JStr "2027-01-15");
         ("description", JStr long_text); ("link", JStr "https://mit.edu/apply") ].

Definition candidate (dl desc : string) : ParsedScholarship :=
  {| title := "Presidential Fellowship"; organization := "MIT";
     country := "USA"; level := "Master"; field := "Any";
     category := "Research"; deadline := dl; description := desc;
     link := "https://mit.edu/apply"; amount := "Full tuition";
     currency := "USD" |}.

Definition good : ParsedScholarship := candidate "2027-01-15" long_text.

(** What the schema makes of [entry t dl lk]. *)
Definition parsed (t dl lk : string) : ParsedScholarship :=
  {| title := t; organization := "MIT"; country := "USA"; level := "Master";
     field := "Any"; category := "Research"; deadline := dl;
     description := long_text; link := lk; amount := "Full tuition";
     currency := "USD" |}.

Definition other : ParsedScholarship :=
  parsed "Graduate Research Award" "2027-01-15" "https://mit.edu/award".

(** The good entry with a country of two blanks, and what the schema makes
    of it. *)
Definition blank_country_entry : json :=
  JObj [ ("title", JStr "Presidential Fellowship");
         ("organization", JStr "MIT"); ("country", JStr "  ");
         ("level", JStr "Master"); ("field", JStr "Any");
         ("category", JStr "Research"); ("deadline", JStr "2027-01-15");
         ("description", JStr long_text);
         ("link", JStr "https://mit.edu/apply");
         ("amount", JStr "Full tuition"); ("currency", JStr "USD") ].

Definition blank_country : ParsedScholarship :=
  {| title := "Presidential Fellowship"; organization := "MIT";
     country := "  "; level := "Master"; field := "Any";
     category := "Research"; deadline := "2027-01-15";
     description := long_text; link := "https://mit.edu/apply";
     amount := "Full tuition"; currency := "USD" |}.

Definition stored (id : nat) (dl : Z) (desc : string) : ScholarshipDoc :=
  {| doc_id := id; doc_title := "Presidential Fellowship";
     doc_organization := "MIT"; doc_country := "USA"; doc_level := "Master";
     doc_field := "Any"; doc_category := "Research"; doc_deadline := dl;
     doc_description := desc; doc_link := "https://mit.edu/old";
     doc_amount := Some "Varies"; doc_currency := Some "USD";
     doc_is_verified := false; doc_verification_notes := None;
     doc_source := Some "manual"; doc_created_at := 0; doc_updated_at := 0;
     doc_createdAt := 0; doc_updatedAt := 0 |}.

Definition admin_entry : InsertScholarship :=
  {| ins_title := "  presidential FELLOWSHIP "; ins_organization := "mit";
     ins_country := "USA"; ins_level := "Master"; ins_field := "Any";
     ins_category := "Research"; ins_deadline := "2027-01-15";
     ins_description := long_text; ins_link := "https://mit.edu/apply";
     ins_amount := None; ins_currency := None; ins_is_verified := 1;
     ins_source := Some "manual" |}.

Definition empty_world : World :=
  {| runIndex := 0; aiServiceInstance := None; Scholarship := [];
     FetchLogs := []; nextId := 0 |}.

Definition world_with (docs : list ScholarshipDoc) : World :=
  {| runIndex := 0; aiServiceInstance := None; Scholarship := docs;
     FetchLogs := []; nextId := List.length docs |}.

Definition gemini_manager : AIServiceManager :=
  {| config := {| provider := "gemini"; openaiApiKey := None;
                  grokApiKey := None; geminiApiKey := Some "key" |};
     currentProvider := Some {| kind := Gemini; apiKey := "key" |} |}.

Definition configured_world : World :=
  {| runIndex := 0; aiServiceInstance := Some gemini_manager;
     Scholarship := []; FetchLogs := []; nextId := 0 |}.

(** Every link answers 200 to HEAD. *)
Definition all_reachable (m : Method) (l : string) : outcome Z := Ok 200.

(** The first query of the first batch yields the three entries, every
    other query an empty array. *)
Definition three_entries (k : ProviderKind) (q : string) : UpstreamOutcome :=
  if String.eqb q
       "site:.edu OR site:.ac.uk scholarships international students 2026 apply now"
  then RawJson (JArr [past_entry; blocked_entry; good_entry])
  else RawJson (JArr []).

(** The same, with the country of the third entry blank. *)
Definition three_entries_blank_country (k : ProviderKind) (q : string)
  : UpstreamOutcome :=
  if String.eqb q
       "site:.edu OR site:.ac.uk scholarships international students 2026 apply now"
  then RawJson (JArr [past_entry; blocked_entry; blank_country_entry])
  else RawJson (JArr []).

(** A database that takes every write to the fetch log, and one that
    rejects the write of [completeFetchLog]. *)
Definition writes_accepted (op : FetchLogWrite) : option Error := None.

Definition completion_rejected (op : FetchLogWrite) : option Error :=
  match op with
  | complete_log => Some {| code := None; message := "connection closed" |}
  | _ => None
  end.

Definition gemini_env : ProcessEnv :=
  {| AI_PROVIDER := Some "gemini"; OPENAI_API_KEY := None;
     GROK_API_KEY := None; GEMINI_API_KEY := Some "key" |}.

Definition empty_env : ProcessEnv :=
  {| AI_PROVIDER := None; OPENAI_API_KEY := None;
     GROK_API_KEY := None; GEMINI_API_KEY := None |}.

End Sample.

Section Pipeline.

(** The host: [new URL], [new Date(string)], the local time zone, the
    network behind [fetch], the model behind each provider, the
    environment of the process, and the database behind the [FetchLog]
    collection: [FetchLog_rejects op] is the error with which it rejects the
    write [op], if it does. *)
Variable URL_parse : string -> option URL.
Variable Date_parse : string -> option Z.
Variable LocalTZA : Z.
Variable fetch : Method -> string -> outcome Z.
Variable upstream : ProviderKind -> string -> UpstreamOutcome.
Variable process_env : ProcessEnv.
Variable FetchLog_rejects : FetchLogWrite -> option Error.

(** *** [ParsedScholarshipSchema.safeParse] *)

(** [z.string().url().refine(startsWith http:// or https://)]. *)
Definition zod_link (v : option json) : option string :=
  match v with
  | Some (JStr s) =>
      match URL_parse s with
      | None => None
      | Some _ =>
          if Str.startsWith s "http://" || Str.startsWith s "https://"
          then Some s else None
      end
  | _ => None
  end.

Definition safeParse (item : json) : option ParsedScholarship :=
  match item with
  | JObj o =>
      let? title := Zod.string_min 10 (Zod.get "title" o) in
      let? organization := Zod.string_min 3 (Zod.get "organization" o) in
      let? country := Zod.string_min 2 (Zod.get "country" o) in
      let? level := Zod.enum LEVELS (Zod.get "level" o) in
      let? field := Zod.string_min 2 (Zod.get "field" o) in
      let? category := Zod.enum CATEGORIES (Zod.get "category" o) in
      let? deadline := Zod.string_ymd (Zod.get "deadline" o) in
      let? description := Zod.string_min 50 (Zod.get "description" o) in
      let? link := zod_link (Zod.get "link" o) in
      let? amount := Zod.default "Varies" (Zod.string_min 1) (Zod.get "amount" o) in
      let? currency := Zod.default "USD" (Zod.enum CURRENCIES) (Zod.get "currency" o) in
      Some {| title := title; organization := organization; country := country;
              level := level; field := field; category := category;
              deadline := deadline; description := description; link := link;
              amount := amount; currency := currency |}
  | _ => None
  end.

(** *** The trust policy ([utils.ts]) *)

Definition isOfficialDirectLink (link : string) : bool :=
  if link =? "" then false
  else
    match URL_parse link with
    | None => false
    | Some url =>
        if negb (protocol url =? "https:") && negb (protocol url =? "http:")
        then false
        else
          let host := Str.strip_www (Str.toLowerCase (hostname url)) in
          if host_blocked host then false
          else if Str.endsWith (Str.toLowerCase (pathname url)) ".pdf" then false
          else true
    end.

(** *** The validation loop of the providers
        ([gemini.provider.ts], [grok.provider.ts]) *)

(** The body of the loop for one entry: [None] stands for [continue]. *)
Definition validateEntry (now : Z) (item : json) : option ParsedScholarship :=
  match safeParse item with
  | None => None
  | Some s =>
      if negb (isOfficialDirectLink (link s)) then None
      else
        match Date_parse (deadline s) with
        | None => None
        | Some d =>
            if (d <? now)%Z then None
            else
              let maxDate :=
                Time.setFullYear LocalTZA now (Time.getFullYear LocalTZA now + 3) in
              if (maxDate <? d)%Z then None else Some s
        end
  end.

Fixpoint validation_loop (now : Z) (parsed : list json)
    (valid : list ParsedScholarship) : list ParsedScholarship :=
  match parsed with
  | [] => valid
  | item :: rest =>
      match validateEntry now item with
      | None => validation_loop now rest valid
      | Some s => validation_loop now rest (valid ++ [s])
      end
  end.

(** [searchScholarships] of the Gemini and Grok providers: every failure
    before the loop is caught and yields the empty list. *)
Definition Provider_searchScholarships (k : ProviderKind) (now : Z)
    (query : string) : outcome (list ParsedScholarship) :=
  match upstream k query with
  | ApiError _ => Ok []
  | RawEmpty => Ok []
  | RawUnparseable => Ok []
  | RawJson data =>
      let parsed := match data with JArr items => items | _ => [data] end in
      Ok (validation_loop now parsed [])
  end.

(** Modelled from the spec: [services/ai/openai.provider.ts] is not among
    the sources. Section 4.3 of the specification has every provider variant
    hand its entries to the shared validator and turn its own failures into
    an empty result, which is what the two providers above do. *)
Definition OpenAIProvider_searchScholarships (now : Z) (query : string)
  : outcome (list ParsedScholarship) :=
  Provider_searchScholarships OpenAI now query.

Definition searchScholarships (p : Provider) (now : Z) (query : string)
  : outcome (list ParsedScholarship) :=
  match kind p with
  | OpenAI => OpenAIProvider_searchScholarships now query
  | Gemini => Provider_searchScholarships Gemini now query
  | Grok => Provider_searchScholarships Grok now query
  end.

Definition Provider_getProviderName (p : Provider) : string :=
  match kind p with
  | OpenAI => "OpenAI"
  | Gemini => "Gemini"
  | Grok => "Grok"
  end.

(** *** The link verifier ([utils.ts]) *)

(** [res.ok]. *)
Definition res_ok (status : Z) : bool := ((200 <=? status) && (status <=? 299))%Z.

Definition verifyLinkReachable (link : string) : outcome bool :=
  let body : outcome bool :=
    match fetch HEAD link with
    | Throw e => Throw e
    | Ok status =>
        if res_ok status || ((300 <=? status) && (status <? 400))%Z then Ok true
        else if ((status =? 403) || (status =? 405))%Z then
          match fetch GET link with
          | Throw e => Throw e
          | Ok status2 => Ok (res_ok status2)
          end
        else Ok false
    end in
  match body with
  | Ok b => Ok b
  | Throw _ => Ok false
  end.

(** *** The batch runner ([utils.ts]) *)

Fixpoint collect_results (searchFunction : string -> outcome (list ParsedScholarship))
    (queries : list string) (allResults : list ParsedScholarship)
  : outcome (list ParsedScholarship) :=
  match queries with
  | [] => Ok allResults
  | query :: rest =>
      match searchFunction query with
      | Throw e => Throw e
      | Ok results => collect_results searchFunction rest (allResults ++ results)
      end
  end.

Definition check_link (s : ParsedScholarship) : outcome (ParsedScholarship * bool) :=
  match verifyLinkReachable (link s) with
  | Throw e => Throw e
  | Ok ok => Ok (s, ok)
  end.

Fixpoint verify_windows (batches : list (list ParsedScholarship))
    (verified : list ParsedScholarship) : outcome (list ParsedScholarship) :=
  match batches with
  | [] => Ok verified
  | batch :: rest =>
      match all_outcomes check_link batch with
      | Throw e => Throw e
      | Ok checks =>
          verify_windows rest (verified ++ map fst (filter snd checks))
      end
  end.

Definition runSearchBatch (queries : list string)
    (searchFunction : string -> outcome (list ParsedScholarship))
  : outcome (list ParsedScholarship) :=
  match collect_results searchFunction queries [] with
  | Throw e => Throw e
  | Ok allResults => verify_windows (windows5 allResults) []
  end.

(** *** Store-time validation ([scholarshipService.ts]) *)

Definition isValidApplicationLink (url : string) : bool :=
  if (url =? "") || (Str.trim url =? "") then false
  else
    match URL_parse url with
    | None => false
    | Some parsed =>
        if negb (protocol parsed =? "http:") && negb (protocol parsed =? "https:")
        then false
        else if Str.endsWith (Str.toLowerCase (pathname parsed)) ".pdf" then false
        else
          let host := Str.strip_www (Str.toLowerCase (hostname parsed)) in
          if host_blocked host then false else true
    end.

Record Validation := { valid : bool; reason : option string }.

Definition validateScholarshipData (now : Z) (s : ParsedScholarship) : Validation :=
  if (String.length (title s) <? 10)%nat then
    {| valid := false; reason := Some "Title too short or missing" |}
  else if (String.length (organization s) <? 3)%nat then
    {| valid := false; reason := Some "Organization too short or missing" |}
  else if (String.length (description s) <? 50)%nat then
    {| valid := false;
       reason := Some "Description too short or missing eligibility criteria" |}
  else if negb (isValidApplicationLink (link s)) then
    {| valid := false; reason := Some "Invalid or non-direct application link" |}
  else
    let deadlineDate := Date_parse (deadline s) in
    if Time.date_lt deadlineDate (Some now) then
      {| valid := false; reason := Some "Deadline is in the past" |}
    else
      let maxDate := Time.newDate LocalTZA (Time.getFullYear LocalTZA now + 3) 11 31 in
      if Time.date_gt deadlineDate (Some maxDate) then
        {| valid := false; reason := Some "Deadline too far in future" |}
      else {| valid := true; reason := None |}.

(** *** The [Scholarship] collection *)

(** [Scholarship.findOne] with the two anchored, case-insensitive patterns
    built from the escaped arguments: the first document, in insertion
    order, whose title and organization equal them up to letter case. *)
Definition Scholarship_findOne (t o : string) (coll : list ScholarshipDoc)
  : option ScholarshipDoc :=
  find (fun d => Str.ci_eq (doc_title d) t && Str.ci_eq (doc_organization d) o) coll.

(** The unique index [{ title: 1, organization: 1, deadline: 1 }]: is there
    a document other than [self] with these three values? *)
Definition index_conflict (self : option nat) (t o : string) (dl : Z)
    (coll : list ScholarshipDoc) : bool :=
  existsb (fun d =>
             (doc_title d =? t) && (doc_organization d =? o)
             && (doc_deadline d =? dl)%Z
             && match self with
                | Some i => negb (doc_id d =? i)%nat
                | None => true
                end) coll.

Definition with_docs (docs : list ScholarshipDoc) (n : nat) (w : World) : World :=
  {| runIndex := runIndex w; aiServiceInstance := aiServiceInstance w;
     Scholarship := docs; FetchLogs := FetchLogs w; nextId := n |}.

Definition E11000 : Error :=
  {| code := Some 11000%Z; message := "E11000 duplicate key error collection" |}.

Definition CastError : Error :=
  {| code := None; message := "Cast to date failed for value Invalid Date" |}.

(** The error of a document that fails the validators of the schema; like
    the cast error it carries no [code]. Its message goes on to name the
    failing paths; [storeScholarships] only prints it. *)
Definition ValidationError : Error :=
  {| code := None; message := "Scholarship validation failed" |}.

(** [required: true] on the string paths of the schema, in the order of
    [db/Scholarship.ts]: title, organization, country, level, field,
    category, description and link. The validator of a string path refuses
    the empty string. *)
Definition required_paths_ok (paths : list string) : bool :=
  forallb (fun v => negb (v =? "")) paths.

(** [Scholarship.create]: the date must be a valid one, no required path
    may be empty, and the unique index must admit the document. Casting and
    validation happen before the document reaches the index. The identifier
    and the time stamps are given by the collection. *)
Definition Scholarship_create (now : Z)
    (t o c lv f cat : string) (dl : option Z) (desc lk am cur : string)
    (verified : bool) (src : string) : M unit :=
  fun w =>
    match dl with
    | None => (Throw CastError, w)
    | Some d =>
        if negb (required_paths_ok [t; o; c; lv; f; cat; desc; lk]) then
          (Throw ValidationError, w)
        else if index_conflict None t o d (Scholarship w) then (Throw E11000, w)
        else
          let doc :=
            {| doc_id := nextId w; doc_title := t; doc_organization := o;
               doc_country := c; doc_level := lv; doc_field := f;
               doc_category := cat; doc_deadline := d; doc_description := desc;
               doc_link := lk; doc_amount := Some am; doc_currency := Some cur;
               doc_is_verified := verified; doc_verification_notes := None;
               doc_source := Some src; doc_created_at := now;
               doc_updated_at := now; doc_createdAt := now;
               doc_updatedAt := now |} in
          (Ok tt, with_docs (Scholarship w ++ [doc]) (S (nextId w)) w)
    end.

(** The [$set] document of the merge. *)
Record MergeSet := {
  set_deadline : option Z;
  set_description : string;
  set_link : string;
  set_amount : option string;
  set_updated_at : Z
}.

Definition apply_set (u : MergeSet) (dl : Z) (d : ScholarshipDoc) : ScholarshipDoc :=
  {| doc_id := doc_id d; doc_title := doc_title d;
     doc_organization := doc_organization d; doc_country := doc_country d;
     doc_level := doc_level d; doc_field := doc_field d;
     doc_category := doc_category d; doc_deadline := dl;
     doc_description := set_description u; doc_link := set_link u;
     doc_amount := set_amount u; doc_currency := doc_currency d;
     doc_is_verified := doc_is_verified d;
     doc_verification_notes := doc_verification_notes d;
     doc_source := doc_source d; doc_created_at := doc_created_at d;
     doc_updated_at := set_updated_at u; doc_createdAt := doc_createdAt d;
     doc_updatedAt := doc_updatedAt d |}.

(** What [{ timestamps: true }] adds to the [$set] of every update:
    [updatedAt], at the time of the update. *)
Definition applyTimestamps (now : Z) (d : ScholarshipDoc) : ScholarshipDoc :=
  {| doc_id := doc_id d; doc_title := doc_title d;
     doc_organization := doc_organization d; doc_country := doc_country d;
     doc_level := doc_level d; doc_field := doc_field d;
     doc_category := doc_category d; doc_deadline := doc_deadline d;
     doc_description := doc_description d; doc_link := doc_link d;
     doc_amount := doc_amount d; doc_currency := doc_currency d;
     doc_is_verified := doc_is_verified d;
     doc_verification_notes := doc_verification_notes d;
     doc_source := doc_source d; doc_created_at := doc_created_at d;
     doc_updated_at := doc_updated_at d; doc_createdAt := doc_createdAt d;
     doc_updatedAt := now |}.

(** The document an update leaves: the [$set] applied, [updatedAt] stamped. *)
Definition updated (now : Z) (u : MergeSet) (dl : Z) (d : ScholarshipDoc)
  : ScholarshipDoc :=
  applyTimestamps now (apply_set u dl d).

(** [Scholarship.updateOne({ _id: id }, { $set: u })] at time [now]: the
    date must be a valid one and the unique index must admit the changed
    document. An update runs no validator of the schema. *)
Definition Scholarship_updateOne (now : Z) (id : nat) (u : MergeSet) : M unit :=
  fun w =>
    match set_deadline u with
    | None => (Throw CastError, w)
    | Some dl =>
        match find (fun d => (doc_id d =? id)%nat) (Scholarship w) with
        | None => (Ok tt, w)
        | Some target =>
            if index_conflict (Some id) (doc_title target)
                 (doc_organization target) dl (Scholarship w)
            then (Throw E11000, w)
            else
              (Ok tt,
               with_docs (map (fun d => if (doc_id d =? id)%nat
                                        then updated now u dl d else d)
                              (Scholarship w))
                         (nextId w) w)
        end
    end.

(** *** [storeScholarships] *)

Record Counters := { added : nat; rejected : nat; duped : nat }.

(** [added++], [rejected++], [duped++]. *)
Definition incr_added (c : Counters) : Counters :=
  {| added := S (added c); rejected := rejected c; duped := duped c |}.
Definition incr_rejected (c : Counters) : Counters :=
  {| added := added c; rejected := S (rejected c); duped := duped c |}.
Definition incr_duped (c : Counters) : Counters :=
  {| added := added c; rejected := rejected c; duped := S (duped c) |}.

(** [a || b] on strings: the empty string is falsy. *)
Definition or_else (a : string) (b : option string) : option string :=
  if a =? "" then b else Some a.

Definition or_default (a b : string) : string := if a =? "" then b else a.

Local Open Scope js_scope.

(** [newDeadline > oldDeadline], on the incoming candidate and the record
    found. *)
Definition later (s : ParsedScholarship) (exists_ : ScholarshipDoc) : bool :=
  Time.date_gt (Date_parse (deadline s)) (Some (doc_deadline exists_)).

(** [s.description.trim().length > (exists.description?.length ?? 0)]. *)
Definition longer (s : ParsedScholarship) (exists_ : ScholarshipDoc) : bool :=
  (String.length (doc_description exists_)
     <? String.length (Str.trim (description s)))%nat.

(** The [$set] document of the update. *)
Definition merge_set (now : Z) (s : ParsedScholarship) (exists_ : ScholarshipDoc)
  : MergeSet :=
  {| set_deadline :=
       if later s exists_ then Date_parse (deadline s)
       else Some (doc_deadline exists_);
     set_description :=
       if longer s exists_ then Str.trim (description s)
       else doc_description exists_;
     set_link :=
       if isValidApplicationLink (link s) then Str.trim (link s)
       else doc_link exists_;
     set_amount := or_else (Str.trim (amount s)) (doc_amount exists_);
     set_updated_at := now |}.

(** One turn of the loop over the incoming scholarships. *)
Definition storeStep (now : Z) (source : string) (c : Counters)
    (s : ParsedScholarship) : M Counters :=
  fun w =>
    let validation := validateScholarshipData now s in
    if negb (valid validation) then
      (Ok (incr_rejected c), w)
    else
      match Scholarship_findOne (Str.trim (title s)) (Str.trim (organization s))
                                (Scholarship w) with
      | Some exists_ =>
          ((if later s exists_ || longer s exists_ then
              Scholarship_updateOne now (doc_id exists_)
                (merge_set now s exists_)
            else ret tt) ;;;
           ret (incr_duped c))
            w
      | None =>
          try_catch
            (Scholarship_create now
               (Str.trim (title s)) (Str.trim (organization s))
               (Str.trim (country s)) (level s) (Str.trim (field s))
               (category s) (Date_parse (deadline s))
               (Str.trim (description s)) (Str.trim (link s))
               (or_default (Str.trim (amount s)) "Varies")
               (or_default (currency s) "USD") false source ;;;
             ret (incr_added c))
            (fun error =>
               match code error with
               | Some 11000%Z => ret (incr_duped c)
               | _ => ret c
               end)
            w
      end.

Fixpoint store_loop (now : Z) (source : string)
    (scholarships : list ParsedScholarship) (c : Counters) : M Counters :=
  match scholarships with
  | [] => ret c
  | s :: rest => c' <- storeStep now source c s ;; store_loop now source rest c'
  end.

Definition storeScholarships (now : Z) (scholarships : list ParsedScholarship)
    (source : string) : M nat :=
  c <- store_loop now source scholarships
         {| added := 0; rejected := 0; duped := 0 |} ;;
  ret (added c).

(** *** The fetch log ([scholarshipService.ts]) *)

Definition with_logs (logs : list FetchLog) (n : nat) (w : World) : World :=
  {| runIndex := runIndex w; aiServiceInstance := aiServiceInstance w;
     Scholarship := Scholarship w; FetchLogs := logs; nextId := n |}.

(** [createFetchLog]: the promise of [FetchLog.create] is awaited, so a
    rejected write throws and nothing is stored. *)
Definition createFetchLog (now : Z) (queries : list string) : M nat :=
  fun w =>
    match FetchLog_rejects create_log with
    | Some e => (Throw e, w)
    | None =>
        let doc :=
          {| log_id := nextId w; search_queries := queries; status := running;
             scholarships_found := 0; scholarships_added := 0; error := None;
             started_at := now; completed_at := None |} in
        (Ok (nextId w), with_logs (FetchLogs w ++ [doc]) (S (nextId w)) w)
    end.

(** [FetchLog.updateOne({ _id: logId }, { $set: ... })], awaited. *)
Definition update_log (op : FetchLogWrite) (logId : nat)
    (f : FetchLog -> FetchLog) : M unit :=
  fun w =>
    match FetchLog_rejects op with
    | Some e => (Throw e, w)
    | None =>
        (Ok tt,
         with_logs (map (fun l => if (log_id l =? logId)%nat then f l else l)
                        (FetchLogs w))
                   (nextId w) w)
    end.

(** Identifiers of the model are always well formed, so the guard on
    [ObjectId.isValid] of the two functions below never fires. *)
Definition completeFetchLog (now : Z) (logId found added : nat) : M unit :=
  update_log complete_log logId (fun l =>
    {| log_id := log_id l; search_queries := search_queries l;
       status := completed; scholarships_found := found;
       scholarships_added := added; error := error l;
       started_at := started_at l; completed_at := Some now |}).

Definition failFetchLog (now : Z) (logId : nat) (err : string) : M unit :=
  update_log fail_log logId (fun l =>
    {| log_id := log_id l; search_queries := search_queries l;
       status := failed; scholarships_found := scholarships_found l;
       scholarships_added := scholarships_added l; error := Some err;
       started_at := started_at l; completed_at := Some now |}).

(** *** The provider manager ([services/ai/index.ts]) *)

(** A variable of the environment that is set and not empty. *)
Definition truthy (v : option string) : option string :=
  match v with
  | Some s => if s =? "" then None else Some s
  | None => None
  end.

Definition with_provider (p : option Provider) (m : AIServiceManager)
  : AIServiceManager :=
  {| config := config m; currentProvider := p |}.

Definition availableKeys (cfg : AIServiceConfig) : list string :=
  (match truthy (openaiApiKey cfg) with Some _ => ["openai"] | None => [] end)
  ++ (match truthy (geminiApiKey cfg) with Some _ => ["gemini"] | None => [] end)
  ++ (match truthy (grokApiKey cfg) with Some _ => ["grok"] | None => [] end).

Definition initError (cfg : AIServiceConfig) : Error :=
  {| code := None;
     message :=
       "[AI Service] Failed to initialize provider: " ++ provider cfg ++ ". "
       ++ match availableKeys cfg with
          | [] => "No API keys found. Please add an API key to your .env file."
          | keys =>
              "Available providers: " ++ String.concat ", " keys
              ++ ". Consider switching to one of them in your .env file."
          end |}.

(** [initializeProvider], on the manager object it mutates. *)
Definition initializeProvider (m : AIServiceManager)
  : outcome unit * AIServiceManager :=
  let cfg := config m in
  let pick (k : ProviderKind) (key : option string) :=
    match truthy key with
    | Some key => with_provider (Some {| kind := k; apiKey := key |}) m
    | None => m
    end in
  let m' :=
    if provider cfg =? "openai" then pick OpenAI (openaiApiKey cfg)
    else if provider cfg =? "gemini" then pick Gemini (geminiApiKey cfg)
    else if provider cfg =? "grok" then pick Grok (grokApiKey cfg)
    else m in
  match currentProvider m' with
  | Some _ => (Ok tt, m')
  | None => (Throw (initError cfg), m')
  end.

(** [new AIServiceManager()]. *)
Definition AIServiceManager_new : outcome AIServiceManager :=
  let m :=
    {| config :=
         {| provider := match truthy (AI_PROVIDER process_env) with
                        | Some p => p
                        | None => "grok"
                        end;
            openaiApiKey := OPENAI_API_KEY process_env;
            grokApiKey := GROK_API_KEY process_env;
            geminiApiKey := GEMINI_API_KEY process_env |};
       currentProvider := None |} in
  match initializeProvider m with
  | (Ok _, m') => Ok m'
  | (Throw e, _) => Throw e
  end.

Definition with_instance (m : AIServiceManager) (w : World) : World :=
  {| runIndex := runIndex w; aiServiceInstance := Some m;
     Scholarship := Scholarship w; FetchLogs := FetchLogs w;
     nextId := nextId w |}.

(** [getAIService]: the singleton is built on first use and kept only if
    its constructor returns. *)
Definition getAIService : M AIServiceManager :=
  fun w =>
    match aiServiceInstance w with
    | Some m => (Ok m, w)
    | None =>
        match AIServiceManager_new with
        | Ok m => (Ok m, with_instance m w)
        | Throw e => (Throw e, w)
        end
    end.

(** [switchAIProvider]: the manager is changed in place, also when the new
    provider cannot be initialised. *)
Definition switchAIProvider (p : string) : M unit :=
  m <- getAIService ;;
  fun w =>
    let m1 :=
      {| config := {| provider := p; openaiApiKey := openaiApiKey (config m);
                      grokApiKey := grokApiKey (config m);
                      geminiApiKey := geminiApiKey (config m) |};
         currentProvider := None |} in
    let (r, m2) := initializeProvider m1 in
    (r, with_instance m2 w).

Definition getProviderName : M string :=
  m <- getAIService ;;
  ret match currentProvider m with
      | Some p => Provider_getProviderName p
      | None => "None"
      end.

Definition NoProvider : Error :=
  {| code := None; message := "[AI Service] No provider initialized" |}.

Definition runSearchBatchWithAI (now : Z) (queries : list string)
  : M (list ParsedScholarship) :=
  m <- getAIService ;;
  match currentProvider m with
  | None => throw NoProvider
  | Some p => lift (runSearchBatch queries (searchScholarships p now))
  end.

(** *** The fetch cycle ([cron/scheduler.ts]) *)

(** The decimal digit of a number below ten; batch numbers are 1 to 5. *)
Definition digit (n : nat) : string := String (ascii_of_nat (48 + n)) EmptyString.

Definition get_runIndex : M nat := fun w => (Ok (runIndex w), w).

Definition incr_runIndex : M unit :=
  fun w =>
    (Ok tt, {| runIndex := S (runIndex w);
               aiServiceInstance := aiServiceInstance w;
               Scholarship := Scholarship w; FetchLogs := FetchLogs w;
               nextId := nextId w |}).

Definition runFetchCycle (now : Z) : M unit :=
  i <- get_runIndex ;;
  let queries := getSearchQueries i in
  logId <- createFetchLog now queries ;;
  provider <- getProviderName ;;
  try_catch
    (scholarships <- runSearchBatchWithAI now queries ;;
     added <- storeScholarships now scholarships
                (Str.toLowerCase provider ++ "-web-search-batch-"
                 ++ digit (i mod 5 + 1)) ;;
     completeFetchLog now logId (List.length scholarships) added)
    (fun error => failFetchLog now logId (message error)) ;;;
  incr_runIndex.

(** *** Administration ([scholarshipService.ts]) *)

(** [Scholarship.create] on a document whose amount, currency and source
    may be absent; it returns the identifier of the new document. *)
Definition Scholarship_createWith (now : Z)
    (t o c lv f cat : string) (dl : option Z) (desc lk : string)
    (am cur : option string) (verified : bool) (src : option string) : M nat :=
  fun w =>
    match dl with
    | None => (Throw CastError, w)
    | Some d =>
        if negb (required_paths_ok [t; o; c; lv; f; cat; desc; lk]) then
          (Throw ValidationError, w)
        else if index_conflict None t o d (Scholarship w) then (Throw E11000, w)
        else
          let doc :=
            {| doc_id := nextId w; doc_title := t; doc_organization := o;
               doc_country := c; doc_level := lv; doc_field := f;
               doc_category := cat; doc_deadline := d; doc_description := desc;
               doc_link := lk; doc_amount := am; doc_currency := cur;
               doc_is_verified := verified; doc_verification_notes := None;
               doc_source := src; doc_created_at := now;
               doc_updated_at := now; doc_createdAt := now;
               doc_updatedAt := now |} in
          (Ok (nextId w), with_docs (Scholarship w ++ [doc]) (S (nextId w)) w)
    end.

Definition plain_error (msg : string) : Error := {| code := None; message := msg |}.

(** [addScholarship]: five guards, then the insert. *)
Definition addScholarship (now : Z) (data : InsertScholarship) : M nat :=
  if negb (isValidApplicationLink (ins_link data)) then
    throw (plain_error
             "Invalid application link. Must be a direct, official application URL.")
  else if (ins_title data =? "")
          || (String.length (Str.trim (ins_title data)) <? 10)%nat then
    throw (plain_error "Title must be at least 10 characters.")
  else if (ins_description data =? "")
          || (String.length (Str.trim (ins_description data)) <? 50)%nat then
    throw (plain_error
             "Description must be at least 50 characters with eligibility criteria.")
  else if (ins_organization data =? "")
          || (String.length (Str.trim (ins_organization data)) <? 3)%nat then
    throw (plain_error "Organization must be at least 3 characters.")
  else
    let deadlineDate := Date_parse (ins_deadline data) in
    if Time.date_lt deadlineDate (Some now) then
      throw (plain_error "Deadline must be a future date.")
    else
      Scholarship_createWith now
        (Str.trim (ins_title data)) (Str.trim (ins_organization data))
        (ins_country data) (ins_level data) (ins_field data)
        (ins_category data) deadlineDate
        (Str.trim (ins_description data)) (Str.trim (ins_link data))
        (ins_amount data) (ins_currency data)
        (negb (ins_is_verified data =? 0)%Z) (ins_source data).

(** *** Predicates used to state the properties *)

(** The value of the expression [match o with Ok b => b | _ => false end]
    on the verdict of the verifier. *)
Definition reachable (link : string) : bool :=
  match verifyLinkReachable link with
  | Ok b => b
  | Throw _ => false
  end.

(** A host that equals a listed domain or lies below one. *)
Definition on_blocklist (host : string) : Prop :=
  exists blocked, In blocked BLOCKED_DOMAINS
    /\ (host = blocked \/ exists sub, host = sub ++ "." ++ blocked).

(** The three grounds on which the trust policy turns an address down. *)
Definition untrusted (u : URL) : Prop :=
  (protocol u <> "http:" /\ protocol u <> "https:")
  \/ on_blocklist (Str.strip_www (Str.toLowerCase (hostname u)))
  \/ (exists stem, Str.toLowerCase (pathname u) = stem ++ ".pdf").

(** The fields the schema requires (the other two have defaults). *)
Definition REQUIRED_FIELDS : list string :=
  ["title"; "organization"; "country"; "level"; "field"; "category";
   "deadline"; "description"; "link"].

Definition missing_required (item : json) : Prop :=
  match item with
  | JObj o => exists k, In k REQUIRED_FIELDS /\ Zod.get k o = None
  | _ => False
  end.

Definition violates_enum (item : json) : Prop :=
  match item with
  | JObj o =>
      (exists s, Zod.get "level" o = Some (JStr s) /\ ~ In s LEVELS)
      \/ (exists s, Zod.get "category" o = Some (JStr s) /\ ~ In s CATEGORIES)
      \/ (exists s, Zod.get "currency" o = Some (JStr s) /\ ~ In s CURRENCIES)
  | _ => False
  end.

(** What one entry contributes to the output of the loop. *)
Definition kept (now : Z) (item : json) : list ParsedScholarship :=
  match validateEntry now item with
  | Some s => [s]
  | None => []
  end.

(** The required paths of the document [storeScholarships] builds for
    candidate [s] are all non-empty. *)
Definition required_present (s : ParsedScholarship) : bool :=
  required_paths_ok
    [Str.trim (title s); Str.trim (organization s); Str.trim (country s);
     level s; Str.trim (field s); category s; Str.trim (description s);
     Str.trim (link s)].

(** The document [storeScholarships] inserts for candidate [s] whose
    deadline reads as [d], under identifier [id]. *)
Definition inserted (now : Z) (source : string) (s : ParsedScholarship)
    (d : Z) (id : nat) : ScholarshipDoc :=
  {| doc_id := id; doc_title := Str.trim (title s);
     doc_organization := Str.trim (organization s);
     doc_country := Str.trim (country s); doc_level := level s;
     doc_field := Str.trim (field s); doc_category := category s;
     doc_deadline := d; doc_description := Str.trim (description s);
     doc_link := Str.trim (link s);
     doc_amount := Some (or_default (Str.trim (amount s)) "Varies");
     doc_currency := Some (or_default (currency s) "USD");
     doc_is_verified := false; doc_verification_notes := None;
     doc_source := Some source; doc_created_at := now; doc_updated_at := now;
     doc_createdAt := now; doc_updatedAt := now |}.

(** The identity key of a stored record. *)
Definition identity_key (d : ScholarshipDoc) : string * string :=
  (Str.toLowerCase (Str.trim (doc_title d)),
   Str.toLowerCase (Str.trim (doc_organization d))).

Definition trimmed (d : ScholarshipDoc) : Prop :=
  Str.trim (doc_title d) = doc_title d
  /\ Str.trim (doc_organization d) = doc_organization d.

(** Titles and organizations are stored trimmed, and no two records share
    an identity key. *)
Definition unique_keys (coll : list ScholarshipDoc) : Prop :=
  Forall trimmed coll /\ NoDup (map identity_key coll).

Definition unique_ids (coll : list ScholarshipDoc) : Prop :=
  NoDup (map doc_id coll).

Definition lookup (id : nat) (coll : list ScholarshipDoc) : option ScholarshipDoc :=
  find (fun d => (doc_id d =? id)%nat) coll.

(** Every record of [coll] is still in [coll'], under its identifier, with a
    deadline that is not earlier. *)
Definition deadlines_kept (coll coll' : list ScholarshipDoc) : Prop :=
  forall d, In d coll ->
    exists d', lookup (doc_id d) coll' = Some d'
               /\ (doc_deadline d <= doc_deadline d')%Z.

(** The key of the provider the environment selects, when it is usable. *)
Definition selected_key (env : ProcessEnv) : option string :=
  let p := match truthy (AI_PROVIDER env) with Some p => p | None => "grok" end in
  if (p =? "openai")%string then truthy (OPENAI_API_KEY env)
  else if (p =? "gemini")%string then truthy (GEMINI_API_KEY env)
  else if (p =? "grok")%string then truthy (GROK_API_KEY env)
  else None.

(** The run record a cycle opens. *)
Definition opened_log (now : Z) (w : World) : FetchLog :=
  {| log_id := nextId w; search_queries := getSearchQueries (runIndex w);
     status := running; scholarships_found := 0; scholarships_added := 0;
     error := None; started_at := now; completed_at := None |}.

(** ** Properties *)

(** *** Strings *)

Lemma endsWith_app (p suffix : string) : Str.endsWith (p ++ suffix) suffix = true.
Proof.
  induction p as [|c p IH].
  - destruct suffix; cbn [append Str.endsWith]; now rewrite String.eqb_refl.
  - cbn [append Str.endsWith]. rewrite IH. apply orb_true_r.
Qed.

Lemma endsWith_inv (s suffix : string) :
  Str.endsWith s suffix = true -> exists p, s = p ++ suffix.
Proof.
  induction s as [|c s IH]; cbn [Str.endsWith]; intros H.
  - rewrite orb_false_r in H. apply String.eqb_eq in H. subst.
    exists EmptyString. reflexivity.
  - apply orb_true_iff in H. destruct H as [H|H].
    + apply String.eqb_eq in H. exists EmptyString. simpl. exact H.
    + destruct (IH H) as [p Hp]. exists (String c p). simpl. now rewrite Hp.
Qed.

Lemma trimEnd_idem (s : string) : Str.trimEnd (Str.trimEnd s) = Str.trimEnd s.
Proof.
  induction s as [|c s IH]; simpl; [reflexivity|].
  destruct (Str.trimEnd s) as [|c2 t2] eqn:E.
  - destruct (Str.is_ws c) eqn:W; simpl; [reflexivity|]. now rewrite W.
  - change (Str.trimEnd (String c (String c2 t2))) with
      (match Str.trimEnd (String c2 t2) with
       | EmptyString => if Str.is_ws c then EmptyString else String c EmptyString
       | String a b => String c (String a b)
       end).
    rewrite IH. reflexivity.
Qed.

Lemma trimStart_head (c : ascii) (s : string) :
  Str.is_ws c = false -> Str.trimStart (Str.trimEnd (String c s)) = Str.trimEnd (String c s).
Proof.
  intros W. simpl. destruct (Str.trimEnd s); rewrite ?W; simpl; now rewrite W.
Qed.

Lemma trimStart_shape (s : string) :
  Str.trimStart s = EmptyString
  \/ exists c s', Str.trimStart s = String c s' /\ Str.is_ws c = false.
Proof.
  induction s as [|c s IH]; simpl; [now left|].
  destruct (Str.is_ws c) eqn:W; [exact IH|].
  right. exists c, s. split; [reflexivity|exact W].
Qed.

Lemma trim_idem (s : string) : Str.trim (Str.trim s) = Str.trim s.
Proof.
  unfold Str.trim.
  destruct (trimStart_shape s) as [E|(c & s' & E & W)]; rewrite E.
  - reflexivity.
  - rewrite (trimStart_head c s' W). apply trimEnd_idem.
Qed.

Lemma ci_eq_refl (s : string) : Str.ci_eq s s = true.
Proof. apply String.eqb_refl. Qed.

Lemma ci_eq_lower (a b : string) :
  Str.ci_eq a b = true <-> Str.toLowerCase a = Str.toLowerCase b.
Proof. apply String.eqb_eq. Qed.

(** *** The trust policy *)

Lemma host_blocked_complete (host : string) :
  on_blocklist host -> host_blocked host = true.
Proof.
  intros (blocked & Hin & H). unfold host_blocked.
  apply existsb_exists. exists blocked. split; [exact Hin|].
  destruct H as [->|(sub & ->)].
  - now rewrite String.eqb_refl.
  - rewrite endsWith_app. apply orb_true_r.
Qed.

Lemma host_blocked_sound (host : string) :
  host_blocked host = true -> on_blocklist host.
Proof.
  unfold host_blocked. intros H. apply existsb_exists in H.
  destruct H as (blocked & Hin & H). exists blocked. split; [exact Hin|].
  apply orb_true_iff in H. destruct H as [H|H].
  - left. now apply String.eqb_eq.
  - right. apply endsWith_inv in H. exact H.
Qed.

Lemma isOfficialDirectLink_untrusted (l : string) (u : URL) :
  URL_parse l = Some u -> untrusted u -> isOfficialDirectLink l = false.
Proof.
  intros Hp Hu. unfold isOfficialDirectLink. rewrite Hp.
  destruct (l =? "") eqn:E0; [reflexivity|].
  destruct Hu as [[H1 H2]|[H|(stem & H)]].
  - apply String.eqb_neq in H1, H2. rewrite H1, H2. reflexivity.
  - rewrite (host_blocked_complete _ H).
    destruct (negb _ && negb _); reflexivity.
  - rewrite H, endsWith_app.
    destruct (negb _ && negb _); [reflexivity|].
    destruct (host_blocked _); reflexivity.
Qed.

Lemma isValidApplicationLink_untrusted (l : string) (u : URL) :
  URL_parse l = Some u -> untrusted u -> isValidApplicationLink l = false.
Proof.
  intros Hp Hu. unfold isValidApplicationLink. rewrite Hp.
  destruct ((l =? "") || (Str.trim l =? "")) eqn:E0; [reflexivity|].
  destruct Hu as [[H1 H2]|[H|(stem & H)]].
  - apply String.eqb_neq in H1, H2. rewrite H1, H2. reflexivity.
  - rewrite (host_blocked_complete _ H).
    destruct (negb _ && negb _); [reflexivity|].
    destruct (Str.endsWith _ _); reflexivity.
  - rewrite H, endsWith_app.
    destruct (negb _ && negb _); reflexivity.
Qed.

(** C5. Whatever the URL parser of the host, an address it parses is turned
    down by both copies of the trust policy ([isOfficialDirectLink] at
    extraction, [isValidApplicationLink] at the store) as soon as its scheme
    is neither http nor https, or its lower-cased host without one leading
    www. equals or lies below a listed domain, or its lower-cased path ends
    in .pdf; and on a host that reads https://mit.edu/apply as scheme https,
    host mit.edu and path /apply, both accept that address. *)
Theorem trust_policy_rejects_untrusted_links :
  URL_parse "https://mit.edu/apply"
    = Some {| protocol := "https:"; hostname := "mit.edu"; pathname := "/apply" |} ->
  (forall l u, URL_parse l = Some u -> untrusted u ->
     isOfficialDirectLink l = false /\ isValidApplicationLink l = false)
  /\ isOfficialDirectLink "https://mit.edu/apply" = true
  /\ isValidApplicationLink "https://mit.edu/apply" = true.
Proof.
  intros Hmit. split; [|split].
  - intros l u Hp Hu. split.
    + eapply isOfficialDirectLink_untrusted; eassumption.
    + eapply isValidApplicationLink_untrusted; eassumption.
  - unfold isOfficialDirectLink. rewrite Hmit. vm_compute. reflexivity.
  - unfold isValidApplicationLink. rewrite Hmit. vm_compute. reflexivity.
Qed.

(** *** The link verifier and the batch runner *)

Lemma verifyLinkReachable_returns (l : string) :
  verifyLinkReachable l = Ok (reachable l).
Proof.
  unfold reachable, verifyLinkReachable.
  destruct (fetch HEAD l) as [status|e]; [|reflexivity].
  destruct (res_ok status || _); [reflexivity|].
  destruct ((status =? 403)%Z || _); [|reflexivity].
  destruct (fetch GET l); reflexivity.
Qed.

Lemma res_ok_iff (status : Z) : res_ok status = true <-> (200 <= status < 300)%Z.
Proof. unfold res_ok. rewrite andb_true_iff, !Z.leb_le. lia. Qed.

Lemma all_checks (batch : list ParsedScholarship) :
  all_outcomes check_link batch = Ok (map (fun s => (s, reachable (link s))) batch).
Proof.
  induction batch as [|s batch IH]; simpl; [reflexivity|].
  unfold check_link at 1. rewrite verifyLinkReachable_returns, IH. reflexivity.
Qed.

Lemma filter_checks (batch : list ParsedScholarship) :
  map fst (filter snd (map (fun s => (s, reachable (link s))) batch))
  = filter (fun s => reachable (link s)) batch.
Proof.
  induction batch as [|s batch IH]; simpl; [reflexivity|].
  destruct (reachable (link s)); simpl; now rewrite IH.
Qed.

Lemma verify_windows_filter (batches : list (list ParsedScholarship))
    (verified : list ParsedScholarship) :
  verify_windows batches verified
  = Ok (verified ++ filter (fun s => reachable (link s)) (List.concat batches))%list.
Proof.
  revert verified. induction batches as [|batch rest IH]; intros verified; simpl.
  - now rewrite app_nil_r.
  - rewrite all_checks, IH, filter_checks, filter_app, app_assoc. reflexivity.
Qed.

Lemma concat_windows5_bounded {A : Type} (n : nat) :
  forall l : list A, (List.length l <= n)%nat -> List.concat (windows5 l) = l.
Proof.
  induction n as [|n IH]; intros l Hl.
  - destruct l; [reflexivity|simpl in Hl; lia].
  - destruct l as [|a [|b [|c [|d [|e rest]]]]]; try reflexivity.
    cbn [windows5 List.concat app]. rewrite IH; [reflexivity|simpl in Hl; lia].
Qed.

Lemma concat_windows5 {A : Type} (l : list A) : List.concat (windows5 l) = l.
Proof. apply (concat_windows5_bounded (List.length l)). lia. Qed.

Lemma runSearchBatch_filter (queries : list string)
    (searchFunction : string -> outcome (list ParsedScholarship)) :
  runSearchBatch queries searchFunction
  = match collect_results searchFunction queries [] with
    | Ok allResults => Ok (filter (fun s => reachable (link s)) allResults)
    | Throw e => Throw e
    end.
Proof.
  unfold runSearchBatch.
  destruct (collect_results searchFunction queries []) as [allResults|e];
    [|reflexivity].
  now rewrite verify_windows_filter, concat_windows5.
Qed.

(** C9. The verifier always returns, never throws; its verdict is true
    exactly when HEAD answers with a status in [200,300) or [300,400), or
    HEAD answers 403 or 405 and the one GET that follows answers with a
    status in [200,300); a request that fails (network error, timeout)
    never leads to true. The batch runner returns exactly the collected
    candidates whose link got the verdict true, in order. *)
Theorem verifier_accepts_exactly_live_links (l : string) :
  verifyLinkReachable l = Ok (reachable l)
  /\ (reachable l = true <->
      (exists status, fetch HEAD l = Ok status
         /\ (200 <= status < 300 \/ 300 <= status < 400)%Z)
      \/ (exists status status2, fetch HEAD l = Ok status
            /\ (status = 403 \/ status = 405)%Z
            /\ fetch GET l = Ok status2 /\ (200 <= status2 < 300)%Z))
  /\ (forall queries searchFunction,
        runSearchBatch queries searchFunction
        = match collect_results searchFunction queries [] with
          | Ok allResults => Ok (filter (fun s => reachable (link s)) allResults)
          | Throw e => Throw e
          end).
Proof.
  split; [apply verifyLinkReachable_returns|].
  split; [|apply runSearchBatch_filter].
  unfold reachable, verifyLinkReachable.
  destruct (fetch HEAD l) as [status|e].
  - destruct (res_ok status) eqn:Eok; simpl.
    + apply res_ok_iff in Eok. split; [|reflexivity].
      intros _. left. exists status. split; [reflexivity|lia].
    + assert (Hnok : ~ (200 <= status < 300)%Z)
        by (rewrite <- res_ok_iff, Eok; discriminate).
      destruct ((300 <=? status)%Z && (status <? 400)%Z) eqn:E3.
      * apply andb_true_iff in E3. destruct E3 as [E3 E4].
        apply Z.leb_le in E3. apply Z.ltb_lt in E4.
        split; [|reflexivity].
        intros _. left. exists status. split; [reflexivity|lia].
      * assert (Hn3 : ~ (300 <= status < 400)%Z).
        { intros [H1 H2]. apply Z.leb_le in H1. apply Z.ltb_lt in H2.
          rewrite H1, H2 in E3. discriminate. }
        destruct ((status =? 403)%Z || (status =? 405)%Z) eqn:E4.
        -- assert (H4 : (status = 403 \/ status = 405)%Z).
           { apply orb_true_iff in E4. destruct E4 as [E4|E4];
               apply Z.eqb_eq in E4; lia. }
           destruct (fetch GET l) as [status2|e2] eqn:Eget.
           ++ rewrite res_ok_iff. split.
              ** intros H2. right. exists status, status2. auto.
              ** intros [(st & Hst & Hr)|(st & st2 & _ & _ & Hg & Hr)].
                 --- inversion Hst; subst st. lia.
                 --- inversion Hg; subst st2. exact Hr.
           ++ split; [discriminate|].
              intros [(st & Hst & Hr)|(st & st2 & _ & _ & Hg & _)].
              ** inversion Hst; subst st. lia.
              ** discriminate.
        -- split; [discriminate|].
           intros [(st & Hst & Hr)|(st & st2 & Hst & H4 & _)].
           ++ inversion Hst; subst st. lia.
           ++ inversion Hst; subst st.
              destruct H4 as [->| ->]; discriminate.
  - split; [discriminate|].
    intros [(st & Hst & _)|(st & st2 & Hst & _)]; discriminate.
Qed.

(** *** The validation loop *)

Lemma validation_loop_acc (now : Z) (parsed : list json)
    (valid : list ParsedScholarship) :
  validation_loop now parsed valid = (valid ++ flat_map (kept now) parsed)%list.
Proof.
  revert valid. induction parsed as [|item rest IH]; intros valid; simpl.
  - now rewrite app_nil_r.
  - unfold kept at 1. destruct (validateEntry now item) as [s|].
    + rewrite IH, <- app_assoc. reflexivity.
    + apply IH.
Qed.

Lemma enum_none (allowed : list string) (s : string) :
  ~ In s allowed -> Zod.enum allowed (Some (JStr s)) = None.
Proof.
  intros Hn. unfold Zod.enum.
  destruct (existsb (String.eqb s) allowed) eqn:E; [|reflexivity].
  apply existsb_exists in E. destruct E as (x & Hx & E).
  apply String.eqb_eq in E. subst x. contradiction.
Qed.

Ltac skip_fields :=
  repeat (cbn [obind];
          match goal with
          | |- None = None => reflexivity
          | |- obind ?x _ = None =>
              let E := fresh "E" in destruct x eqn:E; [|reflexivity]
          end).

Lemma safeParse_missing (item : json) :
  missing_required item -> safeParse item = None.
Proof.
  destruct item as [| | | | |o]; simpl; try contradiction.
  intros (k & Hin & Hget). unfold REQUIRED_FIELDS in Hin. simpl in Hin.
  repeat (destruct Hin as [<-|Hin]);
    try contradiction; rewrite Hget; skip_fields; try discriminate.
Qed.

Lemma safeParse_enum (item : json) :
  violates_enum item -> safeParse item = None.
Proof.
  destruct item as [| | | | |o]; unfold violates_enum, safeParse;
    try contradiction.
  intros [(s & Hget & Hn)|[(s & Hget & Hn)|(s & Hget & Hn)]];
    rewrite Hget; unfold Zod.default; rewrite (enum_none _ _ Hn);
    skip_fields; try discriminate.
Qed.

Lemma validateEntry_violation (now : Z) (item : json) :
  missing_required item \/ violates_enum item -> validateEntry now item = None.
Proof.
  intros H. unfold validateEntry.
  rewrite (match H with
           | or_introl H1 => safeParse_missing item H1
           | or_intror H2 => safeParse_enum item H2
           end).
  reflexivity.
Qed.

(** C8. The output of the loop is the input filtered entry by entry: every
    entry contributes itself (as parsed by the schema) or nothing, whatever
    stands around it. Hence an entry that misses a required field or breaks
    an enum constraint is left out, and the entries before and after it
    fare exactly as they would without it. *)
Theorem validator_drops_only_the_violating_entry
    (now : Z) (before after : list json) (bad : json) :
  missing_required bad \/ violates_enum bad ->
  validation_loop now (before ++ bad :: after) []
  = (validation_loop now before [] ++ validation_loop now after [])%list
  /\ validation_loop now (before ++ bad :: after) []
     = validation_loop now (before ++ after) []
  /\ (forall items, validation_loop now items [] = flat_map (kept now) items).
Proof.
  intros Hbad.
  assert (Hk : kept now bad = [])
    by (unfold kept; now rewrite validateEntry_violation).
  rewrite !validation_loop_acc. cbn [app].
  rewrite !flat_map_app. cbn [flat_map]. rewrite Hk. cbn [app].
  repeat split.
  intros items. now rewrite validation_loop_acc.
Qed.

(** *** The calendar *)

Local Open Scope Z_scope.

Lemma YearFromDay_spec (day : Z) :
  Time.DayFromYear (Time.YearFromDay day) <= day
  < Time.DayFromYear (Time.YearFromDay day + 1).
Proof.
  unfold Time.YearFromDay, Time.DayFromYear.
  repeat match goal with
         | |- context [if ?b then _ else _] =>
             let E := fresh "E" in
             destruct b eqn:E;
             [ apply Z.leb_le in E || apply Z.ltb_lt in E
             | apply Z.leb_gt in E || apply Z.ltb_ge in E ]
         end;
    Z.to_euclidean_division_equations; lia.
Qed.

Lemma DayFromYear_step (y : Z) :
  365 <= Time.DayFromYear (y + 1) - Time.DayFromYear y <= 366.
Proof. unfold Time.DayFromYear. Z.to_euclidean_division_equations; lia. Qed.

Lemma DayFromYear_three (y : Z) :
  1095 <= Time.DayFromYear (y + 3) - Time.DayFromYear y.
Proof. unfold Time.DayFromYear. Z.to_euclidean_division_equations; lia. Qed.

Lemma InLeapYear_range (y : Z) : 0 <= Time.InLeapYear y <= 1.
Proof. unfold Time.InLeapYear. destruct (_ && _); lia. Qed.

Lemma MonthFromDayWithinYear_range (leap dwy : Z) :
  0 <= Time.MonthFromDayWithinYear leap dwy <= 11.
Proof.
  unfold Time.MonthFromDayWithinYear.
  repeat match goal with
         | |- context [if ?b then _ else _] => destruct b
         end; lia.
Qed.

Lemma monthStart_leap (l l' m : Z) :
  0 <= l <= 1 -> 0 <= l' <= 1 -> Time.monthStart l m - 1 <= Time.monthStart l' m.
Proof.
  intros Hl Hl'. unfold Time.monthStart.
  repeat match goal with
         | |- context [if ?b then _ else _] => destruct b
         end; lia.
Qed.

Lemma MakeDay_in_year (y m d : Z) :
  0 <= m <= 11 ->
  Time.MakeDay y m d
  = Time.DayFromYear y + Time.monthStart (Time.InLeapYear y) m + d - 1.
Proof.
  intros Hm. unfold Time.MakeDay.
  rewrite (Z.div_small m 12), (Z.mod_small m 12), Z.add_0_r by lia. reflexivity.
Qed.

(** Three years on in the calendar are at least 1094 days on. *)
Lemma setFullYear_three_years (now : Z) :
  now + 1094 * Time.msPerDay
  <= Time.setFullYear LocalTZA now (Time.getFullYear LocalTZA now + 3).
Proof.
  unfold Time.setFullYear, Time.getFullYear, Time.UTC, Time.MakeDate.
  set (lt := Time.LocalTime LocalTZA now).
  rewrite MakeDay_in_year by apply MonthFromDayWithinYear_range.
  unfold Time.DateFromTime, Time.DayWithinYear, Time.TimeWithinDay, Time.Day.
  set (Y := Time.YearFromTime lt).
  pose proof (DayFromYear_three Y) as H3.
  pose proof (monthStart_leap (Time.InLeapYear Y) (Time.InLeapYear (Y + 3))
                (Time.MonthFromTime lt)
                (InLeapYear_range Y) (InLeapYear_range (Y + 3))) as Hm.
  assert (Hlt : lt = now + LocalTZA) by reflexivity.
  pose proof (Z.div_mod lt Time.msPerDay ltac:(discriminate)) as Hdm.
  unfold Time.msPerDay in *. nia.
Qed.

(** The last day of the third calendar year on is at least 1094 days on. *)
Lemma newDate_end_of_third_year (now : Z) :
  now + 1094 * Time.msPerDay
  <= Time.newDate LocalTZA (Time.getFullYear LocalTZA now + 3) 11 31.
Proof.
  unfold Time.newDate, Time.getFullYear, Time.UTC, Time.MakeDate.
  set (lt := Time.LocalTime LocalTZA now).
  rewrite MakeDay_in_year by lia.
  unfold Time.YearFromTime, Time.Day.
  set (Y := Time.YearFromDay (lt / Time.msPerDay)).
  pose proof (YearFromDay_spec (lt / Time.msPerDay)) as Hy. fold Y in Hy.
  pose proof (DayFromYear_step (Y + 1)) as H1.
  pose proof (DayFromYear_step (Y + 2)) as H2.
  replace (Y + 1 + 1) with (Y + 2) in H1 by lia.
  replace (Y + 2 + 1) with (Y + 3) in H2 by lia.
  pose proof (InLeapYear_range (Y + 3)) as Hl.
  assert (Hlt : lt = now + LocalTZA) by reflexivity.
  pose proof (Z.div_mod lt Time.msPerDay ltac:(discriminate)) as Hdm.
  pose proof (Z.mod_pos_bound lt Time.msPerDay ltac:(reflexivity)) as Hr.
  change (Time.monthStart (Time.InLeapYear (Y + 3)) 11)
    with (334 + Time.InLeapYear (Y + 3)).
  unfold Time.msPerDay in *. nia.
Qed.

(** *** What the schema guarantees *)

Lemma string_min_some (n : nat) (v : option json) (s : string) :
  Zod.string_min n v = Some s -> (n <= String.length s)%nat.
Proof.
  unfold Zod.string_min. destruct v as [[| | |s'| |]|]; try discriminate.
  destruct (n <=? String.length s')%nat eqn:E; [|discriminate].
  intros H. inversion H; subst. now apply Nat.leb_le.
Qed.

Lemma zod_link_some (v : option json) (s : string) :
  zod_link v = Some s ->
  Str.startsWith s "http://" || Str.startsWith s "https://" = true.
Proof.
  unfold zod_link. destruct v as [[| | |s'| |]|]; try discriminate.
  destruct (URL_parse s'); [|discriminate].
  destruct (Str.startsWith s' "http://" || Str.startsWith s' "https://") eqn:E;
    [|discriminate].
  intros H. inversion H; subst. exact E.
Qed.

Lemma safeParse_fields (item : json) (s : ParsedScholarship) :
  safeParse item = Some s ->
  (10 <= String.length (title s))%nat
  /\ (3 <= String.length (organization s))%nat
  /\ (50 <= String.length (description s))%nat
  /\ Str.startsWith (link s) "http://" || Str.startsWith (link s) "https://" = true.
Proof.
  destruct item as [| | | | |o]; try discriminate. unfold safeParse.
  repeat match goal with
         | |- obind ?x _ = Some _ -> _ =>
             let E := fresh "E" in
             destruct x eqn:E; cbn [obind]; [|discriminate]
         end.
  intros H. inversion H; subst; cbn.
  repeat split;
    solve [ eapply string_min_some; eassumption
          | eapply zod_link_some; eassumption ].
Qed.

Lemma trim_http_nonempty (l : string) :
  Str.startsWith l "http://" || Str.startsWith l "https://" = true ->
  (Str.trim l =? "")%string = false.
Proof.
  intros H.
  assert (Hh : exists l', l = String "h" l').
  { destruct l as [|c l']; [discriminate|].
    unfold Str.startsWith in H. cbn [String.prefix] in H.
    destruct (ascii_dec "h" c) as [<-|]; [now exists l'|discriminate]. }
  destruct Hh as [l' ->]. unfold Str.trim.
  change (Str.trimStart (String "h" l')) with (String "h" l').
  cbn [Str.trimEnd]. destruct (Str.trimEnd l'); reflexivity.
Qed.

Lemma link_policies_agree (l : string) :
  (Str.trim l =? "")%string = false ->
  isValidApplicationLink l = isOfficialDirectLink l.
Proof.
  intros H. unfold isValidApplicationLink, isOfficialDirectLink. rewrite H.
  destruct (l =? "")%string; [reflexivity|]. cbn [orb].
  destruct (URL_parse l) as [u|]; [|reflexivity].
  destruct (protocol u =? "http:")%string, (protocol u =? "https:")%string;
    cbn [negb andb]; try reflexivity;
    destruct (host_blocked _), (Str.endsWith _ _); reflexivity.
Qed.

Lemma validateEntry_parsed (now : Z) (item : json) (s : ParsedScholarship) :
  safeParse item = Some s ->
  isOfficialDirectLink (link s) = true ->
  validateEntry now item
  = match Date_parse (deadline s) with
    | None => None
    | Some d =>
        if d <? now then None
        else if Time.setFullYear LocalTZA now (Time.getFullYear LocalTZA now + 3)
                <? d
             then None else Some s
    end.
Proof.
  intros Hs Hl. unfold validateEntry. rewrite Hs, Hl. reflexivity.
Qed.

Lemma validateScholarshipData_parsed (now : Z) (item : json)
    (s : ParsedScholarship) :
  safeParse item = Some s ->
  isOfficialDirectLink (link s) = true ->
  valid (validateScholarshipData now s)
  = match Date_parse (deadline s) with
    | None => true
    | Some d =>
        negb (d <? now)
        && negb (Time.newDate LocalTZA (Time.getFullYear LocalTZA now + 3) 11 31
                 <? d)
    end.
Proof.
  intros Hs Hl.
  destruct (safeParse_fields item s Hs) as (Ht & Ho & Hd & Hk).
  unfold validateScholarshipData.
  apply Nat.ltb_ge in Ht, Ho, Hd. rewrite Ht, Ho, Hd.
  rewrite (link_policies_agree _ (trim_http_nonempty _ Hk)), Hl. cbn [negb].
  destruct (Date_parse (deadline s)) as [d|]; cbn [Time.date_lt Time.date_gt].
  - destruct (d <? now); [reflexivity|].
    destruct (_ <? d); reflexivity.
  - reflexivity.
Qed.

(** C6, as the code has it. For an entry the schema accepts and whose link
    the trust policy accepts, the loop of the provider leaves it out exactly
    when its deadline does not parse, lies strictly before the current time,
    or lies after the current time moved three calendar years on; a deadline
    one day after the current time is kept, and passes the store as well.
    The store applies a window of its own: it turns the candidate down
    exactly when the deadline parses and lies strictly before the current
    time or after local midnight of 31 December of the third calendar year
    on. *)
Theorem deadline_window_of_each_stage
    (now : Z) (item : json) (s : ParsedScholarship) :
  safeParse item = Some s ->
  isOfficialDirectLink (link s) = true ->
  (validateEntry now item = None <->
     Date_parse (deadline s) = None
     \/ exists d, Date_parse (deadline s) = Some d
          /\ (d < now
              \/ Time.setFullYear LocalTZA now (Time.getFullYear LocalTZA now + 3)
                 < d))
  /\ (Date_parse (deadline s) = Some (now + Time.msPerDay) ->
      validateEntry now item = Some s
      /\ valid (validateScholarshipData now s) = true)
  /\ (valid (validateScholarshipData now s) = false <->
      exists d, Date_parse (deadline s) = Some d
        /\ (d < now
            \/ Time.newDate LocalTZA (Time.getFullYear LocalTZA now + 3) 11 31
               < d)).
Proof.
  intros Hs Hl.
  rewrite (validateEntry_parsed now item s Hs Hl).
  rewrite (validateScholarshipData_parsed now item s Hs Hl).
  pose proof (setFullYear_three_years now) as H3.
  pose proof (newDate_end_of_third_year now) as H4.
  split; [|split].
  - destruct (Date_parse (deadline s)) as [d|].
    + destruct (d <? now) eqn:E1.
      * apply Z.ltb_lt in E1. split; [|reflexivity].
        intros _. right. exists d. split; [reflexivity|now left].
      * apply Z.ltb_ge in E1.
        destruct (_ <? d) eqn:E2.
        -- apply Z.ltb_lt in E2. split; [|reflexivity].
           intros _. right. exists d. split; [reflexivity|now right].
        -- apply Z.ltb_ge in E2. split; [discriminate|].
           intros [H|(d' & H & Hd)]; [discriminate|].
           inversion H; subst d'. lia.
    + split; [now left|reflexivity].
  - intros Hd. rewrite Hd.
    assert (E1 : (now + Time.msPerDay <? now) = false)
      by (apply Z.ltb_ge; unfold Time.msPerDay; lia).
    rewrite E1. split.
    + assert (E2 : (Time.setFullYear LocalTZA now
                      (Time.getFullYear LocalTZA now + 3)
                    <? now + Time.msPerDay) = false)
        by (apply Z.ltb_ge; unfold Time.msPerDay in *; lia).
      now rewrite E2.
    + assert (E2 : (Time.newDate LocalTZA (Time.getFullYear LocalTZA now + 3) 11 31
                    <? now + Time.msPerDay) = false)
        by (apply Z.ltb_ge; unfold Time.msPerDay in *; lia).
      now rewrite E2.
  - destruct (Date_parse (deadline s)) as [d|].
    + destruct (d <? now) eqn:E1; cbn [negb andb].
      * apply Z.ltb_lt in E1. split; [|reflexivity].
        intros _. exists d. split; [reflexivity|now left].
      * apply Z.ltb_ge in E1.
        destruct (_ <? d) eqn:E2; cbn [negb].
        -- apply Z.ltb_lt in E2. split; [|reflexivity].
           intros _. exists d. split; [reflexivity|now right].
        -- apply Z.ltb_ge in E2. split; [discriminate|].
           intros (d' & H & Hd). inversion H; subst d'. lia.
    + split; [discriminate|]. intros (d & H & _). discriminate.
Qed.

(** *** Lists and collections *)

Lemma NoDup_map_inj {A B : Type} (f : A -> B) (l : list A) (a b : A) :
  NoDup (map f l) -> In a l -> In b l -> f a = f b -> a = b.
Proof.
  induction l as [|x l IH]; simpl; intros Hnd Ha Hb Hf; [contradiction|].
  inversion Hnd as [|? ? Hx Hnd']; subst.
  destruct Ha as [->|Ha], Hb as [->|Hb]; auto.
  - exfalso. apply Hx. rewrite Hf. now apply in_map.
  - exfalso. apply Hx. rewrite <- Hf. now apply in_map.
Qed.

Lemma find_app_first {A : Type} (f : A -> bool) (l1 l2 : list A) (x : A) :
  find f l1 = Some x -> find f (l1 ++ l2) = Some x.
Proof.
  induction l1 as [|a l1 IH]; simpl; [discriminate|].
  destruct (f a); auto.
Qed.

Lemma find_app_second {A : Type} (f : A -> bool) (l1 l2 : list A) :
  find f l1 = None -> find f (l1 ++ l2) = find f l2.
Proof.
  induction l1 as [|a l1 IH]; simpl; [reflexivity|].
  destruct (f a); [discriminate|auto].
Qed.

Lemma lookup_unique (coll : list ScholarshipDoc) (d : ScholarshipDoc) :
  unique_ids coll -> In d coll -> lookup (doc_id d) coll = Some d.
Proof.
  unfold unique_ids, lookup.
  induction coll as [|x coll IH]; simpl; intros Hnd Hin; [contradiction|].
  inversion Hnd as [|? ? Hx Hnd']; subst.
  destruct (doc_id x =? doc_id d)%nat eqn:E.
  - apply Nat.eqb_eq in E. destruct Hin as [->|Hin]; [reflexivity|].
    exfalso. apply Hx. rewrite E. now apply in_map.
  - destruct Hin as [->|Hin]; [now rewrite Nat.eqb_refl in E|auto].
Qed.

Lemma lookup_id (i : nat) (coll : list ScholarshipDoc) (d : ScholarshipDoc) :
  lookup i coll = Some d -> In d coll /\ doc_id d = i.
Proof.
  unfold lookup. intros H. apply find_some in H. destruct H as [Hin E].
  apply Nat.eqb_eq in E. auto.
Qed.

Lemma lookup_map (i i0 : nat) (g : ScholarshipDoc -> ScholarshipDoc)
    (coll : list ScholarshipDoc) :
  (forall d, doc_id (g d) = doc_id d) ->
  lookup i (map (fun d => if (doc_id d =? i0)%nat then g d else d) coll)
  = match lookup i coll with
    | Some d => Some (if (doc_id d =? i0)%nat then g d else d)
    | None => None
    end.
Proof.
  intros Hg. unfold lookup.
  induction coll as [|x coll IH]; simpl; [reflexivity|].
  replace (doc_id (if (doc_id x =? i0)%nat then g x else x)) with (doc_id x)
    by (destruct (doc_id x =? i0)%nat; [now rewrite Hg|reflexivity]).
  destruct (doc_id x =? i)%nat; [reflexivity|exact IH].
Qed.

Lemma map_ids_update (i0 : nat) (g : ScholarshipDoc -> ScholarshipDoc)
    (coll : list ScholarshipDoc) :
  (forall d, doc_id (g d) = doc_id d) ->
  map doc_id (map (fun d => if (doc_id d =? i0)%nat then g d else d) coll)
  = map doc_id coll.
Proof.
  intros Hg. rewrite map_map. apply map_ext. intros d.
  destruct (doc_id d =? i0)%nat; [apply Hg|reflexivity].
Qed.

(** *** The turns of the store loop *)

Lemma storeStep_rejected (now : Z) (source : string) (c : Counters)
    (s : ParsedScholarship) (w : World) :
  valid (validateScholarshipData now s) = false ->
  storeStep now source c s w = (Ok (incr_rejected c), w).
Proof. intros H. unfold storeStep. now rewrite H. Qed.

Lemma storeStep_found (now : Z) (source : string) (c : Counters)
    (s : ParsedScholarship) (w : World) (ex : ScholarshipDoc) :
  valid (validateScholarshipData now s) = true ->
  Scholarship_findOne (Str.trim (title s)) (Str.trim (organization s))
    (Scholarship w) = Some ex ->
  storeStep now source c s w
  = if later s ex || longer s ex then
      match Scholarship_updateOne now (doc_id ex) (merge_set now s ex) w with
      | (Ok _, w') => (Ok (incr_duped c), w')
      | (Throw e, w') => (Throw e, w')
      end
    else (Ok (incr_duped c), w).
Proof.
  intros Hv Hf. unfold storeStep. rewrite Hv, Hf. cbn [negb].
  unfold bind, ret. destruct (later s ex || longer s ex); [|reflexivity].
  destruct (Scholarship_updateOne _ _ _ w) as [[[]|e] w']; reflexivity.
Qed.

Lemma storeStep_new (now : Z) (source : string) (c : Counters)
    (s : ParsedScholarship) (w : World) :
  valid (validateScholarshipData now s) = true ->
  Scholarship_findOne (Str.trim (title s)) (Str.trim (organization s))
    (Scholarship w) = None ->
  storeStep now source c s w
  = match Date_parse (deadline s) with
    | None => (Ok c, w)
    | Some d =>
        if negb (required_present s) then (Ok c, w)
        else if index_conflict None (Str.trim (title s))
                  (Str.trim (organization s)) d (Scholarship w)
        then (Ok (incr_duped c), w)
        else (Ok (incr_added c),
              with_docs (Scholarship w ++ [inserted now source s d (nextId w)])
                        (S (nextId w)) w)
    end.
Proof.
  intros Hv Hf. unfold storeStep. rewrite Hv, Hf. cbn [negb].
  unfold try_catch, bind, ret, Scholarship_create.
  destruct (Date_parse (deadline s)) as [d|]; [|reflexivity].
  fold (required_present s).
  destruct (required_present s); [|reflexivity]. cbn [negb].
  destruct (index_conflict None _ _ d (Scholarship w)); reflexivity.
Qed.

(** A record that matches up to letter case shuts out a clash on the
    unique index: the insert of [storeScholarships] never meets one. *)
Lemma no_match_no_conflict (t o : string) (d : Z) (coll : list ScholarshipDoc) :
  Scholarship_findOne t o coll = None -> index_conflict None t o d coll = false.
Proof.
  unfold Scholarship_findOne, index_conflict. intros Hf.
  destruct (existsb _ coll) eqn:E; [|reflexivity].
  apply existsb_exists in E. destruct E as (x & Hin & E).
  apply (find_none _ _ Hf) in Hin.
  rewrite !andb_true_iff in E. destruct E as [[[Et Eo] _] _].
  apply String.eqb_eq in Et, Eo.
  rewrite Et, Eo, !ci_eq_refl in Hin. discriminate.
Qed.

Lemma storeStep_inserts (now : Z) (source : string) (c : Counters)
    (s : ParsedScholarship) (w : World) (d : Z) :
  valid (validateScholarshipData now s) = true ->
  Scholarship_findOne (Str.trim (title s)) (Str.trim (organization s))
    (Scholarship w) = None ->
  Date_parse (deadline s) = Some d ->
  required_present s = true ->
  storeStep now source c s w
  = (Ok (incr_added c),
     with_docs (Scholarship w ++ [inserted now source s d (nextId w)])
               (S (nextId w)) w).
Proof.
  intros Hv Hf Hd Hr. rewrite (storeStep_new now source c s w Hv Hf), Hd, Hr.
  cbn [negb]. now rewrite (no_match_no_conflict _ _ d _ Hf).
Qed.

(** *** Storing the same candidate twice *)

Lemma findOne_inserted (now : Z) (source : string) (s : ParsedScholarship)
    (d : Z) (id : nat) (coll : list ScholarshipDoc) :
  Scholarship_findOne (Str.trim (title s)) (Str.trim (organization s)) coll = None ->
  Scholarship_findOne (Str.trim (title s)) (Str.trim (organization s))
    (coll ++ [inserted now source s d id])
  = Some (inserted now source s d id).
Proof.
  intros Hf. unfold Scholarship_findOne in *.
  rewrite (find_app_second _ _ _ Hf). cbn [find inserted doc_title doc_organization].
  now rewrite !ci_eq_refl.
Qed.

(** C7, as the code has it. A candidate that passes the validation of the
    store, whose deadline reads as a date, whose required fields are not
    empty in the form they are stored in (trimmed: the schema of the
    collection refuses an empty one) and that matches no stored record is
    inserted by a first call (one added, one more record) and found as a
    duplicate by a second call, which leaves the world as the first call
    left it. *)
Theorem storing_twice_inserts_once
    (now1 now2 : Z) (source : string) (s : ParsedScholarship) (w : World) (d : Z) :
  valid (validateScholarshipData now1 s) = true ->
  valid (validateScholarshipData now2 s) = true ->
  Date_parse (deadline s) = Some d ->
  required_present s = true ->
  Scholarship_findOne (Str.trim (title s)) (Str.trim (organization s))
    (Scholarship w) = None ->
  exists w1,
    store_loop now1 source [s] {| added := 0; rejected := 0; duped := 0 |} w
    = (Ok {| added := 1; rejected := 0; duped := 0 |}, w1)
    /\ storeScholarships now1 [s] source w = (Ok 1%nat, w1)
    /\ List.length (Scholarship w1) = S (List.length (Scholarship w))
    /\ store_loop now2 source [s] {| added := 0; rejected := 0; duped := 0 |} w1
       = (Ok {| added := 0; rejected := 0; duped := 1 |}, w1)
    /\ storeScholarships now2 [s] source w1 = (Ok 0%nat, w1).
Proof.
  intros Hv1 Hv2 Hd Hr Hf.
  set (ins := inserted now1 source s d (nextId w)).
  set (w1 := with_docs (Scholarship w ++ [ins]) (S (nextId w)) w).
  exists w1.
  assert (H1 : forall c, storeStep now1 source c s w = (Ok (incr_added c), w1))
    by (intros c; now apply storeStep_inserts).
  assert (H2 : forall c, storeStep now2 source c s w1 = (Ok (incr_duped c), w1)).
  { intros c.
    rewrite (storeStep_found now2 source c s w1 ins Hv2)
      by (apply findOne_inserted; exact Hf).
    unfold later, longer. rewrite Hd.
    cbn [ins inserted doc_deadline doc_description Time.date_gt Time.date_lt].
    now rewrite Z.ltb_irrefl, Nat.ltb_irrefl. }
  unfold storeScholarships, store_loop, bind, ret. rewrite H1, H2.
  repeat split. cbn. rewrite length_app. cbn. lia.
Qed.

(** *** Identity keys stay unique *)

Lemma NoDup_snoc {A : Type} (l : list A) (a : A) :
  NoDup l -> ~ In a l -> NoDup (l ++ [a]).
Proof.
  induction l as [|x l IH]; simpl; intros Hnd Hn.
  - constructor; [auto|constructor].
  - inversion Hnd as [|? ? Hx Hnd']; subst. constructor.
    + rewrite in_app_iff. simpl. intros [H|[H|[]]]; [auto|subst; auto].
    + apply IH; auto.
Qed.

Lemma updateOne_unique_keys (now : Z) (id : nat) (u : MergeSet) (w : World) :
  unique_keys (Scholarship w) ->
  unique_keys (Scholarship (snd (Scholarship_updateOne now id u w))).
Proof.
  intros [Ht Hk]. unfold Scholarship_updateOne.
  destruct (set_deadline u) as [dl|]; [|now split].
  destruct (find _ (Scholarship w)) as [target|]; [|now split].
  destruct (index_conflict _ _ _ dl (Scholarship w)); [now split|].
  cbn [snd with_docs Scholarship]. split.
  - apply Forall_map. eapply Forall_impl; [|exact Ht].
    intros x Hx. destruct (doc_id x =? id)%nat; exact Hx.
  - rewrite map_map.
    rewrite (map_ext _ identity_key); [exact Hk|].
    intros x. destruct (doc_id x =? id)%nat; reflexivity.
Qed.

Lemma inserted_key_fresh (now : Z) (source : string) (s : ParsedScholarship)
    (d : Z) (id : nat) (coll : list ScholarshipDoc) :
  Forall trimmed coll ->
  Scholarship_findOne (Str.trim (title s)) (Str.trim (organization s)) coll = None ->
  ~ In (identity_key (inserted now source s d id)) (map identity_key coll).
Proof.
  intros Ht Hf Hin. apply in_map_iff in Hin. destruct Hin as (x & Hk & Hin).
  unfold Scholarship_findOne in Hf. apply (find_none _ _ Hf) in Hin as Hx.
  rewrite Forall_forall in Ht. destruct (Ht x Hin) as [Tt To].
  unfold identity_key in Hk.
  cbn [inserted doc_title doc_organization] in Hk.
  rewrite Tt, To, !trim_idem in Hk. inversion Hk as [[Hl1 Hl2]].
  apply ci_eq_lower in Hl1, Hl2. rewrite Hl1, Hl2 in Hx. discriminate.
Qed.

Lemma storeStep_unique_keys (now : Z) (source : string) (c : Counters)
    (s : ParsedScholarship) (w : World) :
  unique_keys (Scholarship w) ->
  unique_keys (Scholarship (snd (storeStep now source c s w))).
Proof.
  intros Hu.
  destruct (valid (validateScholarshipData now s)) eqn:Hv;
    [|now rewrite storeStep_rejected].
  destruct (Scholarship_findOne (Str.trim (title s))
              (Str.trim (organization s)) (Scholarship w)) as [ex|] eqn:Hf.
  - rewrite (storeStep_found now source c s w ex Hv Hf).
    destruct (later s ex || longer s ex); [|exact Hu].
    pose proof (updateOne_unique_keys now (doc_id ex) (merge_set now s ex) w Hu)
      as H.
    destruct (Scholarship_updateOne _ _ _ w) as [[[]|e] w']; exact H.
  - rewrite (storeStep_new now source c s w Hv Hf).
    destruct (Date_parse (deadline s)) as [d|]; [|exact Hu].
    destruct (required_present s); [|exact Hu]. cbn [negb].
    destruct (index_conflict None _ _ d (Scholarship w)); [exact Hu|].
    cbn [snd with_docs Scholarship]. destruct Hu as [Ht Hk]. split.
    + apply Forall_app. split; [exact Ht|].
      constructor; [|constructor]. split; apply trim_idem.
    + rewrite map_app. apply NoDup_snoc; [exact Hk|].
      now apply inserted_key_fresh.
Qed.

Lemma store_loop_unique_keys (now : Z) (source : string)
    (scholarships : list ParsedScholarship) :
  forall (c : Counters) (w : World),
    unique_keys (Scholarship w) ->
    unique_keys (Scholarship (snd (store_loop now source scholarships c w))).
Proof.
  induction scholarships as [|s rest IH]; intros c w Hu; [exact Hu|].
  cbn [store_loop]. unfold bind.
  pose proof (storeStep_unique_keys now source c s w Hu) as H.
  destruct (storeStep now source c s w) as [[c'|e] w']; [|exact H].
  now apply IH.
Qed.

(** C3, as the code has it. If titles and organizations are stored trimmed
    and no two stored records share an identity key, the same holds after
    [storeScholarships], whatever the candidates and whether the call
    returns or throws: the duplicate check of the merge step alone keeps
    the keys unique. *)
Theorem merge_keeps_identity_keys_unique
    (now : Z) (scholarships : list ParsedScholarship) (source : string)
    (w : World) :
  unique_keys (Scholarship w) ->
  unique_keys (Scholarship (snd (storeScholarships now scholarships source w))).
Proof.
  intros Hu. unfold storeScholarships, bind, ret.
  pose proof (store_loop_unique_keys now source scholarships
                {| added := 0; rejected := 0; duped := 0 |} w Hu) as H.
  destruct (store_loop _ _ _ _ w) as [[c|e] w']; exact H.
Qed.

(** *** The merge of a candidate into the record it matches *)

Lemma valid_link (now : Z) (s : ParsedScholarship) :
  valid (validateScholarshipData now s) = true ->
  isValidApplicationLink (link s) = true.
Proof.
  unfold validateScholarshipData.
  destruct (String.length (title s) <? 10)%nat; [discriminate|].
  destruct (String.length (organization s) <? 3)%nat; [discriminate|].
  destruct (String.length (description s) <? 50)%nat; [discriminate|].
  destruct (isValidApplicationLink (link s)); [reflexivity|discriminate].
Qed.

Lemma valid_description (now : Z) (s : ParsedScholarship) :
  valid (validateScholarshipData now s) = true ->
  (50 <= String.length (description s))%nat.
Proof.
  unfold validateScholarshipData.
  destruct (String.length (title s) <? 10)%nat; [discriminate|].
  destruct (String.length (organization s) <? 3)%nat; [discriminate|].
  destruct (String.length (description s) <? 50)%nat eqn:E; [discriminate|].
  intros _. now apply Nat.ltb_ge.
Qed.

(** The deadline the update writes is the later of the two. *)
Lemma merge_deadline (now : Z) (s : ParsedScholarship) (ex : ScholarshipDoc) :
  set_deadline (merge_set now s ex)
  = Some match Date_parse (deadline s) with
         | Some n => Z.max (doc_deadline ex) n
         | None => doc_deadline ex
         end.
Proof.
  unfold merge_set, later. cbn [set_deadline Time.date_gt Time.date_lt].
  destruct (Date_parse (deadline s)) as [n|]; [|reflexivity].
  destruct (doc_deadline ex <? n) eqn:E; f_equal.
  - apply Z.ltb_lt in E. lia.
  - apply Z.ltb_ge in E. lia.
Qed.

Lemma updated_id (now : Z) (u : MergeSet) (dl : Z) (d : ScholarshipDoc) :
  doc_id (updated now u dl d) = doc_id d.
Proof. reflexivity. Qed.

Lemma updateOne_cases (now : Z) (id : nat) (u : MergeSet) (w : World) (dl : Z) :
  set_deadline u = Some dl ->
  Scholarship_updateOne now id u w = (Throw E11000, w)
  \/ Scholarship_updateOne now id u w = (Ok tt, w)
     /\ lookup id (Scholarship w) = None
  \/ Scholarship_updateOne now id u w
     = (Ok tt,
        with_docs (map (fun d => if (doc_id d =? id)%nat
                                 then updated now u dl d else d)
                       (Scholarship w))
                  (nextId w) w).
Proof.
  intros Hd. unfold Scholarship_updateOne, lookup. rewrite Hd.
  destruct (find _ (Scholarship w)) as [target|]; [|now right; left].
  destruct (index_conflict _ _ _ dl (Scholarship w)); [now left|now right; right].
Qed.

(** The update of a record that is in the collection: refused by the
    unique index, or applied to that record alone. *)
Lemma updateOne_found (now : Z) (u : MergeSet) (w : World) (ex : ScholarshipDoc)
    (dl : Z) :
  unique_ids (Scholarship w) ->
  In ex (Scholarship w) -> set_deadline u = Some dl ->
  Scholarship_updateOne now (doc_id ex) u w
  = if index_conflict (Some (doc_id ex)) (doc_title ex) (doc_organization ex)
         dl (Scholarship w)
    then (Throw E11000, w)
    else (Ok tt,
          with_docs (map (fun d => if (doc_id d =? doc_id ex)%nat
                                   then updated now u dl d else d)
                         (Scholarship w))
                    (nextId w) w).
Proof.
  intros Hi Hin Hd. unfold Scholarship_updateOne. rewrite Hd.
  pose proof (lookup_unique _ _ Hi Hin) as Hl. unfold lookup in Hl. rewrite Hl.
  reflexivity.
Qed.

Lemma findOne_in (t o : string) (coll : list ScholarshipDoc) (ex : ScholarshipDoc) :
  Scholarship_findOne t o coll = Some ex -> In ex coll.
Proof. intros H. apply find_some in H. tauto. Qed.

(** C4, as the code has it. A candidate that passes the validation of the
    store and matches the stored record [ex], in a collection with unique
    identifiers. If neither the incoming deadline is strictly later nor the
    trimmed incoming description strictly longer, the step counts a
    duplicate and leaves the world unchanged. Otherwise it attempts an
    update whose deadline [dl] is the later of the two. If another record
    has the title and organization of [ex] and the deadline [dl], the
    unique index refuses the update: the step throws, nothing is counted,
    nothing is written. If not, the step counts a duplicate and touches no
    other record; the record keeps its identifier and every field except
    these six: the deadline ([dl]), the description (the incoming one if
    longer), the link (the trimmed incoming link), the amount (the trimmed
    incoming amount unless empty) and the two update time stamps,
    [updated_at] of the schema and [updatedAt] of the collection (the
    current time). *)
Theorem merge_updates_only_better_fields
    (now : Z) (source : string) (c : Counters) (s : ParsedScholarship)
    (w : World) (ex : ScholarshipDoc) :
  valid (validateScholarshipData now s) = true ->
  Scholarship_findOne (Str.trim (title s)) (Str.trim (organization s))
    (Scholarship w) = Some ex ->
  unique_ids (Scholarship w) ->
  if later s ex || longer s ex then
    exists dl,
      Some dl = (if later s ex then Date_parse (deadline s)
                 else Some (doc_deadline ex))
      /\ if index_conflict (Some (doc_id ex)) (doc_title ex)
              (doc_organization ex) dl (Scholarship w)
         then storeStep now source c s w = (Throw E11000, w)
         else
           exists w' ex',
             storeStep now source c s w = (Ok (incr_duped c), w')
             /\ (forall i, i <> doc_id ex ->
                   lookup i (Scholarship w') = lookup i (Scholarship w))
             /\ map doc_id (Scholarship w') = map doc_id (Scholarship w)
             /\ lookup (doc_id ex) (Scholarship w') = Some ex'
             /\ doc_deadline ex' = dl
             /\ doc_description ex'
                = (if longer s ex then Str.trim (description s)
                   else doc_description ex)
             /\ doc_link ex' = Str.trim (link s)
             /\ doc_amount ex' = or_else (Str.trim (amount s)) (doc_amount ex)
             /\ doc_updated_at ex' = now
             /\ doc_updatedAt ex' = now
             /\ doc_title ex' = doc_title ex
             /\ doc_organization ex' = doc_organization ex
             /\ doc_country ex' = doc_country ex
             /\ doc_level ex' = doc_level ex
             /\ doc_field ex' = doc_field ex
             /\ doc_category ex' = doc_category ex
             /\ doc_currency ex' = doc_currency ex
             /\ doc_is_verified ex' = doc_is_verified ex
             /\ doc_verification_notes ex' = doc_verification_notes ex
             /\ doc_source ex' = doc_source ex
             /\ doc_created_at ex' = doc_created_at ex
             /\ doc_createdAt ex' = doc_createdAt ex
  else storeStep now source c s w = (Ok (incr_duped c), w).
Proof.
  intros Hv Hf Hi.
  pose proof (findOne_in _ _ _ _ Hf) as Hin.
  rewrite (storeStep_found now source c s w ex Hv Hf).
  destruct (later s ex || longer s ex) eqn:Hc; [|reflexivity].
  pose proof (merge_deadline now s ex) as Hd.
  set (dl := match Date_parse (deadline s) with
             | Some n => Z.max (doc_deadline ex) n
             | None => doc_deadline ex
             end) in Hd.
  exists dl. split; [symmetry; exact Hd|].
  rewrite (updateOne_found now _ w ex dl Hi Hin Hd).
  destruct (index_conflict _ _ _ dl (Scholarship w)); [reflexivity|].
  eexists. eexists. split; [reflexivity|].
  cbn [with_docs Scholarship]. split; [|split; [|split]].
  - intros i Hne. rewrite lookup_map by apply updated_id.
    destruct (lookup i (Scholarship w)) as [x|] eqn:Hx; [|reflexivity].
    apply lookup_id in Hx. destruct Hx as [_ Hx].
    assert (E : (doc_id x =? doc_id ex)%nat = false)
      by (apply Nat.eqb_neq; congruence).
    now rewrite E.
  - apply map_ids_update, updated_id.
  - rewrite lookup_map by apply updated_id.
    rewrite (lookup_unique _ _ Hi Hin), Nat.eqb_refl. reflexivity.
  - cbn [updated applyTimestamps apply_set merge_set doc_deadline
           doc_description doc_link doc_amount doc_updated_at doc_updatedAt
           doc_title doc_organization doc_country doc_level doc_field
           doc_category doc_currency doc_is_verified doc_verification_notes
           doc_source doc_created_at doc_createdAt set_description set_link
           set_amount set_updated_at].
    rewrite (valid_link now s Hv).
    repeat split.
Qed.

(** *** Stored deadlines only move forward *)

Lemma deadlines_kept_refl (coll : list ScholarshipDoc) :
  unique_ids coll -> deadlines_kept coll coll.
Proof.
  intros Hi d Hin. exists d. split; [now apply lookup_unique|lia].
Qed.

Lemma deadlines_kept_update (now : Z) (coll : list ScholarshipDoc)
    (ex : ScholarshipDoc) (u : MergeSet) (dl : Z) :
  unique_ids coll -> In ex coll -> doc_deadline ex <= dl ->
  deadlines_kept coll
    (map (fun d => if (doc_id d =? doc_id ex)%nat then updated now u dl d else d) coll).
Proof.
  intros Hi Hex Hle d Hin.
  rewrite lookup_map by apply updated_id.
  rewrite (lookup_unique _ _ Hi Hin).
  destruct (doc_id d =? doc_id ex)%nat eqn:E.
  - apply Nat.eqb_eq in E.
    assert (d = ex) by (apply (NoDup_map_inj doc_id coll); auto). subst d.
    eexists. split; [reflexivity|]. exact Hle.
  - exists d. split; [reflexivity|lia].
Qed.

Lemma storeStep_deadlines_kept (now : Z) (source : string) (c : Counters)
    (s : ParsedScholarship) (w : World) :
  unique_ids (Scholarship w) ->
  deadlines_kept (Scholarship w) (Scholarship (snd (storeStep now source c s w))).
Proof.
  intros Hi.
  destruct (valid (validateScholarshipData now s)) eqn:Hv;
    [|rewrite storeStep_rejected by exact Hv; now apply deadlines_kept_refl].
  destruct (Scholarship_findOne (Str.trim (title s))
              (Str.trim (organization s)) (Scholarship w)) as [ex|] eqn:Hf.
  - rewrite (storeStep_found now source c s w ex Hv Hf).
    destruct (later s ex || longer s ex); [|now apply deadlines_kept_refl].
    pose proof (merge_deadline now s ex) as Hd.
    destruct (updateOne_cases now (doc_id ex) _ w _ Hd) as [H|[[H _]|H]];
      rewrite H; cbn [snd with_docs Scholarship];
      try now apply deadlines_kept_refl.
    apply deadlines_kept_update; [exact Hi|eapply findOne_in; eassumption|].
    destruct (Date_parse (deadline s)); lia.
  - rewrite (storeStep_new now source c s w Hv Hf).
    destruct (Date_parse (deadline s)) as [d|]; [|now apply deadlines_kept_refl].
    destruct (required_present s); [|now apply deadlines_kept_refl].
    cbn [negb].
    destruct (index_conflict None _ _ d (Scholarship w));
      [now apply deadlines_kept_refl|].
    cbn [snd with_docs Scholarship]. intros x Hx. exists x. split; [|lia].
    apply find_app_first. now apply lookup_unique.
Qed.

(** C10. In a collection with unique identifiers, one turn of the store
    loop keeps every stored record under its identifier with a deadline
    that is not earlier. For a candidate that passes the validation of the
    store and matches the stored record [ex]: when the incoming deadline is
    later or the incoming description longer, either the unique index
    refuses the write and the world is unchanged, or the record is written
    with the later of the stored and the incoming deadline (the stored one
    when the incoming one does not read as a date), also when only the
    description made the update fire; when neither holds the world is
    unchanged. *)
Theorem stored_deadline_never_moves_back
    (now : Z) (source : string) (c : Counters) (s : ParsedScholarship)
    (w : World) :
  unique_ids (Scholarship w) ->
  deadlines_kept (Scholarship w) (Scholarship (snd (storeStep now source c s w)))
  /\ forall ex,
       valid (validateScholarshipData now s) = true ->
       Scholarship_findOne (Str.trim (title s)) (Str.trim (organization s))
         (Scholarship w) = Some ex ->
       if later s ex || longer s ex then
         storeStep now source c s w = (Throw E11000, w)
         \/ exists w' ex',
              storeStep now source c s w = (Ok (incr_duped c), w')
              /\ lookup (doc_id ex) (Scholarship w') = Some ex'
              /\ doc_deadline ex'
                 = match Date_parse (deadline s) with
                   | Some n => Z.max (doc_deadline ex) n
                   | None => doc_deadline ex
                   end
       else storeStep now source c s w = (Ok (incr_duped c), w).
Proof.
  intros Hi. split; [now apply storeStep_deadlines_kept|].
  intros ex Hv Hf.
  pose proof (findOne_in _ _ _ _ Hf) as Hin.
  rewrite (storeStep_found now source c s w ex Hv Hf).
  destruct (later s ex || longer s ex); [|reflexivity].
  pose proof (merge_deadline now s ex) as Hd.
  pose proof (lookup_unique _ _ Hi Hin) as Hl.
  destruct (updateOne_cases now (doc_id ex) _ w _ Hd) as [H|[[H Hn]|H]]; rewrite H.
  - now left.
  - rewrite Hl in Hn. discriminate.
  - right. eexists. eexists. split; [reflexivity|].
    cbn [with_docs Scholarship]. split.
    + rewrite lookup_map by apply updated_id.
      rewrite Hl, Nat.eqb_refl. reflexivity.
    + reflexivity.
Qed.

(** *** The fetch cycle *)

Lemma constructor_throws_without_key :
  selected_key process_env = None ->
  exists e, AIServiceManager_new = Throw e /\ message e <> "".
Proof.
  unfold selected_key, AIServiceManager_new, initializeProvider.
  cbn [config provider openaiApiKey geminiApiKey grokApiKey].
  set (p := match truthy (AI_PROVIDER process_env) with
            | Some p => p
            | None => "grok"
            end).
  intros H. eexists.
  destruct (p =? "openai")%string;
    [|destruct (p =? "gemini")%string; [|destruct (p =? "grok")%string]];
    rewrite ?H; cbn [currentProvider]; (split; [reflexivity|discriminate]).
Qed.

(** C2, at the point where the code departs from it. When the provider
    manager has not been built yet and its constructor throws (the provider
    the environment selects has no usable key), [runFetchCycle] throws that
    error to its caller: the name of the provider is asked for before the
    [try] block is entered. The run record it opened stays in state
    running, with no error message, and the run counter is not advanced.
    Should the database reject the run record in the first place, the cycle
    throws that rejection instead and leaves the world as it was: in no
    case does it return. *)
Theorem unconfigured_cycle_throws (now : Z) (w : World) :
  aiServiceInstance w = None ->
  selected_key process_env = None ->
  exists e,
    AIServiceManager_new = Throw e
    /\ runFetchCycle now w
       = match FetchLog_rejects create_log with
         | None =>
             (Throw e,
              with_logs (FetchLogs w ++ [opened_log now w]) (S (nextId w)) w)
         | Some rejection => (Throw rejection, w)
         end.
Proof.
  intros Hnone Hkey.
  destruct (constructor_throws_without_key Hkey) as (e & He & _).
  exists e. split; [exact He|].
  unfold runFetchCycle, getProviderName, getAIService, get_runIndex,
    createFetchLog.
  unfold bind. cbn -[getSearchQueries].
  destruct (FetchLog_rejects create_log); [reflexivity|].
  cbn -[getSearchQueries]. rewrite Hnone, He. reflexivity.
Qed.

(** The sibling path: once the manager exists but holds no provider (a
    switch to an unconfigured provider leaves it so), the error is raised
    inside the [try] block and the run is recorded as failed, provided the
    database takes the two writes to the fetch log. If it rejects the run
    record, the cycle throws before anything is written; if it rejects the
    write of the failure, the cycle throws out of its [catch] block and the
    run record stays in state running. *)
Lemma cycle_without_current_provider_fails (now : Z) (w : World)
    (m : AIServiceManager) :
  aiServiceInstance w = Some m ->
  currentProvider m = None ->
  match FetchLog_rejects create_log, FetchLog_rejects fail_log with
  | Some rejection, _ => runFetchCycle now w = (Throw rejection, w)
  | None, Some rejection =>
      runFetchCycle now w
      = (Throw rejection,
         with_logs (FetchLogs w ++ [opened_log now w]) (S (nextId w)) w)
  | None, None =>
      exists w',
        runFetchCycle now w = (Ok tt, w')
        /\ runIndex w' = S (runIndex w)
        /\ In {| log_id := nextId w;
                 search_queries := getSearchQueries (runIndex w);
                 status := failed; scholarships_found := 0;
                 scholarships_added := 0;
                 error := Some (message NoProvider); started_at := now;
                 completed_at := Some now |} (FetchLogs w')
  end.
Proof.
  intros Hm Hp.
  unfold runFetchCycle, getProviderName, runSearchBatchWithAI, getAIService,
    get_runIndex, createFetchLog, failFetchLog, update_log, incr_runIndex.
  unfold bind, try_catch, ret, throw.
  cbn -[getSearchQueries].
  destruct (FetchLog_rejects create_log) as [rejection|]; [reflexivity|].
  cbn -[getSearchQueries].
  repeat (first [rewrite Hm|rewrite Hp]; cbn -[getSearchQueries]).
  destruct (FetchLog_rejects fail_log) as [rejection|]; [reflexivity|].
  eexists. split; [reflexivity|]. cbn -[getSearchQueries].
  split; [reflexivity|].
  rewrite map_app, in_app_iff. right. cbn -[getSearchQueries].
  rewrite Nat.eqb_refl. now left.
Qed.

Lemma collect_results_nothing
    (searchFunction : string -> outcome (list ParsedScholarship))
    (queries : list string) (allResults : list ParsedScholarship) :
  (forall q, In q queries -> searchFunction q = Ok []) ->
  collect_results searchFunction queries allResults = Ok allResults.
Proof.
  revert allResults. induction queries as [|q rest IH]; intros acc H;
    [reflexivity|].
  cbn [collect_results]. rewrite (H q) by now left.
  rewrite app_nil_r. apply IH. intros q' Hq. apply H. now right.
Qed.

Lemma validateEntry_some_date (now : Z) (item : json) (s : ParsedScholarship) :
  validateEntry now item = Some s -> exists d, Date_parse (deadline s) = Some d.
Proof.
  unfold validateEntry. destruct (safeParse item) as [s'|]; [|discriminate].
  destruct (isOfficialDirectLink (link s')); [|discriminate]. cbn [negb].
  destruct (Date_parse (deadline s')) as [d|] eqn:E; [|discriminate].
  destruct (d <? now); [discriminate|].
  destruct (_ <? d); [discriminate|].
  intros H. inversion H; subst. now exists d.
Qed.

Lemma searchScholarships_json (p : Provider) (now : Z) (q : string)
    (items : list json) :
  upstream (kind p) q = RawJson (JArr items) ->
  searchScholarships p now q = Ok (flat_map (kept now) items).
Proof.
  intros H. unfold searchScholarships, OpenAIProvider_searchScholarships,
    Provider_searchScholarships.
  destruct (kind p); rewrite H, validation_loop_acc; reflexivity.
Qed.

Lemma storeScholarships_single_insert (now : Z) (source : string)
    (s : ParsedScholarship) (w : World) (d : Z) :
  valid (validateScholarshipData now s) = true ->
  Scholarship_findOne (Str.trim (title s)) (Str.trim (organization s))
    (Scholarship w) = None ->
  Date_parse (deadline s) = Some d ->
  required_present s = true ->
  storeScholarships now [s] source w
  = (Ok 1%nat,
     with_docs (Scholarship w ++ [inserted now source s d (nextId w)])
               (S (nextId w)) w).
Proof.
  intros Hv Hf Hd Hr. unfold storeScholarships, store_loop, bind, ret.
  now rewrite (storeStep_inserts now source _ s w d Hv Hf Hd Hr).
Qed.

(** C1, as the code has it. A provider is at hand: the manager is built
    and holds one, or it is not built yet and its constructor returns it.
    The database takes the two writes to the fetch log. The first query of
    the batch yields an array of three entries, the other queries yield
    nothing. One entry has a deadline before the current time, one a link
    on the blocklist, one passes the loop of the provider, has a reachable
    link, passes the validation of the store, has no required field that is
    empty once trimmed, and matches no stored record. Then the cycle
    returns, advances the run counter, stores one more record, and the run
    record it opened is completed with one found and one added: what is
    counted as found are the candidates that come out of validation and
    link check. *)
Theorem fetch_cycle_counts_verified_candidates
    (now : Z) (w : World) (m : AIServiceManager) (p : Provider)
    (q : string) (rest : list string)
    (past_item blocked_item good_item : json)
    (s1 s2 s : ParsedScholarship) (d1 : Z) (u2 : URL) :
  aiServiceInstance w = Some m
  \/ (aiServiceInstance w = None /\ AIServiceManager_new = Ok m) ->
  currentProvider m = Some p ->
  FetchLog_rejects create_log = None ->
  FetchLog_rejects complete_log = None ->
  getSearchQueries (runIndex w) = q :: rest ->
  upstream (kind p) q = RawJson (JArr [past_item; blocked_item; good_item]) ->
  (forall q', In q' rest -> searchScholarships p now q' = Ok []) ->
  safeParse past_item = Some s1 ->
  isOfficialDirectLink (link s1) = true ->
  Date_parse (deadline s1) = Some d1 ->
  d1 < now ->
  safeParse blocked_item = Some s2 ->
  URL_parse (link s2) = Some u2 ->
  on_blocklist (Str.strip_www (Str.toLowerCase (hostname u2))) ->
  validateEntry now good_item = Some s ->
  reachable (link s) = true ->
  valid (validateScholarshipData now s) = true ->
  required_present s = true ->
  Scholarship_findOne (Str.trim (title s)) (Str.trim (organization s))
    (Scholarship w) = None ->
  exists w',
    runFetchCycle now w = (Ok tt, w')
    /\ runIndex w' = S (runIndex w)
    /\ List.length (Scholarship w') = S (List.length (Scholarship w))
    /\ In {| log_id := nextId w; search_queries := q :: rest;
             status := completed; scholarships_found := 1;
             scholarships_added := 1; error := None; started_at := now;
             completed_at := Some now |} (FetchLogs w').
Proof.
  intros Hm Hp Hcreate Hcomplete Hq Hup Hrest Hs1 Hl1 Hd1 Hlt Hs2 Hu2 Hb2
    Hgood Hreach Hv Hr Hf.
  assert (H1 : validateEntry now past_item = None).
  { rewrite (validateEntry_parsed now past_item s1 Hs1 Hl1), Hd1.
    apply Z.ltb_lt in Hlt. now rewrite Hlt. }
  assert (H2 : validateEntry now blocked_item = None).
  { unfold validateEntry. rewrite Hs2.
    rewrite (isOfficialDirectLink_untrusted (link s2) u2 Hu2);
      [reflexivity|]. right. now left. }
  assert (Hbatch : runSearchBatch (q :: rest) (searchScholarships p now) = Ok [s]).
  { rewrite runSearchBatch_filter. cbn [collect_results].
    rewrite (searchScholarships_json p now q _ Hup).
    cbn [flat_map]. unfold kept. rewrite H1, H2, Hgood. cbn [app].
    rewrite (collect_results_nothing _ rest [s] Hrest).
    cbn [filter]. now rewrite Hreach. }
  destruct (validateEntry_some_date now good_item s Hgood) as [d Hd].
  unfold runFetchCycle, getProviderName, runSearchBatchWithAI, getAIService,
    get_runIndex, createFetchLog, completeFetchLog, update_log, incr_runIndex,
    lift.
  unfold bind, try_catch, ret.
  cbn -[getSearchQueries storeScholarships runSearchBatch].
  rewrite Hcreate.
  cbn -[getSearchQueries storeScholarships runSearchBatch].
  destruct Hm as [Hm|[Hm Hnew]];
    repeat (first [rewrite Hm|rewrite Hnew|rewrite Hp|rewrite Hq
                  |rewrite Hbatch];
            cbn -[getSearchQueries storeScholarships runSearchBatch]);
    (erewrite storeScholarships_single_insert;
       [|exact Hv|cbn [with_logs with_instance Scholarship]; exact Hf
        |exact Hd|exact Hr]);
    cbn -[getSearchQueries]; rewrite Hcomplete;
    (eexists; split; [reflexivity|]);
    cbn -[getSearchQueries]; (split; [reflexivity|]); (split;
      [rewrite length_app; cbn; lia
      |rewrite map_app, in_app_iff; right; cbn; rewrite Nat.eqb_refl;
       now left]).
Qed.

(** ** Further properties of the pipeline *)

(** *** The rotation of the query batches *)

(** X1. The batches rotate with period five: run [i + 5] asks the queries
    of run [i]; every run asks four queries, taken from one batch of the
    table, and the batch of run [i] is the one numbered [i mod 5]. *)
Theorem query_batches_rotate (i : nat) :
  getSearchQueries (i + 5) = getSearchQueries i
  /\ List.length (getSearchQueries i) = 4%nat
  /\ nth_error SEARCH_QUERY_SETS (i mod 5) = Some (getSearchQueries i).
Proof.
  unfold getSearchQueries.
  change (List.length SEARCH_QUERY_SETS) with 5%nat.
  assert (Hp : ((i + 5) mod 5 = i mod 5)%nat).
  { replace (i + 5)%nat with (i + 1 * 5)%nat by lia. apply Nat.Div0.mod_add. }
  rewrite Hp.
  pose proof (Nat.mod_upper_bound i 5 ltac:(discriminate)) as Hlt.
  split; [reflexivity|].
  destruct (i mod 5)%nat as [|[|[|[|[|n]]]]]; [repeat split ..|lia].
Qed.

(** *** The windows of the link check *)

Lemma windows5_shape_bounded {A : Type} (n : nat) :
  forall l : list A, (List.length l <= n)%nat ->
    Forall (fun b => (1 <= List.length b <= 5)%nat) (windows5 l)
    /\ (5 * List.length (windows5 l) < List.length l + 5)%nat
    /\ (List.length l <= 5 * List.length (windows5 l))%nat.
Proof.
  induction n as [|n IH]; intros l Hl.
  - destruct l; [cbn; repeat split; [constructor|lia..]|simpl in Hl; lia].
  - destruct l as [|a [|b [|c [|d [|e rest]]]]];
      try (cbn; repeat split; [repeat constructor; cbn; lia|lia..]).
    cbn [windows5]. destruct (IH rest) as (H1 & H2 & H3);
      [simpl in Hl; lia|].
    cbn [List.length]. repeat split; [constructor; [cbn; lia|exact H1]|lia..].
Qed.

(** X2. The link check cuts the candidates into consecutive windows that
    put the list together again in order; no window is empty or holds more
    than five candidates, and there are as many windows as the length
    divided by five, rounded up. *)
Theorem link_check_windows_hold_at_most_five (l : list ParsedScholarship) :
  List.concat (windows5 l) = l
  /\ Forall (fun b => (1 <= List.length b <= 5)%nat) (windows5 l)
  /\ List.length (windows5 l) = ((List.length l + 4) / 5)%nat.
Proof.
  split; [apply concat_windows5|].
  destruct (windows5_shape_bounded (List.length l) l (le_n _)) as (H1 & H2 & H3).
  split; [exact H1|].
  apply Nat.div_unique with (r := (List.length l + 4
                                             - 5 * List.length (windows5 l))%nat);
    lia.
Qed.

(** *** Failing queries *)

(** What one query contributes to the batch. *)
Definition query_yield (k : ProviderKind) (now : Z) (q : string)
  : list ParsedScholarship :=
  match upstream k q with
  | RawJson (JArr items) => flat_map (kept now) items
  | RawJson data => kept now data
  | _ => []
  end.

Lemma searchScholarships_yield (p : Provider) (now : Z) (q : string) :
  searchScholarships p now q = Ok (query_yield (kind p) now q).
Proof.
  unfold searchScholarships, OpenAIProvider_searchScholarships,
    Provider_searchScholarships, query_yield.
  destruct (kind p); destruct (upstream _ q) as [e| | |data]; try reflexivity;
    rewrite validation_loop_acc; destruct data; cbn [flat_map app];
    rewrite ?app_nil_r; reflexivity.
Qed.

Lemma collect_results_yield (p : Provider) (now : Z) (queries : list string)
    (allResults : list ParsedScholarship) :
  collect_results (searchScholarships p now) queries allResults
  = Ok (allResults ++ flat_map (query_yield (kind p) now) queries)%list.
Proof.
  revert allResults. induction queries as [|q rest IH]; intros acc;
    cbn [collect_results flat_map].
  - now rewrite app_nil_r.
  - rewrite searchScholarships_yield, IH, app_assoc. reflexivity.
Qed.

(** X3. A batch run over a provider never throws, whatever the upstream
    model does. Its result is, in the order of the queries, what each query
    yields on its own, cut down to the reachable links: a query whose call
    fails, whose answer is empty or is not JSON yields nothing and leaves
    the yield of the other queries as it is. *)
Theorem batch_survives_failing_queries
    (p : Provider) (now : Z) (queries : list string) :
  runSearchBatch queries (searchScholarships p now)
  = Ok (filter (fun s => reachable (link s))
          (flat_map (query_yield (kind p) now) queries))
  /\ (forall q, (forall data, upstream (kind p) q <> RawJson data) ->
        query_yield (kind p) now q = []).
Proof.
  split.
  - rewrite runSearchBatch_filter, collect_results_yield. reflexivity.
  - intros q Hq. unfold query_yield.
    destruct (upstream (kind p) q) as [e| | |data]; try reflexivity.
    now destruct (Hq data).
Qed.

(** *** The two copies of the trust policy *)

(** X5. The copy of the trust policy used at the store accepts exactly the
    links the copy used at extraction accepts, except those that are blank
    once trimmed. *)
Theorem trust_policy_copies_agree (l : string) :
  isValidApplicationLink l
  = isOfficialDirectLink l && negb (Str.trim l =? "")%string.
Proof.
  unfold isValidApplicationLink, isOfficialDirectLink.
  destruct (l =? "")%string; [reflexivity|]. cbn [orb].
  destruct (Str.trim l =? "")%string; cbn [negb].
  - now rewrite andb_false_r.
  - rewrite andb_true_r.
    destruct (URL_parse l) as [u|]; [|reflexivity].
    destruct (protocol u =? "http:")%string, (protocol u =? "https:")%string;
      cbn [negb andb]; try reflexivity;
      destruct (host_blocked _), (Str.endsWith _ _); reflexivity.
Qed.

Lemma endsWith_longer (s suffix p : string) :
  Str.endsWith s suffix = true -> Str.endsWith (p ++ s) suffix = true.
Proof.
  intros H. apply endsWith_inv in H. destruct H as [q ->].
  replace (p ++ (q ++ suffix))%string with ((p ++ q) ++ suffix)%string.
  - apply endsWith_app.
  - induction p as [|c p IH]; cbn [append]; [reflexivity|now rewrite IH].
Qed.

(** X6. The blocklist is closed under subdomains, to any depth: below a
    blocked host every host is blocked. *)
Theorem blocklist_covers_subdomains (host sub : string) :
  host_blocked host = true ->
  host_blocked (sub ++ "." ++ host) = true.
Proof.
  unfold host_blocked. intros H. apply existsb_exists in H.
  destruct H as (blocked & Hin & H).
  apply existsb_exists. exists blocked. split; [exact Hin|].
  apply orb_true_iff. right.
  apply orb_true_iff in H. destruct H as [H|H].
  - apply String.eqb_eq in H. subst host. apply endsWith_app.
  - replace (sub ++ "." ++ host)%string with ((sub ++ ".") ++ host)%string.
    + now apply endsWith_longer.
    + induction sub as [|c sub IH]; cbn [append]; [reflexivity|now rewrite IH].
Qed.

(** *** What leaves the validation loop *)

Lemma enum_some (allowed : list string) (v : option json) (s : string) :
  Zod.enum allowed v = Some s -> In s allowed.
Proof.
  unfold Zod.enum. destruct v as [[| | |s'| |]|]; try discriminate.
  destruct (existsb (String.eqb s') allowed) eqn:E; [|discriminate].
  intros H. inversion H; subst s'.
  apply existsb_exists in E. destruct E as (x & Hx & E).
  apply String.eqb_eq in E. now subst x.
Qed.

Lemma string_ymd_some (v : option json) (s : string) :
  Zod.string_ymd v = Some s -> Str.matches_ymd s = true.
Proof.
  unfold Zod.string_ymd. destruct v as [[| | |s'| |]|]; try discriminate.
  destruct (Str.matches_ymd s') eqn:E; [|discriminate].
  intros H. now inversion H; subst.
Qed.

Lemma default_amount_some (v : option json) (s : string) :
  Zod.default "Varies" (Zod.string_min 1) v = Some s ->
  (1 <= String.length s)%nat.
Proof.
  unfold Zod.default. destruct v as [j|].
  - apply string_min_some.
  - intros H. inversion H; subst. cbn. lia.
Qed.

Lemma default_currency_some (v : option json) (s : string) :
  Zod.default "USD" (Zod.enum CURRENCIES) v = Some s -> In s CURRENCIES.
Proof.
  unfold Zod.default. destruct v as [j|].
  - apply enum_some.
  - intros H. inversion H; subst. cbn. tauto.
Qed.

Lemma zod_link_parses (v : option json) (s : string) :
  zod_link v = Some s -> exists u, URL_parse s = Some u.
Proof.
  unfold zod_link. destruct v as [[| | |s'| |]|]; try discriminate.
  destruct (URL_parse s') as [u|] eqn:E; [|discriminate].
  destruct (_ || _); [|discriminate].
  intros H. inversion H; subst. now exists u.
Qed.

Lemma isOfficialDirectLink_trusted (l : string) (u : URL) :
  isOfficialDirectLink l = true -> URL_parse l = Some u -> ~ untrusted u.
Proof.
  intros H Hp Hu.
  rewrite (isOfficialDirectLink_untrusted l u Hp Hu) in H. discriminate.
Qed.

(** X4. A candidate that leaves the validation loop of a provider is the
    schema's reading of its entry and is well formed: the text fields have
    their minimal lengths, level, category and currency are values of their
    enumerations, the deadline has the shape YYYY-MM-DD, reads as a date and
    lies between the current time and three calendar years on, and the
    link parses to an address the trust policy has no ground to turn
    down. *)
Theorem validated_candidates_are_well_formed
    (now : Z) (item : json) (s : ParsedScholarship) :
  validateEntry now item = Some s ->
  safeParse item = Some s
  /\ ((10 <= String.length (title s))%nat
      /\ (3 <= String.length (organization s))%nat
      /\ (2 <= String.length (country s))%nat
      /\ (2 <= String.length (field s))%nat
      /\ (50 <= String.length (description s))%nat
      /\ (1 <= String.length (amount s))%nat)
  /\ (In (level s) LEVELS /\ In (category s) CATEGORIES
      /\ In (currency s) CURRENCIES)
  /\ Str.matches_ymd (deadline s) = true
  /\ (exists u, URL_parse (link s) = Some u /\ ~ untrusted u)
  /\ (exists d, Date_parse (deadline s) = Some d
        /\ now <= d
           <= Time.setFullYear LocalTZA now (Time.getFullYear LocalTZA now + 3)).
Proof.
  unfold validateEntry.
  destruct (safeParse item) as [s'|] eqn:Hs; [|discriminate].
  destruct (isOfficialDirectLink (link s')) eqn:Hl; [|discriminate]. cbn [negb].
  destruct (Date_parse (deadline s')) as [d|] eqn:Hd; [|discriminate].
  destruct (d <? now) eqn:E1; [discriminate|].
  destruct (_ <? d) eqn:E2; [discriminate|].
  intros H. inversion H; subst s'. clear H.
  apply Z.ltb_ge in E1, E2.
  split; [reflexivity|].
  assert (Hfields :
    ((10 <= String.length (title s))%nat
     /\ (3 <= String.length (organization s))%nat
     /\ (2 <= String.length (country s))%nat
     /\ (2 <= String.length (field s))%nat
     /\ (50 <= String.length (description s))%nat
     /\ (1 <= String.length (amount s))%nat)
    /\ (In (level s) LEVELS /\ In (category s) CATEGORIES
        /\ In (currency s) CURRENCIES)
    /\ Str.matches_ymd (deadline s) = true
    /\ exists u, URL_parse (link s) = Some u).
  { clear Hl Hd E1 E2. revert Hs.
    destruct item as [| | | | |o]; try discriminate. unfold safeParse.
    repeat match goal with
           | |- obind ?x _ = Some _ -> _ =>
               let E := fresh "E" in
               destruct x eqn:E; cbn [obind]; [|discriminate]
           end.
    intros H. inversion H; subst;
      cbn [title organization country level field category deadline
             description link amount currency].
    repeat split;
      solve [ eapply string_min_some; eassumption
            | eapply enum_some; eassumption
            | eapply default_amount_some; eassumption
            | eapply default_currency_some; eassumption
            | eapply string_ymd_some; eassumption
            | eapply zod_link_parses; eassumption ]. }
  destruct Hfields as (H1 & H2 & H3 & (u & Hu)).
  split; [exact H1|]. split; [exact H2|]. split; [exact H3|].
  split.
  - exists u. split; [exact Hu|]. now apply (isOfficialDirectLink_trusted (link s)).
  - exists d. split; [exact Hd|]. lia.
Qed.

(** *** The provider manager *)

(** The key the configuration holds for the provider called [name], when
    it is usable. *)
Definition key_for (cfg : AIServiceConfig) (name : string) : option string :=
  if (name =? "openai")%string then truthy (openaiApiKey cfg)
  else if (name =? "gemini")%string then truthy (geminiApiKey cfg)
  else if (name =? "grok")%string then truthy (grokApiKey cfg)
  else None.

Lemma truthy_nonempty (v : option string) (key : string) :
  truthy v = Some key -> key <> "".
Proof.
  unfold truthy. destruct v as [s|]; [|discriminate].
  destruct (s =? "")%string eqn:E; [discriminate|].
  intros H. inversion H; subst. now apply String.eqb_neq.
Qed.

Lemma initializeProvider_cases (m : AIServiceManager) :
  match key_for (config m) (provider (config m)) with
  | Some key =>
      exists k,
        initializeProvider m
        = (Ok tt, with_provider (Some {| kind := k; apiKey := key |}) m)
        /\ Str.toLowerCase (Provider_getProviderName {| kind := k; apiKey := key |})
           = provider (config m)
        /\ key <> ""
  | None =>
      initializeProvider m
      = match currentProvider m with
        | Some _ => (Ok tt, m)
        | None => (Throw (initError (config m)), m)
        end
  end.
Proof.
  unfold key_for, initializeProvider.
  destruct (provider (config m) =? "openai")%string eqn:E1;
    [|destruct (provider (config m) =? "gemini")%string eqn:E2;
      [|destruct (provider (config m) =? "grok")%string eqn:E3]].
  - apply String.eqb_eq in E1.
    destruct (truthy (openaiApiKey (config m))) as [key|] eqn:Ek; [|reflexivity].
    exists OpenAI. cbn. rewrite E1. repeat split. eapply truthy_nonempty; eassumption.
  - apply String.eqb_eq in E2.
    destruct (truthy (geminiApiKey (config m))) as [key|] eqn:Ek; [|reflexivity].
    exists Gemini. cbn. rewrite E2. repeat split. eapply truthy_nonempty; eassumption.
  - apply String.eqb_eq in E3.
    destruct (truthy (grokApiKey (config m))) as [key|] eqn:Ek; [|reflexivity].
    exists Grok. cbn. rewrite E3. repeat split. eapply truthy_nonempty; eassumption.
  - reflexivity.
Qed.


(** X7. The manager is a lazy singleton built on the provider the
    environment selects and on no other. On first use, with a usable key
    for that provider, it is built with a provider of that name and key and
    kept, so that the next use returns the same manager; without such a key
    the constructor throws, whatever keys of other providers are set,
    nothing is kept, and the next use runs the constructor again. *)
Theorem manager_is_built_once_on_the_selected_provider (w : World) :
  aiServiceInstance w = None ->
  match selected_key process_env with
  | Some key =>
      exists m p,
        getAIService w = (Ok m, with_instance m w)
        /\ getAIService (with_instance m w) = (Ok m, with_instance m w)
        /\ currentProvider m = Some p
        /\ apiKey p = key /\ key <> ""
        /\ Str.toLowerCase (Provider_getProviderName p) = provider (config m)
  | None =>
      exists e, getAIService w = (Throw e, w) /\ message e <> ""
  end.
Proof.
  intros Hnone. unfold getAIService. rewrite Hnone.
  unfold AIServiceManager_new.
  set (m0 := {| config := _; currentProvider := None |}).
  pose proof (initializeProvider_cases m0) as H.
  change (key_for (config m0) (provider (config m0)))
    with (selected_key process_env) in H.
  destruct (selected_key process_env) as [key|].
  - destruct H as (k & Hinit & Hname & Hkey). rewrite Hinit.
    eexists. eexists. split; [reflexivity|]. cbn. repeat split; assumption.
  - rewrite H. cbn. eexists. split; [reflexivity|]. discriminate.
Qed.

(** X8. Switching the provider of a built manager: with a usable key for
    the new name the manager holds a provider of that name and key
    afterwards. Without one (or for an unknown name) the switch throws and
    the manager is left holding no provider at all, the previous one is
    gone; every fetch cycle run in that state, on a database that takes the
    writes to the fetch log, returns and records a failed run. On a
    database that rejects the run record the cycle throws that rejection
    and writes nothing; on one that takes the run record and rejects the
    write of the failure, the cycle throws that rejection and the run
    record stays in state running. *)
Theorem switching_provider_drops_the_previous_one
    (w : World) (m : AIServiceManager) (name : string) :
  aiServiceInstance w = Some m ->
  match key_for (config m) name with
  | Some key =>
      exists m' p,
        switchAIProvider name w = (Ok tt, with_instance m' w)
        /\ currentProvider m' = Some p
        /\ apiKey p = key
        /\ Str.toLowerCase (Provider_getProviderName p) = name
  | None =>
      exists e m',
        switchAIProvider name w = (Throw e, with_instance m' w)
        /\ currentProvider m' = None
        /\ provider (config m') = name
        /\ forall now,
             match FetchLog_rejects create_log, FetchLog_rejects fail_log with
             | None, None =>
                 exists w',
                   runFetchCycle now (with_instance m' w) = (Ok tt, w')
                   /\ In {| log_id := nextId w;
                            search_queries := getSearchQueries (runIndex w);
                            status := failed; scholarships_found := 0;
                            scholarships_added := 0;
                            error := Some (message NoProvider);
                            started_at := now;
                            completed_at := Some now |} (FetchLogs w')
             | None, Some rejection =>
                 runFetchCycle now (with_instance m' w)
                 = (Throw rejection,
                    with_logs (FetchLogs w ++ [opened_log now w])
                      (S (nextId w)) (with_instance m' w))
             | Some rejection, _ =>
                 runFetchCycle now (with_instance m' w)
                 = (Throw rejection, with_instance m' w)
             end
  end.
Proof.
  intros Hm. unfold switchAIProvider, bind, getAIService. rewrite Hm.
  set (m1 := {| config := _; currentProvider := None |}).
  pose proof (initializeProvider_cases m1) as H.
  change (key_for (config m1) (provider (config m1)))
    with (key_for (config m) name) in H.
  destruct (key_for (config m) name) as [key|].
  - destruct H as (k & Hinit & Hname & _). rewrite Hinit.
    eexists. eexists. split; [reflexivity|]. cbn. repeat split. exact Hname.
  - rewrite H. cbn [currentProvider m1].
    eexists. exists m1. split; [reflexivity|]. split; [reflexivity|].
    split; [reflexivity|]. intros now.
    pose proof (cycle_without_current_provider_fails now (with_instance m1 w)
                  m1 eq_refl eq_refl) as Hc.
    destruct (FetchLog_rejects create_log) as [r1|]; [exact Hc|].
    destruct (FetchLog_rejects fail_log) as [r2|]; [exact Hc|].
    destruct Hc as (w' & H1 & _ & H2). now exists w'.
Qed.

(** *** The store loop as a whole *)

(** What the store loop leaves alone. *)
Definition same_frame (w w' : World) : Prop :=
  runIndex w' = runIndex w
  /\ aiServiceInstance w' = aiServiceInstance w
  /\ FetchLogs w' = FetchLogs w
  /\ (nextId w <= nextId w')%nat.

Lemma same_frame_refl (w : World) : same_frame w w.
Proof. unfold same_frame. repeat split; lia. Qed.

Lemma same_frame_trans (w1 w2 w3 : World) :
  same_frame w1 w2 -> same_frame w2 w3 -> same_frame w1 w3.
Proof.
  intros (A1 & A2 & A3 & A4) (B1 & B2 & B3 & B4).
  repeat split; try congruence. lia.
Qed.

(** The three ways a turn of the loop can leave the collection. *)
Inductive step_effect (now : Z) (source : string) (s : ParsedScholarship)
    (w w' : World) : Prop :=
| effect_none : w' = w -> step_effect now source s w w'
| effect_update (ex : ScholarshipDoc) (dl : Z) :
    valid (validateScholarshipData now s) = true ->
    In ex (Scholarship w) ->
    doc_deadline ex <= dl ->
    w' = with_docs (map (fun d => if (doc_id d =? doc_id ex)%nat
                                  then updated now (merge_set now s ex) dl d
                                  else d)
                        (Scholarship w))
                   (nextId w) w ->
    step_effect now source s w w'
| effect_insert (d : Z) :
    valid (validateScholarshipData now s) = true ->
    Date_parse (deadline s) = Some d ->
    w' = with_docs (Scholarship w ++ [inserted now source s d (nextId w)])
                   (S (nextId w)) w ->
    step_effect now source s w w'.

Lemma storeStep_effect (now : Z) (source : string) (c : Counters)
    (s : ParsedScholarship) (w : World) :
  step_effect now source s w (snd (storeStep now source c s w)).
Proof.
  destruct (valid (validateScholarshipData now s)) eqn:Hv;
    [|rewrite storeStep_rejected by exact Hv; now apply effect_none].
  destruct (Scholarship_findOne (Str.trim (title s))
              (Str.trim (organization s)) (Scholarship w)) as [ex|] eqn:Hf.
  - rewrite (storeStep_found now source c s w ex Hv Hf).
    destruct (later s ex || longer s ex); [|now apply effect_none].
    pose proof (merge_deadline now s ex) as Hd.
    destruct (updateOne_cases now (doc_id ex) _ w _ Hd) as [H|[[H _]|H]];
      rewrite H; cbn [snd]; try now apply effect_none.
    eapply effect_update; [exact Hv|eapply findOne_in; eassumption| |reflexivity].
    destruct (Date_parse (deadline s)); lia.
  - rewrite (storeStep_new now source c s w Hv Hf).
    destruct (Date_parse (deadline s)) as [d|] eqn:Hd; [|now apply effect_none].
    destruct (required_present s); [|now apply effect_none]. cbn [negb].
    destruct (index_conflict None _ _ d (Scholarship w)); [now apply effect_none|].
    cbn [snd]. now apply (effect_insert _ _ _ _ _ d).
Qed.

Lemma step_effect_frame (now : Z) (source : string) (s : ParsedScholarship)
    (w w' : World) :
  step_effect now source s w w' -> same_frame w w'.
Proof.
  intros [->|ex dl _ _ _ ->|d _ _ ->]; repeat split; cbn; lia.
Qed.

(** A property of single records that a turn of the loop keeps: it
    survives the update of a record and holds of an inserted one. *)
Lemma step_effect_Forall (Q : ScholarshipDoc -> Prop) (now : Z)
    (source : string) (s : ParsedScholarship) (w w' : World) :
  (forall ex dl d,
     valid (validateScholarshipData now s) = true ->
     In ex (Scholarship w) -> doc_id d = doc_id ex -> Q ex -> Q d ->
     Q (updated now (merge_set now s ex) dl d)) ->
  (forall d, valid (validateScholarshipData now s) = true ->
             Date_parse (deadline s) = Some d ->
             Q (inserted now source s d (nextId w))) ->
  step_effect now source s w w' ->
  Forall Q (Scholarship w) -> Forall Q (Scholarship w').
Proof.
  intros Hupd Hins [->|ex dl Hv Hin _ ->|d Hv Hd ->] Hall; [exact Hall| |].
  - cbn [with_docs Scholarship]. apply Forall_map.
    rewrite Forall_forall in Hall. apply Forall_forall. intros x Hx.
    destruct (doc_id x =? doc_id ex)%nat eqn:E; [|now apply Hall].
    apply Nat.eqb_eq in E. apply Hupd; auto.
  - cbn [with_docs Scholarship]. apply Forall_app. split; [exact Hall|].
    constructor; [now apply Hins|constructor].
Qed.

Lemma store_loop_frame (now : Z) (source : string)
    (scholarships : list ParsedScholarship) :
  forall (c : Counters) (w : World),
    same_frame w (snd (store_loop now source scholarships c w)).
Proof.
  induction scholarships as [|s rest IH]; intros c w; [apply same_frame_refl|].
  cbn [store_loop]. unfold bind.
  pose proof (step_effect_frame _ _ _ _ _ (storeStep_effect now source c s w)) as H.
  destruct (storeStep now source c s w) as [[c'|e] w']; cbn [snd] in *;
    [|exact H].
  eapply same_frame_trans; [exact H|apply IH].
Qed.

(** The counters of a turn against the growth of the collection. *)
Lemma storeStep_accounts (now : Z) (source : string) (c : Counters)
    (s : ParsedScholarship) (w : World) :
  match storeStep now source c s w with
  | (Ok c', w') =>
      (List.length (Scholarship w') + added c
       = List.length (Scholarship w) + added c')%nat
      /\ (added c <= added c' /\ rejected c <= rejected c'
          /\ duped c <= duped c')%nat
      /\ (added c' + rejected c' + duped c'
          <= S (added c + rejected c + duped c))%nat
      /\ (Date_parse (deadline s) <> None /\ required_present s = true ->
          added c' + rejected c' + duped c'
          = S (added c + rejected c + duped c))%nat
  | (Throw _, w') => w' = w
  end.
Proof.
  destruct (valid (validateScholarshipData now s)) eqn:Hv;
    [|rewrite storeStep_rejected by exact Hv; cbn; lia].
  destruct (Scholarship_findOne (Str.trim (title s))
              (Str.trim (organization s)) (Scholarship w)) as [ex|] eqn:Hf.
  - rewrite (storeStep_found now source c s w ex Hv Hf).
    destruct (later s ex || longer s ex); [|cbn; lia].
    pose proof (merge_deadline now s ex) as Hd.
    destruct (updateOne_cases now (doc_id ex) _ w _ Hd) as [H|[[H _]|H]];
      rewrite H; cbn; rewrite ?length_map; try reflexivity; lia.
  - rewrite (storeStep_new now source c s w Hv Hf).
    destruct (Date_parse (deadline s)) as [d|] eqn:Hd.
    + destruct (required_present s); cbn [negb].
      * destruct (index_conflict None _ _ d (Scholarship w)); cbn;
          rewrite ?length_app; cbn; lia.
      * cbn. repeat split; try lia; try (intros [_ H]; discriminate).
    + cbn. repeat split; try lia. intros [H _]. now destruct H.
Qed.

Lemma store_loop_accounts (now : Z) (source : string)
    (scholarships : list ParsedScholarship) :
  forall (c : Counters) (w : World),
    match store_loop now source scholarships c w with
    | (Ok c', w') =>
        (List.length (Scholarship w') + added c
         = List.length (Scholarship w) + added c')%nat
        /\ (added c <= added c')%nat
        /\ (added c' + rejected c' + duped c'
            <= added c + rejected c + duped c + List.length scholarships)%nat
        /\ (Forall (fun s => Date_parse (deadline s) <> None
                              /\ required_present s = true) scholarships ->
            added c' + rejected c' + duped c'
            = added c + rejected c + duped c + List.length scholarships)%nat
    | (Throw _, w') =>
        (List.length (Scholarship w) <= List.length (Scholarship w')
         <= List.length (Scholarship w) + List.length scholarships)%nat
    end.
Proof.
  induction scholarships as [|s rest IH]; intros c w.
  - cbn. repeat split; lia.
  - cbn [store_loop]. unfold bind.
    pose proof (storeStep_accounts now source c s w) as H.
    destruct (storeStep now source c s w) as [[c1|e] w1].
    + destruct H as (H1 & (H2 & H2r & H2d) & H3 & H4).
      specialize (IH c1 w1).
      destruct (store_loop now source rest c1 w1) as [[c2|e] w2];
        cbn [List.length].
      * destruct IH as (I1 & I2 & I3 & I4).
        repeat split; try lia.
        intros Hall. inversion Hall as [|? ? Hs Hrest]; subst.
        specialize (H4 Hs). specialize (I4 Hrest). lia.
      * lia.
    + subst w1. cbn [List.length]. lia.
Qed.

(** X9. When the store loop returns, the number it reports as added is the
    number of records the collection has gained, and [storeScholarships]
    returns that number; no candidate is counted twice, and every
    candidate is counted once (as added, rejected or duplicate) as soon as
    every deadline reads as a date and no candidate has a required field
    that is empty in the form it is stored in: the loop counts nowhere the
    candidate whose insert the collection refuses for another reason than
    its unique index. The loop leaves the fetch log, the run counter and
    the provider manager alone. *)
Theorem store_reports_the_growth_of_the_collection
    (now : Z) (source : string) (scholarships : list ParsedScholarship)
    (w w' : World) (c : Counters) :
  store_loop now source scholarships {| added := 0; rejected := 0; duped := 0 |} w
  = (Ok c, w') ->
  storeScholarships now scholarships source w = (Ok (added c), w')
  /\ List.length (Scholarship w') = (List.length (Scholarship w) + added c)%nat
  /\ (added c + rejected c + duped c <= List.length scholarships)%nat
  /\ (Forall (fun s => Date_parse (deadline s) <> None
                        /\ required_present s = true) scholarships ->
      (added c + rejected c + duped c)%nat = List.length scholarships)
  /\ FetchLogs w' = FetchLogs w
  /\ runIndex w' = runIndex w
  /\ aiServiceInstance w' = aiServiceInstance w.
Proof.
  intros H.
  pose proof (store_loop_accounts now source scholarships
                {| added := 0; rejected := 0; duped := 0 |} w) as Ha.
  pose proof (store_loop_frame now source scholarships
                {| added := 0; rejected := 0; duped := 0 |} w) as Hf.
  rewrite H in Ha, Hf. cbn [snd added rejected duped] in *.
  destruct Ha as (A1 & _ & A3 & A4). destruct Hf as (F1 & F2 & F3 & _).
  split; [unfold storeScholarships, bind, ret; now rewrite H|].
  split; [lia|]. split; [lia|].
  split; [intros Hall; specialize (A4 Hall); lia|].
  repeat split; assumption.
Qed.

(** Identifiers are unique and below the next fresh one. *)
Definition ids_fresh (w : World) : Prop :=
  unique_ids (Scholarship w)
  /\ Forall (fun d => (doc_id d < nextId w)%nat) (Scholarship w).

(** The record [d'] is the record [d], possibly merged: identity,
    provenance and verification are those of [d], the deadline is not
    earlier and the description not shorter. *)
Definition record_kept (d d' : ScholarshipDoc) : Prop :=
  doc_id d' = doc_id d
  /\ doc_title d' = doc_title d
  /\ doc_organization d' = doc_organization d
  /\ doc_country d' = doc_country d
  /\ doc_level d' = doc_level d
  /\ doc_field d' = doc_field d
  /\ doc_category d' = doc_category d
  /\ doc_currency d' = doc_currency d
  /\ doc_is_verified d' = doc_is_verified d
  /\ doc_verification_notes d' = doc_verification_notes d
  /\ doc_source d' = doc_source d
  /\ doc_created_at d' = doc_created_at d
  /\ doc_deadline d <= doc_deadline d'
  /\ (String.length (doc_description d) <= String.length (doc_description d'))%nat.

Definition records_kept (coll coll' : list ScholarshipDoc) : Prop :=
  forall d, In d coll ->
    exists d', lookup (doc_id d) coll' = Some d' /\ record_kept d d'.

Lemma record_kept_refl (d : ScholarshipDoc) : record_kept d d.
Proof. unfold record_kept. repeat split; lia. Qed.

Lemma record_kept_trans (d1 d2 d3 : ScholarshipDoc) :
  record_kept d1 d2 -> record_kept d2 d3 -> record_kept d1 d3.
Proof.
  unfold record_kept. intros H1 H2.
  repeat match goal with H : _ /\ _ |- _ => destruct H end.
  repeat split; try congruence; lia.
Qed.

Lemma records_kept_refl (coll : list ScholarshipDoc) :
  unique_ids coll -> records_kept coll coll.
Proof.
  intros Hi d Hin. exists d. split; [now apply lookup_unique|apply record_kept_refl].
Qed.

Lemma records_kept_trans (c1 c2 c3 : list ScholarshipDoc) :
  records_kept c1 c2 -> records_kept c2 c3 -> records_kept c1 c3.
Proof.
  intros H12 H23 d Hin.
  destruct (H12 d Hin) as (d2 & Hl2 & K12).
  destruct (lookup_id _ _ _ Hl2) as [Hin2 Hid2].
  destruct (H23 d2 Hin2) as (d3 & Hl3 & K23).
  exists d3. split; [now rewrite <- Hid2|].
  eapply record_kept_trans; eassumption.
Qed.

Lemma merged_record_kept (now : Z) (s : ParsedScholarship) (ex : ScholarshipDoc)
    (dl : Z) :
  doc_deadline ex <= dl ->
  record_kept ex (updated now (merge_set now s ex) dl ex).
Proof.
  intros Hle. unfold record_kept.
  cbn [updated applyTimestamps apply_set merge_set set_description doc_id
         doc_title doc_organization
         doc_country doc_level doc_field doc_category doc_currency
         doc_is_verified doc_verification_notes doc_source doc_created_at
         doc_deadline doc_description].
  repeat split; try assumption.
  unfold longer.
  destruct (String.length (doc_description ex)
            <? String.length (Str.trim (description s)))%nat eqn:E.
  - apply Nat.ltb_lt in E. lia.
  - lia.
Qed.

Lemma step_effect_records_kept (now : Z) (source : string)
    (s : ParsedScholarship) (w w' : World) :
  step_effect now source s w w' ->
  ids_fresh w ->
  records_kept (Scholarship w) (Scholarship w') /\ ids_fresh w'.
Proof.
  intros [->|ex dl Hv Hex Hle ->|d Hv Hd ->] [Hi Hlt].
  - split; [now apply records_kept_refl|now split].
  - unfold ids_fresh; cbn [with_docs Scholarship nextId]. split.
    + intros x Hx. rewrite lookup_map by apply updated_id.
      rewrite (lookup_unique _ _ Hi Hx).
      destruct (doc_id x =? doc_id ex)%nat eqn:E.
      * apply Nat.eqb_eq in E.
        assert (x = ex) by (apply (NoDup_map_inj doc_id (Scholarship w)); auto).
        subst x. eexists. split; [reflexivity|]. now apply merged_record_kept.
      * exists x. split; [reflexivity|apply record_kept_refl].
    + split.
      * unfold unique_ids.
        rewrite (map_ids_update (doc_id ex) (updated now (merge_set now s ex) dl))
          by apply updated_id.
        exact Hi.
      * apply Forall_map. eapply Forall_impl; [|exact Hlt].
        intros x Hx. destruct (doc_id x =? doc_id ex)%nat; exact Hx.
  - unfold ids_fresh; cbn [with_docs Scholarship nextId]. split.
    + intros x Hx. exists x. split; [|apply record_kept_refl].
      apply find_app_first. now apply lookup_unique.
    + split.
      * unfold unique_ids. rewrite map_app. apply NoDup_snoc; [exact Hi|].
        cbn. intros Hin. apply in_map_iff in Hin.
        destruct Hin as (x & Hid & Hx). rewrite Forall_forall in Hlt.
        specialize (Hlt x Hx). lia.
      * apply Forall_app. split.
        -- eapply Forall_impl; [|exact Hlt]. intros x Hx. cbn in Hx. lia.
        -- constructor; [cbn; lia|constructor].
Qed.

Lemma store_loop_records_kept (now : Z) (source : string)
    (scholarships : list ParsedScholarship) :
  forall (c : Counters) (w : World),
    ids_fresh w ->
    records_kept (Scholarship w)
      (Scholarship (snd (store_loop now source scholarships c w)))
    /\ ids_fresh (snd (store_loop now source scholarships c w)).
Proof.
  induction scholarships as [|s rest IH]; intros c w Hw.
  - split; [apply records_kept_refl; apply Hw|exact Hw].
  - cbn [store_loop]. unfold bind.
    destruct (step_effect_records_kept _ _ _ _ _
                (storeStep_effect now source c s w) Hw) as [Hk Hw1].
    destruct (storeStep now source c s w) as [[c1|e] w1]; cbn [snd] in *;
      [|now split].
    destruct (IH c1 w1 Hw1) as [Hk2 Hw2].
    split; [eapply records_kept_trans; eassumption|exact Hw2].
Qed.

Lemma store_loop_Forall (Q : ScholarshipDoc -> Prop) (now : Z) (source : string)
    (scholarships : list ParsedScholarship) :
  (forall s ex dl d,
     In s scholarships -> valid (validateScholarshipData now s) = true ->
     Q ex -> Q d -> Q (updated now (merge_set now s ex) dl d)) ->
  (forall s d id,
     In s scholarships -> valid (validateScholarshipData now s) = true ->
     Date_parse (deadline s) = Some d -> Q (inserted now source s d id)) ->
  forall (c : Counters) (w : World),
    Forall Q (Scholarship w) ->
    Forall Q (Scholarship (snd (store_loop now source scholarships c w))).
Proof.
  induction scholarships as [|s rest IH]; intros Hupd Hins c w Hall;
    [exact Hall|].
  cbn [store_loop]. unfold bind.
  assert (H1 : Forall Q (Scholarship (snd (storeStep now source c s w)))).
  { eapply (step_effect_Forall Q now source s w);
      [| |apply storeStep_effect|exact Hall].
    - intros ex dl d Hv Hin _ Qex Qd. apply (Hupd s); auto. now left.
    - intros d Hv Hd. apply (Hins s); auto. now left. }
  destruct (storeStep now source c s w) as [[c1|e] w1]; cbn [snd] in *;
    [|exact H1].
  apply IH; auto.
  - intros s' ex dl d Hin. apply Hupd. now right.
  - intros s' d id Hin. apply Hins. now right.
Qed.

Lemma storeScholarships_snd (now : Z) (scholarships : list ParsedScholarship)
    (source : string) (w : World) :
  snd (storeScholarships now scholarships source w)
  = snd (store_loop now source scholarships
           {| added := 0; rejected := 0; duped := 0 |} w).
Proof.
  unfold storeScholarships, bind, ret.
  destruct (store_loop _ _ _ _ w) as [[c|e] w']; reflexivity.
Qed.

(** X10. Over a whole call of [storeScholarships] on a collection whose
    identifiers are unique and below the next fresh one, whether the call
    returns or throws: every record that was stored is still stored under
    its identifier, with its title, organization, country, level, field,
    category, currency, source, creation time and verification flag and
    notes unchanged, a deadline that is not earlier and a description that
    is not shorter; and every other record of the collection is one the
    call inserted, unverified, with the source and the time of the call. *)
Theorem merge_keeps_records_and_never_verifies
    (now : Z) (scholarships : list ParsedScholarship) (source : string)
    (w : World) :
  ids_fresh w ->
  let w' := snd (storeScholarships now scholarships source w) in
  records_kept (Scholarship w) (Scholarship w')
  /\ ids_fresh w'
  /\ Forall (fun d' =>
               (doc_id d' < nextId w)%nat
               \/ (doc_is_verified d' = false
                   /\ doc_source d' = Some source
                   /\ doc_created_at d' = now))
            (Scholarship w').
Proof.
  intros Hw. cbv zeta. rewrite storeScholarships_snd.
  destruct (store_loop_records_kept now source scholarships
              {| added := 0; rejected := 0; duped := 0 |} w Hw) as [Hk Hw'].
  split; [exact Hk|]. split; [exact Hw'|].
  apply store_loop_Forall.
  - intros s ex dl d _ _ _ [H|H]; [left|right]; exact H.
  - intros s d id _ _ _. right. repeat split.
  - eapply Forall_impl; [|apply Hw]. intros d Hd. now left.
Qed.

Lemma isValidApplicationLink_trim (l : string) :
  URL_parse (Str.trim l) = URL_parse l ->
  isValidApplicationLink l = true ->
  isValidApplicationLink (Str.trim l) = true.
Proof.
  intros Hhost H. unfold isValidApplicationLink in *.
  destruct ((l =? "") || (Str.trim l =? ""))%string eqn:E; [discriminate|].
  apply orb_false_iff in E. destruct E as [_ E].
  rewrite trim_idem, E, Hhost. exact H.
Qed.

(** X11. The store checks a link as it comes and writes it trimmed. For a
    batch in which trimming does not change how the URL parser of the host
    reads the link of any candidate (so for every batch whose links carry
    no surrounding white space), no call of [storeScholarships] leaves in
    the collection a link that the trust policy rejects, provided there
    was none before: both the inserted link and the link an update writes
    are the trimmed form of a link that has just passed the policy. *)
Theorem store_writes_only_trusted_links
    (now : Z) (scholarships : list ParsedScholarship) (source : string)
    (w : World) :
  Forall (fun s => URL_parse (Str.trim (link s)) = URL_parse (link s))
         scholarships ->
  Forall (fun d => isValidApplicationLink (doc_link d) = true) (Scholarship w) ->
  Forall (fun d => isValidApplicationLink (doc_link d) = true)
         (Scholarship (snd (storeScholarships now scholarships source w))).
Proof.
  intros Hhost Hall. rewrite storeScholarships_snd.
  rewrite Forall_forall in Hhost.
  apply store_loop_Forall; [| |exact Hall].
  - intros s ex dl d Hin Hv _ _.
    cbn [updated applyTimestamps apply_set doc_link merge_set set_link].
    rewrite (valid_link now s Hv).
    apply isValidApplicationLink_trim;
      [now apply Hhost|now apply (valid_link now)].
  - intros s d id Hin Hv _. cbn [inserted doc_link].
    apply isValidApplicationLink_trim;
      [now apply Hhost|now apply (valid_link now)].
Qed.

(** X12. A candidate that the collection accepts (it passes the validation
    of the store, its deadline reads as a date, none of its required fields
    is empty in the form it is stored in, it matches no stored record) and
    that occurs twice in one batch is stored once: the record the first
    occurrence inserts is found by the second, which is counted as a
    duplicate and changes nothing. *)
Theorem duplicate_in_one_batch_is_stored_once
    (now : Z) (source : string) (s : ParsedScholarship) (w : World) (d : Z) :
  valid (validateScholarshipData now s) = true ->
  Date_parse (deadline s) = Some d ->
  required_present s = true ->
  Scholarship_findOne (Str.trim (title s)) (Str.trim (organization s))
    (Scholarship w) = None ->
  store_loop now source [s; s] {| added := 0; rejected := 0; duped := 0 |} w
  = (Ok {| added := 1; rejected := 0; duped := 1 |},
     with_docs (Scholarship w ++ [inserted now source s d (nextId w)])
               (S (nextId w)) w)
  /\ storeScholarships now [s; s] source w
     = (Ok 1%nat,
        with_docs (Scholarship w ++ [inserted now source s d (nextId w)])
                  (S (nextId w)) w).
Proof.
  intros Hv Hd Hr Hf.
  set (ins := inserted now source s d (nextId w)).
  set (w1 := with_docs (Scholarship w ++ [ins]) (S (nextId w)) w).
  assert (H1 : forall c, storeStep now source c s w = (Ok (incr_added c), w1))
    by (intros c; now apply storeStep_inserts).
  assert (H2 : forall c, storeStep now source c s w1 = (Ok (incr_duped c), w1)).
  { intros c.
    rewrite (storeStep_found now source c s w1 ins Hv)
      by (apply findOne_inserted; exact Hf).
    unfold later, longer. rewrite Hd.
    cbn [ins inserted doc_deadline doc_description Time.date_gt Time.date_lt].
    now rewrite Z.ltb_irrefl, Nat.ltb_irrefl. }
  unfold storeScholarships, store_loop, bind, ret. rewrite H1, H2.
  split; reflexivity.
Qed.

(** *** The fetch cycle once the manager is built *)

Lemma storeScholarships_summary (now : Z) (scholarships : list ParsedScholarship)
    (source : string) (w : World) :
  match storeScholarships now scholarships source w with
  | (Ok n, w') =>
      same_frame w w'
      /\ List.length (Scholarship w') = (List.length (Scholarship w) + n)%nat
      /\ (n <= List.length scholarships)%nat
  | (Throw _, w') => same_frame w w'
  end.
Proof.
  pose proof (store_loop_accounts now source scholarships
                {| added := 0; rejected := 0; duped := 0 |} w) as Ha.
  pose proof (store_loop_frame now source scholarships
                {| added := 0; rejected := 0; duped := 0 |} w) as Hf.
  unfold storeScholarships, bind, ret.
  destruct (store_loop _ _ _ _ w) as [[c|e] w']; cbn [snd added rejected duped] in *;
    [|exact Hf].
  destruct Ha as (A1 & _ & A3 & _). split; [exact Hf|]. lia.
Qed.

Lemma close_last_log (logs : list FetchLog) (doc : FetchLog)
    (f : FetchLog -> FetchLog) :
  Forall (fun l => log_id l <> log_id doc) logs ->
  map (fun l => if (log_id l =? log_id doc)%nat then f l else l) (logs ++ [doc])
  = (logs ++ [f doc])%list.
Proof.
  intros Hfresh. rewrite map_app. cbn [map]. rewrite Nat.eqb_refl. f_equal.
  induction Hfresh as [|l logs Hl _ IH]; [reflexivity|].
  cbn [map]. apply Nat.eqb_neq in Hl. now rewrite Hl, IH.
Qed.

(** What a cycle that has opened its run record leaves: outcome and world
    [r], from the world [w] in which the manager [m] was built. *)
Definition closes_run (now : Z) (w : World) (m : AIServiceManager)
    (r : outcome unit * World) : Prop :=
  exists w' log,
    aiServiceInstance w' = Some m
    /\ FetchLogs w' = (FetchLogs w ++ [log])%list
    /\ log_id log = nextId w
    /\ search_queries log = getSearchQueries (runIndex w)
    /\ started_at log = now
    /\ ((r = (Ok tt, w')
         /\ runIndex w' = S (runIndex w)
         /\ completed_at log = Some now
         /\ ((status log = completed
              /\ FetchLog_rejects complete_log = None
              /\ error log = None
              /\ (scholarships_added log <= scholarships_found log)%nat
              /\ List.length (Scholarship w')
                 = (List.length (Scholarship w) + scholarships_added log)%nat)
             \/ (status log = failed
                 /\ FetchLog_rejects fail_log = None
                 /\ (exists msg, error log = Some msg)
                 /\ scholarships_found log = 0%nat
                 /\ scholarships_added log = 0%nat)))
        \/ (exists rejection,
              FetchLog_rejects fail_log = Some rejection
              /\ r = (Throw rejection, w')
              /\ runIndex w' = runIndex w
              /\ log = opened_log now w)).

(** The [catch] block and the increment after it, entered with the run
    record still as it was opened. *)
Lemma caught_error_closes_run (now : Z) (w w2 : World) (m : AIServiceManager)
    (msg : string) :
  Forall (fun l => log_id l <> nextId w) (FetchLogs w) ->
  aiServiceInstance w2 = Some m ->
  FetchLogs w2 = (FetchLogs w ++ [opened_log now w])%list ->
  runIndex w2 = runIndex w ->
  closes_run now w m ((failFetchLog now (nextId w) msg ;;; incr_runIndex) w2).
Proof.
  intros Hfresh Hm2 Hl2 Hr2.
  unfold closes_run, failFetchLog, update_log, incr_runIndex, bind.
  destruct (FetchLog_rejects fail_log) as [rejection|] eqn:Hrej.
  - exists w2, (opened_log now w).
    split; [exact Hm2|]. split; [exact Hl2|].
    do 3 (split; [reflexivity|]).
    right. exists rejection. repeat split. exact Hr2.
  - rewrite Hl2.
    rewrite (close_last_log (FetchLogs w) (opened_log now w)) by exact Hfresh.
    eexists.
    exists {| log_id := nextId w;
              search_queries := getSearchQueries (runIndex w);
              status := failed; scholarships_found := 0;
              scholarships_added := 0; error := Some msg; started_at := now;
              completed_at := Some now |}.
    cbn -[getSearchQueries].
    split; [|split; [|split; [|split; [|split]]]]; cycle 5.
    + left. split; [reflexivity|]. cbn -[getSearchQueries].
      split; [now rewrite Hr2|]. split; [reflexivity|].
      right. repeat split. now eexists.
    + exact Hm2.
    + reflexivity.
    + reflexivity.
    + reflexivity.
    + reflexivity.
Qed.

(** X13. Once the manager is built, a fetch cycle throws only a write to
    the fetch log that the database rejects, whatever the upstream model
    and the network do and whether [storeScholarships] returns or throws.
    If the database rejects the run record, the cycle throws that
    rejection and leaves the world as it was. Otherwise the cycle keeps the
    manager and adds exactly one run record to the log, holding the queries
    of the batch in turn, without touching the earlier records (given that
    none of them bears the fresh identifier), and one of three things
    happens. The cycle returns,
    the run counter advanced, with the record completed at the time of the
    run: no error, no more added than found, as many added as the
    collection has gained records. Or it returns, the run counter
    advanced, with the record failed at the time of the run: an error
    message and both counts at zero. Or an error was caught and the
    database rejects the write of the failure: the cycle throws that
    rejection out of its [catch] block, the record stays as it was opened,
    in state running, and the run counter is not advanced. *)
Theorem built_manager_cycle_throws_only_rejected_log_writes
    (now : Z) (w : World) (m : AIServiceManager) :
  aiServiceInstance w = Some m ->
  Forall (fun l => log_id l <> nextId w) (FetchLogs w) ->
  match FetchLog_rejects create_log with
  | Some rejection => runFetchCycle now w = (Throw rejection, w)
  | None =>
      exists w' log,
        aiServiceInstance w' = Some m
        /\ FetchLogs w' = (FetchLogs w ++ [log])%list
        /\ log_id log = nextId w
        /\ search_queries log = getSearchQueries (runIndex w)
        /\ started_at log = now
        /\ ((runFetchCycle now w = (Ok tt, w')
             /\ runIndex w' = S (runIndex w)
             /\ completed_at log = Some now
             /\ ((status log = completed
                  /\ FetchLog_rejects complete_log = None
                  /\ error log = None
                  /\ (scholarships_added log <= scholarships_found log)%nat
                  /\ List.length (Scholarship w')
                     = (List.length (Scholarship w)
                        + scholarships_added log)%nat)
                 \/ (status log = failed
                     /\ FetchLog_rejects fail_log = None
                     /\ (exists msg, error log = Some msg)
                     /\ scholarships_found log = 0%nat
                     /\ scholarships_added log = 0%nat)))
            \/ (exists rejection,
                  FetchLog_rejects fail_log = Some rejection
                  /\ runFetchCycle now w = (Throw rejection, w')
                  /\ runIndex w' = runIndex w
                  /\ log = opened_log now w))
  end.
Proof.
  intros Hm Hfresh.
  destruct (FetchLog_rejects create_log) as [rejection|] eqn:Hcreate.
  - unfold runFetchCycle, get_runIndex, createFetchLog, bind.
    now rewrite Hcreate.
  - change (closes_run now w m (runFetchCycle now w)).
    unfold runFetchCycle, getProviderName, runSearchBatchWithAI, getAIService,
      get_runIndex, createFetchLog, lift.
    unfold bind, try_catch, ret, throw.
    rewrite Hcreate.
    cbn -[getSearchQueries storeScholarships runSearchBatch failFetchLog
          completeFetchLog incr_runIndex closes_run].
    repeat (rewrite Hm;
            cbn -[getSearchQueries storeScholarships runSearchBatch
                  failFetchLog completeFetchLog incr_runIndex closes_run]).
    fold (opened_log now w).
    set (w1 := with_logs (FetchLogs w ++ [opened_log now w]) (S (nextId w)) w).
    destruct (currentProvider m) as [p|].
    + rewrite runSearchBatch_filter, collect_results_yield.
      set (found := filter _ _).
      match goal with
      | |- context [storeScholarships now found ?src w1] =>
          pose proof (storeScholarships_summary now found src w1) as Hs;
          destruct (storeScholarships now found src w1) as [[n|e] w2]
      end.
      * destruct Hs as ((F1 & F2 & F3 & _) & Hlen & Hle).
        cbn [w1 with_logs runIndex aiServiceInstance FetchLogs Scholarship
               nextId] in F1, F2, F3, Hlen.
        unfold completeFetchLog, update_log.
        destruct (FetchLog_rejects complete_log) as [rejection|] eqn:Hrej.
        -- apply (caught_error_closes_run now w w2 m (message rejection));
             [exact Hfresh|now rewrite F2|exact F3|exact F1].
        -- unfold closes_run, incr_runIndex. rewrite F3.
           rewrite (close_last_log (FetchLogs w) (opened_log now w))
             by exact Hfresh.
           eexists.
           exists {| log_id := nextId w;
                     search_queries := getSearchQueries (runIndex w);
                     status := completed;
                     scholarships_found := List.length found;
                     scholarships_added := n; error := None;
                     started_at := now; completed_at := Some now |}.
           cbn -[getSearchQueries].
           split; [|split; [|split; [|split; [|split]]]]; cycle 5.
           ++ left. split; [reflexivity|]. cbn -[getSearchQueries].
              split; [now rewrite F1|]. split; [reflexivity|].
              left. repeat split; assumption.
           ++ now rewrite F2.
           ++ reflexivity.
           ++ reflexivity.
           ++ reflexivity.
           ++ reflexivity.
      * destruct Hs as (F1 & F2 & F3 & _).
        cbn [w1 with_logs runIndex aiServiceInstance FetchLogs Scholarship
               nextId] in F1, F2, F3.
        apply (caught_error_closes_run now w w2 m (message e));
          [exact Hfresh|now rewrite F2|exact F3|exact F1].
    + apply (caught_error_closes_run now w w1 m (message NoProvider));
        [exact Hfresh|exact Hm|reflexivity|reflexivity].
Qed.

(** *** The two deadline windows compared *)

Lemma DayFromYear_leap (y : Z) :
  Time.DayFromYear (y + 1) - Time.DayFromYear y = 365 + Time.InLeapYear y.
Proof.
  unfold Time.DayFromYear, Time.InLeapYear.
  destruct (y mod 4 =? 0) eqn:E4; destruct (y mod 100 =? 0) eqn:E100;
    destruct (y mod 400 =? 0) eqn:E400; cbn [negb andb orb];
    rewrite ?Z.eqb_eq, ?Z.eqb_neq in *;
    Z.to_euclidean_division_equations; lia.
Qed.

Lemma DayWithinYear_range (t : Z) :
  0 <= Time.DayWithinYear t < 365 + Time.InLeapYear (Time.YearFromTime t).
Proof.
  unfold Time.DayWithinYear, Time.YearFromTime.
  pose proof (YearFromDay_spec (Time.Day t)) as H.
  pose proof (DayFromYear_leap (Time.YearFromDay (Time.Day t))) as Hl.
  lia.
Qed.

(** Unless the day is 31 December, the same day of another year lies
    before the 31 December of that year. *)
Lemma day_before_new_years_eve (l l' dwy : Z) :
  0 <= l <= 1 -> 0 <= l' <= 1 -> 0 <= dwy < 365 + l ->
  Time.MonthFromDayWithinYear l dwy <> 11
  \/ dwy - Time.monthStart l (Time.MonthFromDayWithinYear l dwy) + 1 <> 31 ->
  Time.monthStart l' (Time.MonthFromDayWithinYear l dwy)
  + (dwy - Time.monthStart l (Time.MonthFromDayWithinYear l dwy) + 1)
  <= 364 + l'.
Proof.
  intros Hl Hl' Hd. unfold Time.MonthFromDayWithinYear.
  repeat match goal with
         | |- context [if ?a <? ?b then _ else _] =>
             let E := fresh "E" in
             destruct (a <? b) eqn:E;
             [apply Z.ltb_lt in E|apply Z.ltb_ge in E]
         end;
    intros H;
    cbv [Time.monthStart Z.leb Z.eqb Z.compare Pos.compare Pos.compare_cont
           Pos.eqb] in H |- *;
    lia.
Qed.

Lemma setFullYear_before_newDate (now : Z) :
  let lt := Time.LocalTime LocalTZA now in
  Time.MonthFromTime lt <> 11 \/ Time.DateFromTime lt <> 31 ->
  Time.setFullYear LocalTZA now (Time.getFullYear LocalTZA now + 3)
  <= Time.newDate LocalTZA (Time.getFullYear LocalTZA now + 3) 11 31.
Proof.
  cbv zeta. intros Hnot.
  unfold Time.setFullYear, Time.newDate, Time.getFullYear, Time.UTC, Time.MakeDate.
  set (lt := Time.LocalTime LocalTZA now) in *.
  rewrite MakeDay_in_year by apply MonthFromDayWithinYear_range.
  rewrite MakeDay_in_year by lia.
  set (Y := Time.YearFromTime lt).
  pose proof (day_before_new_years_eve (Time.InLeapYear Y)
                (Time.InLeapYear (Y + 3)) (Time.DayWithinYear lt)
                (InLeapYear_range Y) (InLeapYear_range (Y + 3))
                (DayWithinYear_range lt) Hnot) as H.
  pose proof (Z.mod_pos_bound lt Time.msPerDay ltac:(reflexivity)) as Hr.
  unfold Time.DateFromTime, Time.MonthFromTime. fold Y.
  change (Time.monthStart (Time.InLeapYear (Y + 3)) 11)
    with (334 + Time.InLeapYear (Y + 3)).
  unfold Time.TimeWithinDay. unfold Time.msPerDay in *. nia.
Qed.

Lemma validateEntry_facts (now : Z) (item : json) (s : ParsedScholarship) :
  validateEntry now item = Some s ->
  safeParse item = Some s
  /\ isOfficialDirectLink (link s) = true
  /\ exists d, Date_parse (deadline s) = Some d
       /\ now <= d
          <= Time.setFullYear LocalTZA now (Time.getFullYear LocalTZA now + 3).
Proof.
  unfold validateEntry.
  destruct (safeParse item) as [s'|] eqn:Hs; [|discriminate].
  destruct (isOfficialDirectLink (link s')) eqn:Hl; [|discriminate]. cbn [negb].
  destruct (Date_parse (deadline s')) as [d|] eqn:Hd; [|discriminate].
  destruct (d <? now) eqn:E1; [discriminate|].
  destruct (_ <? d) eqn:E2; [discriminate|].
  intros H. inversion H; subst s'. apply Z.ltb_ge in E1, E2.
  repeat split; try assumption. exists d. split; [exact Hd|lia].
Qed.

(** X14. Read at the same time, the validation of the store accepts every
    candidate the validation loop of a provider has let through, unless the
    local date is 31 December: only on that day can the end of the store's
    window, local midnight of 31 December three years on, lie before the
    end of the provider's window. *)
Theorem store_accepts_what_extraction_accepted
    (now : Z) (item : json) (s : ParsedScholarship) :
  validateEntry now item = Some s ->
  Time.MonthFromTime (Time.LocalTime LocalTZA now) <> 11
  \/ Time.DateFromTime (Time.LocalTime LocalTZA now) <> 31 ->
  validateScholarshipData now s = {| valid := true; reason := None |}.
Proof.
  intros Hv Hnot.
  destruct (validateEntry_facts now item s Hv) as (Hs & Hl & d & Hd & Hlo & Hhi).
  pose proof (setFullYear_before_newDate now Hnot) as Hle.
  destruct (safeParse_fields item s Hs) as (Ht & Ho & Hde & Hk).
  unfold validateScholarshipData.
  apply Nat.ltb_ge in Ht, Ho, Hde. rewrite Ht, Ho, Hde.
  rewrite (link_policies_agree _ (trim_http_nonempty _ Hk)), Hl, Hd.
  cbn [negb Time.date_lt Time.date_gt].
  assert (E1 : (d <? now) = false) by (apply Z.ltb_ge; lia).
  assert (E2 : (Time.newDate LocalTZA (Time.getFullYear LocalTZA now + 3) 11 31
                <? d) = false) by (apply Z.ltb_ge; lia).
  now rewrite E1, E2.
Qed.

(** *** Records added by hand *)

Lemma storeStep_matched (now : Z) (source : string) (c : Counters)
    (s : ParsedScholarship) (w : World) :
  Scholarship_findOne (Str.trim (title s)) (Str.trim (organization s))
    (Scholarship w) <> None ->
  match storeStep now source c s w with
  | (Ok c', w') =>
      added c' = added c
      /\ List.length (Scholarship w') = List.length (Scholarship w)
  | (Throw _, w') => w' = w
  end.
Proof.
  intros Hf.
  destruct (valid (validateScholarshipData now s)) eqn:Hv;
    [|rewrite storeStep_rejected by exact Hv; now split].
  destruct (Scholarship_findOne (Str.trim (title s))
              (Str.trim (organization s)) (Scholarship w)) as [ex|] eqn:He;
    [|now destruct Hf].
  rewrite (storeStep_found now source c s w ex Hv He).
  destruct (later s ex || longer s ex); [|now split].
  pose proof (merge_deadline now s ex) as Hd.
  destruct (updateOne_cases now (doc_id ex) _ w _ Hd) as [H|[[H _]|H]];
    rewrite H; cbn; rewrite ?length_map; auto.
Qed.

Lemma addScholarship_cases (now : Z) (data : InsertScholarship) (w : World) :
  match addScholarship now data w with
  | (Ok id, w') =>
      exists d doc,
        Date_parse (ins_deadline data) = Some d
        /\ now <= d
        /\ isValidApplicationLink (ins_link data) = true
        /\ (10 <= String.length (Str.trim (ins_title data)))%nat
        /\ (50 <= String.length (Str.trim (ins_description data)))%nat
        /\ (3 <= String.length (Str.trim (ins_organization data)))%nat
        /\ id = nextId w
        /\ w' = with_docs (Scholarship w ++ [doc]) (S (nextId w)) w
        /\ doc_id doc = id
        /\ doc_title doc = Str.trim (ins_title data)
        /\ doc_organization doc = Str.trim (ins_organization data)
        /\ doc_description doc = Str.trim (ins_description data)
        /\ doc_link doc = Str.trim (ins_link data)
        /\ doc_deadline doc = d
        /\ doc_is_verified doc = negb (ins_is_verified data =? 0)
  | (Throw e, w') => w' = w /\ message e <> ""
  end.
Proof.
  unfold addScholarship.
  destruct (isValidApplicationLink (ins_link data)) eqn:Hl; cbn [negb];
    [|split; [reflexivity|discriminate]].
  destruct ((ins_title data =? "")%string
            || (String.length (Str.trim (ins_title data)) <? 10)%nat) eqn:Ht;
    [split; [reflexivity|discriminate]|].
  destruct ((ins_description data =? "")%string
            || (String.length (Str.trim (ins_description data)) <? 50)%nat) eqn:Hd;
    [split; [reflexivity|discriminate]|].
  destruct ((ins_organization data =? "")%string
            || (String.length (Str.trim (ins_organization data)) <? 3)%nat) eqn:Ho;
    [split; [reflexivity|discriminate]|].
  apply orb_false_iff in Ht, Hd, Ho.
  destruct Ht as [_ Ht], Hd as [_ Hd], Ho as [_ Ho].
  apply Nat.ltb_ge in Ht, Hd, Ho.
  destruct (Date_parse (ins_deadline data)) as [d|] eqn:Hp;
    cbn [Time.date_lt].
  - destruct (d <? now) eqn:E; [split; [reflexivity|discriminate]|].
    apply Z.ltb_ge in E. unfold Scholarship_createWith.
    destruct (required_paths_ok _); cbn [negb];
      [|split; [reflexivity|discriminate]].
    destruct (index_conflict None _ _ d (Scholarship w));
      [split; [reflexivity|discriminate]|].
    exists d. eexists. repeat split; try eassumption; reflexivity.
  - cbn. split; [reflexivity|discriminate].
Qed.

(** X15. When [addScholarship] returns, it has appended exactly one record,
    stored under the identifier it returns: the link has passed the trust
    policy, title, description and organization have their minimal lengths
    once trimmed and are stored trimmed, like the link, and the deadline
    reads as a date not before the current time. After such an add, a
    candidate of the pipeline that has the same title and organization up to
    letter case and surrounding white space is never inserted as a second
    record:
    [storeScholarships] adds nothing and the collection keeps its size. *)
Theorem pipeline_does_not_duplicate_a_record_added_by_hand
    (now now' : Z) (data : InsertScholarship) (w w1 : World) (id : nat)
    (s : ParsedScholarship) (source : string) :
  addScholarship now data w = (Ok id, w1) ->
  Str.ci_eq (Str.trim (ins_title data)) (Str.trim (title s)) = true ->
  Str.ci_eq (Str.trim (ins_organization data)) (Str.trim (organization s)) = true ->
  (exists d doc,
     Scholarship w1 = (Scholarship w ++ [doc])%list
     /\ lookup id (Scholarship w1) <> None
     /\ doc_id doc = id
     /\ doc_title doc = Str.trim (ins_title data)
     /\ doc_organization doc = Str.trim (ins_organization data)
     /\ doc_description doc = Str.trim (ins_description data)
     /\ doc_link doc = Str.trim (ins_link data)
     /\ isValidApplicationLink (ins_link data) = true
     /\ Date_parse (ins_deadline data) = Some d
     /\ doc_deadline doc = d /\ now <= d
     /\ (10 <= String.length (doc_title doc))%nat
     /\ (50 <= String.length (doc_description doc))%nat
     /\ (3 <= String.length (doc_organization doc))%nat)
  /\ match storeScholarships now' [s] source w1 with
     | (Ok n, w2) =>
         n = 0%nat /\ List.length (Scholarship w2) = List.length (Scholarship w1)
     | (Throw _, w2) => w2 = w1
     end.
Proof.
  intros Hadd Ht Ho.
  pose proof (addScholarship_cases now data w) as H. rewrite Hadd in H.
  destruct H as (d & doc & Hp & Hle & Hl & H10 & H50 & H3 & Hid & Hw & Hdid
                 & Hdt & Hdo & Hdd & Hdl & Hddl & Hver).
  assert (Hcoll : Scholarship w1 = (Scholarship w ++ [doc])%list)
    by (rewrite Hw; reflexivity).
  split.
  - exists d, doc. split; [exact Hcoll|]. split.
    + rewrite Hcoll. unfold lookup. intros Hnone.
      assert (Hin : In doc (Scholarship w ++ [doc]))
        by (apply in_app_iff; right; now left).
      apply (find_none _ _ Hnone) in Hin.
      rewrite Hdid, Nat.eqb_refl in Hin. discriminate.
    + rewrite Hdt, Hdd, Hdo. repeat split; assumption.
  - assert (Hf : Scholarship_findOne (Str.trim (title s))
                   (Str.trim (organization s)) (Scholarship w1) <> None).
    { intros Hnone. unfold Scholarship_findOne in Hnone.
      assert (Hin : In doc (Scholarship w1))
        by (rewrite Hcoll; apply in_app_iff; right; now left).
      apply (find_none _ _ Hnone) in Hin.
      rewrite Hdt, Hdo, Ht, Ho in Hin. discriminate. }
    pose proof (storeStep_matched now' source
                  {| added := 0; rejected := 0; duped := 0 |} s w1 Hf) as Hs.
    unfold storeScholarships, store_loop, bind, ret.
    destruct (storeStep now' source _ s w1) as [[c|e] w2]; [|exact Hs].
    destruct Hs as [Ha Hlen]. cbn in Ha. split; assumption.
Qed.

End Pipeline.

(** ** Concrete runs

    The properties above hold for every host. Below they are applied on the
    small host of module [Host], in the UTC time zone, to the data of module
    [Sample], on a database that takes every write to the fetch log unless
    another one is named. *)

Import Sample.

Local Abbreviation isOfficialDirectLink' := (isOfficialDirectLink Host.URL_parse).
Local Abbreviation isValidApplicationLink' := (isValidApplicationLink Host.URL_parse).
Local Abbreviation safeParse' := (safeParse Host.URL_parse).
Local Abbreviation validateEntry' := (validateEntry Host.URL_parse Host.Date_parse 0).
Local Abbreviation validation_loop' :=
  (validation_loop Host.URL_parse Host.Date_parse 0).
Local Abbreviation validateScholarshipData' :=
  (validateScholarshipData Host.URL_parse Host.Date_parse 0).
Local Abbreviation storeStep' := (storeStep Host.URL_parse Host.Date_parse 0).
Local Abbreviation store_loop' := (store_loop Host.URL_parse Host.Date_parse 0).
Local Abbreviation storeScholarships' :=
  (storeScholarships Host.URL_parse Host.Date_parse 0).
Local Abbreviation later' := (later Host.Date_parse).
Local Abbreviation runFetchCycle' env :=
  (runFetchCycle Host.URL_parse Host.Date_parse 0 all_reachable three_entries env
     writes_accepted).

Local Open Scope Z_scope.

(** C5 on the small host: its reading of https://mit.edu/apply is the one
    the theorem asks for; an address below scholarships.com, a PDF and a
    non-web scheme are turned down by both copies of the policy. *)
Lemma trust_policy_on_host :
  Host.URL_parse "https://mit.edu/apply"
    = Some {| protocol := "https:"; hostname := "mit.edu"; pathname := "/apply" |}
  /\ isOfficialDirectLink' "https://WWW.Sub.Scholarships.com/x" = false
  /\ isValidApplicationLink' "https://WWW.Sub.Scholarships.com/x" = false
  /\ isOfficialDirectLink' "https://mit.edu/Form.PDF" = false
  /\ isValidApplicationLink' "ftp://mit.edu/apply" = false
  /\ isOfficialDirectLink' "https://mit.edu/apply" = true
  /\ isValidApplicationLink' "https://mit.edu/apply" = true.
Proof.
  assert (Hmit : Host.URL_parse "https://mit.edu/apply"
                 = Some {| protocol := "https:"; hostname := "mit.edu";
                           pathname := "/apply" |}) by reflexivity.
  destruct (trust_policy_rejects_untrusted_links Host.URL_parse Hmit)
    as (Hrej & Ha & Hb).
  split; [exact Hmit|].
  assert (H1 : untrusted {| protocol := "https:";
                            hostname := "www.sub.scholarships.com";
                            pathname := "/x" |}).
  { right. left. exists "scholarships.com". split.
    - unfold BLOCKED_DOMAINS. simpl. tauto.
    - right. exists "sub". reflexivity. }
  assert (H2 : untrusted {| protocol := "https:"; hostname := "mit.edu";
                            pathname := "/Form.PDF" |}).
  { right. right. exists "/form". reflexivity. }
  assert (H3 : untrusted {| protocol := "ftp:"; hostname := "mit.edu";
                            pathname := "/apply" |}).
  { left. split; discriminate. }
  split; [exact (proj1 (Hrej "https://WWW.Sub.Scholarships.com/x" _ eq_refl H1))|].
  split; [exact (proj2 (Hrej "https://WWW.Sub.Scholarships.com/x" _ eq_refl H1))|].
  split; [exact (proj1 (Hrej "https://mit.edu/Form.PDF" _ eq_refl H2))|].
  split; [exact (proj2 (Hrej "ftp://mit.edu/apply" _ eq_refl H3))|].
  split; [exact Ha|exact Hb].
Defined.

(** C8 on sample data: the entry without a title goes, its neighbours
    stay. *)
Lemma validator_on_sample_batch :
  (missing_required no_title_entry \/ violates_enum no_title_entry)
  /\ validation_loop' mid_june_2026 ([good_entry] ++ no_title_entry :: [good_entry]) []
     = [good; good].
Proof.
  assert (H : missing_required no_title_entry \/ violates_enum no_title_entry).
  { left. exists "title". split; [simpl; tauto|reflexivity]. }
  split; [exact H|].
  destruct (validator_drops_only_the_violating_entry Host.URL_parse
              Host.Date_parse 0 mid_june_2026 [good_entry] [good_entry]
              no_title_entry H) as (H1 & _ & _).
  rewrite H1. reflexivity.
Defined.

(** C6 on sample data: on 14 January 2027 a deadline of 15 January 2027 is
    one day ahead, and the entry passes both stages. *)
Lemma deadline_one_day_ahead_is_kept :
  safeParse' good_entry = Some good
  /\ isOfficialDirectLink' (link good) = true
  /\ Host.Date_parse (deadline good) = Some (jan_14_2027 + Time.msPerDay)
  /\ validateEntry' jan_14_2027 good_entry = Some good
  /\ valid (validateScholarshipData' jan_14_2027 good) = true.
Proof.
  assert (Hs : safeParse' good_entry = Some good) by reflexivity.
  assert (Hl : isOfficialDirectLink' (link good) = true) by reflexivity.
  assert (Hd : Host.Date_parse (deadline good)
               = Some (jan_14_2027 + Time.msPerDay)) by reflexivity.
  destruct (deadline_window_of_each_stage Host.URL_parse Host.Date_parse 0
              jan_14_2027 good_entry good Hs Hl) as (_ & Hday & _).
  destruct (Hday Hd) as [H1 H2].
  repeat (split; [assumption|]). assumption.
Defined.

(** C6 as the specification words it does not hold, the two windows are
    not the same: on 15 June 2026 a deadline of
    1 September 2029 is more than three years ahead and the loop of the
    provider leaves the entry out, while the validation of the store, whose
    window ends on 31 December 2029, lets the same candidate through. *)
Lemma store_window_is_not_the_extraction_window :
  let item := entry "Presidential Fellowship" "2029-09-01" "https://mit.edu/apply" in
  let s := candidate "2029-09-01" long_text in
  safeParse' item = Some s
  /\ validateEntry' mid_june_2026 item = None
  /\ valid (validateScholarshipData' mid_june_2026 s) = true.
Proof. vm_compute. repeat split. Qed.

(** C7 on sample data: the sample candidate, stored twice into the empty
    world. *)
Lemma storing_sample_twice :
  valid (validateScholarshipData' mid_june_2026 good) = true
  /\ Host.Date_parse (deadline good) = Some jan_15_2027
  /\ required_present good = true
  /\ Scholarship_findOne (Str.trim (title good)) (Str.trim (organization good))
       (Scholarship empty_world) = None
  /\ exists w1,
       storeScholarships' mid_june_2026 [good] "manual" empty_world = (Ok 1%nat, w1)
       /\ List.length (Scholarship w1) = 1%nat
       /\ storeScholarships' mid_june_2026 [good] "manual" w1 = (Ok 0%nat, w1).
Proof.
  assert (Hv : valid (validateScholarshipData' mid_june_2026 good) = true)
    by reflexivity.
  assert (Hd : Host.Date_parse (deadline good) = Some jan_15_2027) by reflexivity.
  assert (Hr : required_present good = true) by reflexivity.
  assert (Hf : Scholarship_findOne (Str.trim (title good))
                 (Str.trim (organization good)) (Scholarship empty_world) = None)
    by reflexivity.
  repeat (split; [assumption|]).
  destruct (storing_twice_inserts_once Host.URL_parse Host.Date_parse 0
              mid_june_2026 mid_june_2026 "manual" good empty_world jan_15_2027
              Hv Hv Hd Hr Hf) as (w1 & _ & H1 & Hlen & _ & H2).
  exists w1. split; [exact H1|]. split; [exact Hlen|exact H2].
Defined.

(** C7 as the specification words it does not hold: a candidate whose
    country is two blanks passes the loop of the provider (the schema asks
    for two characters, not for two characters once trimmed), has a
    reachable link and passes the validation of the store. The store trims
    the country, the collection refuses the empty required field, the
    store catches the error and counts nothing: the first submission
    inserts nothing, and so does the second. *)
Lemma blank_country_candidate_is_never_inserted :
  validateEntry' mid_june_2026 blank_country_entry = Some blank_country
  /\ reachable all_reachable (link blank_country) = true
  /\ valid (validateScholarshipData' mid_june_2026 blank_country) = true
  /\ Host.Date_parse (deadline blank_country) = Some jan_15_2027
  /\ Scholarship_findOne (Str.trim (title blank_country))
       (Str.trim (organization blank_country)) (Scholarship empty_world) = None
  /\ Str.trim (country blank_country) = ""
  /\ required_present blank_country = false
  /\ Scholarship_create mid_june_2026 "Presidential Fellowship" "MIT" ""
       "Master" "Any" "Research" (Some jan_15_2027) long_text
       "https://mit.edu/apply" "Full tuition" "USD" false "manual" empty_world
     = (Throw ValidationError, empty_world)
  /\ store_loop' mid_june_2026 "manual" [blank_country]
       {| added := 0; rejected := 0; duped := 0 |} empty_world
     = (Ok {| added := 0; rejected := 0; duped := 0 |}, empty_world)
  /\ storeScholarships' mid_june_2026 [blank_country] "manual" empty_world
     = (Ok 0%nat, empty_world)
  /\ List.length (Scholarship empty_world) = 0%nat.
Proof. vm_compute. repeat split. Qed.

Lemma sample_keys_unique :
  unique_keys (Scholarship (world_with [stored 0 jan_first_2026 long_text])).
Proof.
  split.
  - constructor; [split; reflexivity|constructor].
  - constructor; [intros []|constructor].
Defined.

Lemma sample_ids_unique (dl : Z) (desc : string) :
  unique_ids (Scholarship (world_with [stored 0 dl desc])).
Proof. constructor; [intros []|constructor]. Defined.

(** C3 on sample data: a collection with one record, a candidate that
    matches it and one that does not. *)
Lemma merge_keeps_sample_keys_unique :
  unique_keys (Scholarship (world_with [stored 0 jan_first_2026 long_text]))
  /\ unique_keys
       (Scholarship
          (snd (storeScholarships' mid_june_2026 [good; other] "manual"
                  (world_with [stored 0 jan_first_2026 long_text])))).
Proof.
  split; [exact sample_keys_unique|].
  exact (merge_keeps_identity_keys_unique Host.URL_parse Host.Date_parse 0
           mid_june_2026 [good; other] "manual" _ sample_keys_unique).
Defined.

(** C3 as the specification words it does not hold: the unique index is
    on title, organization and deadline, so it admits a
    second record with the title and organization of a stored one as soon
    as the deadline differs, and the identity keys are then no longer
    unique. *)
Lemma unique_index_admits_same_title_and_organization :
  let w := world_with [stored 0 jan_14_2027 long_text] in
  unique_keys (Scholarship w)
  /\ exists w',
       Scholarship_create mid_june_2026 "Presidential Fellowship" "MIT" "USA"
         "Master" "Any" "Research" (Some jan_15_2027) long_text
         "https://mit.edu/apply" "Varies" "USD" false "manual" w
       = (Ok tt, w')
       /\ List.length (Scholarship w') = 2%nat
       /\ ~ NoDup (map identity_key (Scholarship w')).
Proof.
  cbv zeta. split.
  - split.
    + constructor; [split; reflexivity|constructor].
    + constructor; [intros []|constructor].
  - eexists. split; [reflexivity|]. split; [reflexivity|].
    intros H. inversion H as [|? ? Hn _]. apply Hn. left. reflexivity.
Qed.

(** C4 on sample data: the stored record has deadline 1 January 2026 and a
    description of 76 characters, the candidate deadline 1 February 2026
    and a description of 64 characters. No other record stands in the way
    of the update: the deadline is updated, the description is not, both
    update time stamps are the current time and the title is untouched. *)
Lemma merge_takes_later_deadline_keeps_longer_description :
  let w := world_with [stored 0 jan_first_2026 longer_text] in
  let s := candidate "2026-02-01" long_text in
  let c := {| added := 0; rejected := 0; duped := 0 |} in
  valid (validateScholarshipData' dec_first_2025 s) = true
  /\ Scholarship_findOne (Str.trim (title s)) (Str.trim (organization s))
       (Scholarship w) = Some (stored 0 jan_first_2026 longer_text)
  /\ unique_ids (Scholarship w)
  /\ exists w' ex',
       storeStep' dec_first_2025 "manual" c s w = (Ok (incr_duped c), w')
       /\ lookup 0 (Scholarship w') = Some ex'
       /\ doc_deadline ex' = feb_first_2026
       /\ doc_description ex' = longer_text
       /\ doc_updated_at ex' = dec_first_2025
       /\ doc_updatedAt ex' = dec_first_2025
       /\ doc_title ex' = "Presidential Fellowship".
Proof.
  cbv zeta.
  set (w := world_with [stored 0 jan_first_2026 longer_text]).
  set (s := candidate "2026-02-01" long_text).
  set (ex := stored 0 jan_first_2026 longer_text).
  assert (Hv : valid (validateScholarshipData' dec_first_2025 s) = true)
    by reflexivity.
  assert (Hf : Scholarship_findOne (Str.trim (title s))
                 (Str.trim (organization s)) (Scholarship w) = Some ex)
    by reflexivity.
  assert (Hi : unique_ids (Scholarship w)) by apply sample_ids_unique.
  repeat (split; [assumption|]).
  pose proof (merge_updates_only_better_fields Host.URL_parse Host.Date_parse 0
                dec_first_2025 "manual"
                {| added := 0; rejected := 0; duped := 0 |} s w ex Hv Hf Hi)
    as Hif.
  assert (E : later' s ex || longer s ex = true) by reflexivity.
  rewrite E in Hif. destruct Hif as (dl & Hdl & Hif).
  assert (E2 : later' s ex = true) by reflexivity. rewrite E2 in Hdl.
  change (Host.Date_parse (deadline s)) with (Some feb_first_2026) in Hdl.
  inversion Hdl; subst dl.
  assert (Ec : index_conflict (Some (doc_id ex)) (doc_title ex)
                 (doc_organization ex) feb_first_2026 (Scholarship w) = false)
    by reflexivity.
  rewrite Ec in Hif.
  destruct Hif as (w' & ex' & Hstep & _ & _ & Hl & Hd & Hdesc & _ & _ & Hup
                   & Hup' & Ht & _).
  exists w', ex'. split; [exact Hstep|]. split; [exact Hl|].
  split; [exact Hd|]. split; [rewrite Hdesc; reflexivity|].
  split; [exact Hup|]. split; [exact Hup'|]. rewrite Ht. reflexivity.
Defined.

(** The refusal of C4 on sample data: two records share title and
    organization and differ in their deadlines, 1 January and 1 February
    2026, which the unique index admits. A candidate with the deadline
    1 February 2026 matches the first; the update would give it the
    deadline of the second, the index refuses, and the step throws without
    writing or counting. *)
Lemma later_deadline_can_clash_with_a_sibling_record :
  let w := world_with [stored 0 jan_first_2026 long_text;
                       stored 1 feb_first_2026 long_text] in
  let s := candidate "2026-02-01" long_text in
  let c := {| added := 0; rejected := 0; duped := 0 |} in
  unique_ids (Scholarship w)
  /\ index_conflict (Some 1%nat) "Presidential Fellowship" "MIT" feb_first_2026
       [stored 0 jan_first_2026 long_text] = false
  /\ valid (validateScholarshipData' dec_first_2025 s) = true
  /\ Scholarship_findOne (Str.trim (title s)) (Str.trim (organization s))
       (Scholarship w) = Some (stored 0 jan_first_2026 long_text)
  /\ later' s (stored 0 jan_first_2026 long_text) = true
  /\ storeStep' dec_first_2025 "manual" c s w = (Throw E11000, w)
  /\ storeScholarships' dec_first_2025 [s] "manual" w = (Throw E11000, w).
Proof.
  cbv zeta. split.
  - constructor; [intros [H|[]]; discriminate H|].
    constructor; [intros []|constructor].
  - vm_compute. repeat split.
Qed.

(** C4 as the specification words it does not go through: a candidate whose
    description has 40 characters is turned down by the validation of the
    store (50 at least) before the stored record is looked up, so the
    stored deadline of 1 January 2026 stays although the incoming one,
    1 February 2026, is later. And when an update does fire (the candidate
    of 64 characters against the stored 76), a field outside deadline,
    description, link and amount changes: the update time stamp. *)
Lemma short_description_is_rejected_before_the_merge :
  let ex := stored 0 jan_first_2026 sixty_chars in
  let w := world_with [ex] in
  let s := candidate "2026-02-01" forty_chars in
  let c := {| added := 0; rejected := 0; duped := 0 |} in
  (String.length (doc_description ex) = 60%nat
   /\ String.length (description s) = 40%nat
   /\ Scholarship_findOne (Str.trim (title s)) (Str.trim (organization s))
        (Scholarship w) = Some ex
   /\ later' s ex = true
   /\ reason (validateScholarshipData' dec_first_2025 s)
      = Some "Description too short or missing eligibility criteria"
   /\ storeStep' dec_first_2025 "manual" c s w = (Ok (incr_rejected c), w))
  /\ exists w' ex',
       storeStep' dec_first_2025 "manual" c (candidate "2026-02-01" long_text)
         (world_with [stored 0 jan_first_2026 longer_text])
       = (Ok (incr_duped c), w')
       /\ lookup 0 (Scholarship w') = Some ex'
       /\ doc_updated_at ex' = dec_first_2025
       /\ doc_updated_at ex'
          <> doc_updated_at (stored 0 jan_first_2026 longer_text).
Proof.
  cbv zeta. split.
  - vm_compute. repeat split.
  - eexists. eexists. split; [vm_compute; reflexivity|].
    split; [reflexivity|]. split; [reflexivity|]. discriminate.
Qed.

(** C10 on sample data: the stored record has deadline 1 February 2026 and
    a description of 64 characters, the candidate deadline 15 January 2026
    and a description of 76 characters. The update fires on the description
    alone and the stored deadline stays. *)
Lemma longer_description_keeps_later_stored_deadline :
  let ex := stored 0 feb_first_2026 long_text in
  let w := world_with [ex] in
  let s := candidate "2026-01-15" longer_text in
  let c := {| added := 0; rejected := 0; duped := 0 |} in
  unique_ids (Scholarship w)
  /\ later' s ex = false
  /\ longer s ex = true
  /\ exists w' ex',
       storeStep' dec_first_2025 "manual" c s w = (Ok (incr_duped c), w')
       /\ lookup 0 (Scholarship w') = Some ex'
       /\ doc_deadline ex' = feb_first_2026.
Proof.
  cbv zeta.
  set (ex := stored 0 feb_first_2026 long_text).
  set (w := world_with [ex]).
  set (s := candidate "2026-01-15" longer_text).
  assert (Hi : unique_ids (Scholarship w)) by apply sample_ids_unique.
  split; [exact Hi|]. split; [reflexivity|]. split; [reflexivity|].
  destruct (stored_deadline_never_moves_back Host.URL_parse Host.Date_parse 0
              dec_first_2025 "manual" {| added := 0; rejected := 0; duped := 0 |}
              s w Hi) as [_ Hmerge].
  specialize (Hmerge ex eq_refl eq_refl).
  assert (E : later' s ex || longer s ex = true) by reflexivity.
  rewrite E in Hmerge.
  destruct Hmerge as [Hthrow|(w' & ex' & Hstep & Hl & Hdl)].
  - vm_compute in Hthrow. discriminate Hthrow.
  - exists w', ex'. split; [exact Hstep|]. split; [exact Hl|].
    rewrite Hdl. reflexivity.
Defined.

(** C2 on sample data: no variable of the environment is set, the manager
    has not been built. The cycle throws and leaves its run record
    running. *)
Lemma unconfigured_cycle_on_empty_environment :
  aiServiceInstance empty_world = None
  /\ selected_key empty_env = None
  /\ exists e,
       runFetchCycle' empty_env mid_june_2026 empty_world
       = (Throw e,
          with_logs [opened_log mid_june_2026 empty_world] 1 empty_world)
       /\ message e
          = "[AI Service] Failed to initialize provider: grok. No API keys found. Please add an API key to your .env file."
       /\ status (opened_log mid_june_2026 empty_world) = running
       /\ error (opened_log mid_june_2026 empty_world) = None.
Proof.
  split; [reflexivity|]. split; [reflexivity|].
  destruct (unconfigured_cycle_throws Host.URL_parse Host.Date_parse 0
              all_reachable three_entries empty_env writes_accepted
              mid_june_2026 empty_world eq_refl eq_refl) as (e & He & Hrun).
  exists e. split; [exact Hrun|].
  split; [|split; reflexivity].
  vm_compute in He. inversion He. reflexivity.
Defined.

(** C1 on sample data, from the empty world with the Gemini key set and a
    database that takes every write: the manager is built on the way,
    three entries come back for the first query, one survives, and the run
    record is completed with one found and one added. *)
Lemma fetch_cycle_on_three_entries :
  let p := {| kind := Gemini; apiKey := "key" |} in
  let past_parsed := parsed "Expired Fellowship" "2020-01-01" "https://mit.edu/expired" in
  let blocked_parsed :=
    parsed "Aggregated Fellowship" "2027-01-15" "https://scholarships.com/x" in
  aiServiceInstance empty_world = None
  /\ AIServiceManager_new gemini_env = Ok gemini_manager
  /\ safeParse' past_entry = Some past_parsed
  /\ isOfficialDirectLink' (link past_parsed) = true
  /\ Host.Date_parse (deadline past_parsed) = Some jan_first_2020
  /\ jan_first_2020 < mid_june_2026
  /\ safeParse' blocked_entry = Some blocked_parsed
  /\ isOfficialDirectLink' (link blocked_parsed) = false
  /\ validateEntry' mid_june_2026 good_entry = Some good
  /\ reachable all_reachable (link good) = true
  /\ valid (validateScholarshipData' mid_june_2026 good) = true
  /\ required_present good = true
  /\ exists w',
       runFetchCycle' gemini_env mid_june_2026 empty_world = (Ok tt, w')
       /\ runIndex w' = 1%nat
       /\ List.length (Scholarship w') = 1%nat
       /\ In {| log_id := 0; search_queries := getSearchQueries 0;
                status := completed; scholarships_found := 1;
                scholarships_added := 1; error := None;
                started_at := mid_june_2026;
                completed_at := Some mid_june_2026 |} (FetchLogs w').
Proof.
  cbv zeta.
  set (p := {| kind := Gemini; apiKey := "key" |}).
  set (s1 := parsed "Expired Fellowship" "2020-01-01" "https://mit.edu/expired").
  set (s2 := parsed "Aggregated Fellowship" "2027-01-15" "https://scholarships.com/x").
  assert (Hnone : aiServiceInstance empty_world = None) by reflexivity.
  assert (Hnew : AIServiceManager_new gemini_env = Ok gemini_manager)
    by reflexivity.
  assert (Hs1 : safeParse' past_entry = Some s1) by reflexivity.
  assert (Hl1 : isOfficialDirectLink' (link s1) = true) by reflexivity.
  assert (Hd1 : Host.Date_parse (deadline s1) = Some jan_first_2020) by reflexivity.
  assert (Hlt : jan_first_2020 < mid_june_2026) by reflexivity.
  assert (Hs2 : safeParse' blocked_entry = Some s2) by reflexivity.
  assert (Hl2 : isOfficialDirectLink' (link s2) = false) by reflexivity.
  assert (Hg : validateEntry' mid_june_2026 good_entry = Some good) by reflexivity.
  assert (Hr : reachable all_reachable (link good) = true) by reflexivity.
  assert (Hv : valid (validateScholarshipData' mid_june_2026 good) = true)
    by reflexivity.
  assert (Hq : required_present good = true) by reflexivity.
  repeat (split; [assumption|]).
  assert (Hb : on_blocklist
                 (Str.strip_www (Str.toLowerCase
                    (hostname {| protocol := "https:";
                                 hostname := "scholarships.com";
                                 pathname := "/x" |})))).
  { exists "scholarships.com". split; [simpl; tauto|now left]. }
  assert (Hrest : forall q',
             In q' (tl (getSearchQueries 0)) ->
             searchScholarships Host.URL_parse Host.Date_parse 0 three_entries
               p mid_june_2026 q' = Ok []).
  { intros q' [<-|[<-|[<-|[]]]]; reflexivity. }
  destruct (fetch_cycle_counts_verified_candidates Host.URL_parse
              Host.Date_parse 0 all_reachable three_entries gemini_env
              writes_accepted
              mid_june_2026 empty_world gemini_manager p
              (hd "" (getSearchQueries 0)) (tl (getSearchQueries 0))
              past_entry blocked_entry good_entry s1 s2 good jan_first_2020
              {| protocol := "https:"; hostname := "scholarships.com";
                 pathname := "/x" |}
              (or_intror (conj Hnone Hnew)) eq_refl eq_refl eq_refl eq_refl
              eq_refl Hrest Hs1 Hl1 Hd1 Hlt Hs2 eq_refl
              Hb Hg Hr Hv Hq eq_refl) as (w' & Hrun & Hidx & Hlen & Hlog).
  exists w'. split; [exact Hrun|]. split; [exact Hidx|].
  split; [exact Hlen|exact Hlog].
Defined.

(** C1 as the specification words it does not hold: in its scenario, run
    from the empty world with the Gemini key set, the three entries fare as
    described, the run is completed with one added, and the number found
    is one, not three. Nor is one added whenever the third entry passes
    validation and has a reachable link: with a country of two blanks it
    does both, yet the collection refuses it and the run is completed with
    one found and none added. And the run is completed only if the
    database takes the write: when it rejects the write of
    [completeFetchLog], the rejection is caught and the run is recorded as
    failed, with both counts at zero, although one record was stored. *)
Lemma fetch_cycle_found_is_not_the_raw_count :
  (map (validateEntry' mid_june_2026) [past_entry; blocked_entry; good_entry]
     = [None; None; Some good]
   /\ reachable all_reachable (link good) = true
   /\ exists w' log,
        runFetchCycle' gemini_env mid_june_2026 empty_world = (Ok tt, w')
        /\ FetchLogs w' = [log]
        /\ status log = completed
        /\ scholarships_added log = 1%nat
        /\ scholarships_found log = 1%nat
        /\ scholarships_found log <> 3%nat)
  /\ (map (validateEntry' mid_june_2026)
        [past_entry; blocked_entry; blank_country_entry]
      = [None; None; Some blank_country]
      /\ reachable all_reachable (link blank_country) = true
      /\ exists w' log,
           runFetchCycle Host.URL_parse Host.Date_parse 0 all_reachable
             three_entries_blank_country gemini_env writes_accepted
             mid_june_2026 empty_world = (Ok tt, w')
           /\ FetchLogs w' = [log]
           /\ status log = completed
           /\ scholarships_found log = 1%nat
           /\ scholarships_added log = 0%nat
           /\ Scholarship w' = [])
  /\ exists w' log,
       runFetchCycle Host.URL_parse Host.Date_parse 0 all_reachable
         three_entries gemini_env completion_rejected
         mid_june_2026 empty_world = (Ok tt, w')
       /\ FetchLogs w' = [log]
       /\ status log = failed
       /\ error log = Some "connection closed"
       /\ scholarships_found log = 0%nat
       /\ scholarships_added log = 0%nat
       /\ List.length (Scholarship w') = 1%nat.
Proof.
  split; [|split].
  - split; [reflexivity|]. split; [reflexivity|].
    eexists. eexists. split; [vm_compute; reflexivity|].
    split; [reflexivity|]. repeat split. discriminate.
  - split; [reflexivity|]. split; [reflexivity|].
    eexists. eexists. split; [vm_compute; reflexivity|].
    split; [reflexivity|]. repeat split.
  - eexists. eexists. split; [vm_compute; reflexivity|].
    split; [reflexivity|]. repeat split.
Qed.

(** ** Concrete runs of the further properties *)

(** X4 on sample data: the sample entry passes the extraction filter, so it
    has the schema's shape, a trusted link and a deadline in the window. *)
Lemma validated_sample_is_well_formed :
  validateEntry' mid_june_2026 good_entry = Some good
  /\ safeParse' good_entry = Some good
  /\ In (level good) LEVELS
  /\ Str.matches_ymd (deadline good) = true
  /\ (exists u, Host.URL_parse (link good) = Some u /\ ~ untrusted u)
  /\ exists d, Host.Date_parse (deadline good) = Some d /\ mid_june_2026 <= d.
Proof.
  assert (Hv : validateEntry' mid_june_2026 good_entry = Some good)
    by reflexivity.
  split; [exact Hv|].
  destruct (validated_candidates_are_well_formed Host.URL_parse Host.Date_parse
              0 mid_june_2026 good_entry good Hv)
    as (Hp & _ & (Hl & _) & Hy & Hu & d & Hd & Hlo & _).
  split; [exact Hp|]. split; [exact Hl|]. split; [exact Hy|].
  split; [exact Hu|]. exists d. split; [exact Hd|exact Hlo].
Defined.

(** X6 on a listed domain: a host two labels below scholarships.com is
    blocked as well. *)
Lemma blocklist_covers_a_deep_subdomain :
  host_blocked "scholarships.com" = true
  /\ host_blocked ("apply.eu" ++ "." ++ "scholarships.com") = true.
Proof.
  split; [reflexivity|].
  apply (blocklist_covers_subdomains "scholarships.com" "apply.eu").
  reflexivity.
Defined.

(** X7 on the sample environment: with the Gemini key set, the first call
    builds the manager on a Gemini provider holding that key and the second
    call returns the same manager. *)
Lemma manager_is_built_once_on_gemini :
  aiServiceInstance empty_world = None
  /\ exists m p,
       getAIService gemini_env empty_world = (Ok m, with_instance m empty_world)
       /\ getAIService gemini_env (with_instance m empty_world)
            = (Ok m, with_instance m empty_world)
       /\ currentProvider m = Some p
       /\ apiKey p = "key".
Proof.
  split; [reflexivity|].
  pose proof (manager_is_built_once_on_the_selected_provider gemini_env
                empty_world eq_refl) as H.
  change (selected_key gemini_env) with (Some "key") in H.
  destruct H as (m & p & H1 & H2 & H3 & H4 & _).
  exists m, p. split; [exact H1|]. split; [exact H2|]. split; [exact H3|exact H4].
Defined.

(** X8 on the sample manager: it holds no Grok key, so switching to grok
    throws, leaves the manager without a provider, and the next cycle, on a
    database that takes every write, is recorded as failed. *)
Lemma switching_to_a_provider_without_key :
  aiServiceInstance configured_world = Some gemini_manager
  /\ exists e m',
       switchAIProvider gemini_env "grok" configured_world
         = (Throw e, with_instance m' configured_world)
       /\ currentProvider m' = None
       /\ exists w',
            runFetchCycle' gemini_env mid_june_2026
              (with_instance m' configured_world) = (Ok tt, w')
            /\ exists l, In l (FetchLogs w') /\ status l = failed.
Proof.
  split; [reflexivity|].
  pose proof (switching_provider_drops_the_previous_one Host.URL_parse
                Host.Date_parse 0 all_reachable three_entries gemini_env
                writes_accepted configured_world gemini_manager "grok" eq_refl)
    as H.
  change (key_for (config gemini_manager) "grok") with (@None string) in H.
  destruct H as (e & m' & H1 & H2 & _ & H3).
  exists e, m'. split; [exact H1|]. split; [exact H2|].
  destruct (H3 mid_june_2026) as (w' & Hrun & Hin).
  exists w'. split; [exact Hrun|].
  eexists. split; [exact Hin|reflexivity].
Defined.

(** X9 on sample data: two distinct candidates stored into the empty
    collection are both added, and the collection grows by two. *)
Lemma storing_two_candidates_grows_by_two :
  exists w',
    store_loop' mid_june_2026 "gemini" [good; other]
      {| added := 0; rejected := 0; duped := 0 |} empty_world
      = (Ok {| added := 2; rejected := 0; duped := 0 |}, w')
    /\ storeScholarships' mid_june_2026 [good; other] "gemini" empty_world
         = (Ok 2%nat, w')
    /\ List.length (Scholarship w') = 2%nat.
Proof.
  pose (r := store_loop' mid_june_2026 "gemini" [good; other]
               {| added := 0; rejected := 0; duped := 0 |} empty_world).
  assert (H : r = (Ok {| added := 2; rejected := 0; duped := 0 |}, snd r))
    by (vm_compute; reflexivity).
  exists (snd r). split; [exact H|].
  destruct (store_reports_the_growth_of_the_collection Host.URL_parse
              Host.Date_parse 0 mid_june_2026 "gemini" [good; other]
              empty_world (snd r) _ H) as (H1 & H2 & _).
  split; [exact H1|exact H2].
Defined.

(** X10 on sample data: a stored record met again with a longer description
    and a new candidate beside it; the stored record is kept and the
    identifiers stay fresh. *)
Lemma merge_keeps_the_sample_record :
  let w := world_with [stored 0 jan_first_2026 long_text] in
  let w' := snd (storeScholarships' mid_june_2026
                   [candidate "2027-01-15" longer_text; other] "gemini" w) in
  ids_fresh w
  /\ records_kept (Scholarship w) (Scholarship w')
  /\ ids_fresh w'.
Proof.
  intros w w'.
  assert (Hf : ids_fresh w).
  { split.
    - constructor; [intros []|constructor].
    - constructor; [cbn; lia|constructor]. }
  split; [exact Hf|].
  destruct (merge_keeps_records_and_never_verifies Host.URL_parse
              Host.Date_parse 0 mid_june_2026
              [candidate "2027-01-15" longer_text; other] "gemini" w Hf)
    as (H1 & H2 & _).
  split; [exact H1|exact H2].
Defined.

(** X11 on sample data: the links of the batch carry no white space, the
    stored sample record has a trusted link, and so has every record after
    a batch of one trusted and one blocked candidate. *)
Lemma trusted_links_after_a_sample_batch :
  let w := world_with [stored 0 jan_first_2026 long_text] in
  let batch :=
    [other; parsed "Aggregated Fellowship" "2027-01-15" "https://scholarships.com/x"] in
  Forall (fun s => Host.URL_parse (Str.trim (link s)) = Host.URL_parse (link s))
         batch
  /\ Forall (fun d => isValidApplicationLink' (doc_link d) = true) (Scholarship w)
  /\ Forall (fun d => isValidApplicationLink' (doc_link d) = true)
       (Scholarship (snd (storeScholarships' mid_june_2026 batch "gemini" w))).
Proof.
  intros w batch.
  assert (Hs : Forall (fun s => Host.URL_parse (Str.trim (link s))
                                = Host.URL_parse (link s)) batch).
  { repeat constructor. }
  assert (Hw : Forall (fun d => isValidApplicationLink' (doc_link d) = true)
                 (Scholarship w)).
  { constructor; [reflexivity|constructor]. }
  split; [exact Hs|]. split; [exact Hw|].
  exact (store_writes_only_trusted_links Host.URL_parse Host.Date_parse 0
           mid_june_2026 batch "gemini" w Hs Hw).
Defined.

(** X12 on sample data: the same candidate twice in one batch is inserted
    once and counted once as a duplicate. *)
Lemma sample_duplicate_in_one_batch :
  valid (validateScholarshipData' mid_june_2026 other) = true
  /\ Host.Date_parse (deadline other) = Some jan_15_2027
  /\ required_present other = true
  /\ Scholarship_findOne (Str.trim (title other))
       (Str.trim (organization other)) (Scholarship empty_world) = None
  /\ exists w',
       storeScholarships' mid_june_2026 [other; other] "gemini" empty_world
         = (Ok 1%nat, w')
       /\ List.length (Scholarship w') = 1%nat.
Proof.
  assert (Hv : valid (validateScholarshipData' mid_june_2026 other) = true)
    by reflexivity.
  assert (Hd : Host.Date_parse (deadline other) = Some jan_15_2027)
    by reflexivity.
  assert (Hr : required_present other = true) by reflexivity.
  assert (Hf : Scholarship_findOne (Str.trim (title other))
                 (Str.trim (organization other)) (Scholarship empty_world)
               = None) by reflexivity.
  repeat (split; [assumption|]).
  destruct (duplicate_in_one_batch_is_stored_once Host.URL_parse
              Host.Date_parse 0 mid_june_2026 "gemini" other empty_world
              jan_15_2027 Hv Hd Hr Hf) as (_ & H).
  eexists. split; [exact H|reflexivity].
Defined.

(** X13 on the sample world, with a database that takes the run record
    and the record of a failure but rejects the write of
    [completeFetchLog]: the cycle of the built manager adds one run record
    and does not throw. *)
Lemma built_manager_cycle_on_sample_world :
  aiServiceInstance configured_world = Some gemini_manager
  /\ Forall (fun l => log_id l <> nextId configured_world)
       (FetchLogs configured_world)
  /\ exists w' log,
       aiServiceInstance w' = Some gemini_manager
       /\ FetchLogs w' = [log]
       /\ log_id log = 0%nat
       /\ started_at log = mid_june_2026
       /\ runFetchCycle Host.URL_parse Host.Date_parse 0 all_reachable
            three_entries gemini_env completion_rejected mid_june_2026
            configured_world = (Ok tt, w').
Proof.
  split; [reflexivity|]. split; [constructor|].
  pose proof (built_manager_cycle_throws_only_rejected_log_writes
                Host.URL_parse Host.Date_parse 0 all_reachable three_entries
                gemini_env completion_rejected mid_june_2026 configured_world
                gemini_manager eq_refl (Forall_nil _)) as H.
  change (completion_rejected create_log) with (@None Error) in H.
  destruct H as (w' & log & H1 & H2 & H3 & _ & H5 & [(Hrun & _)|Hthrow]).
  - exists w', log. repeat (split; [assumption|]). exact Hrun.
  - destruct Hthrow as (rejection & Hrej & _). discriminate Hrej.
Defined.

(** X14 on sample data: on 15 June 2026 the candidate the extraction filter
    made of the sample entry passes the store's validation. *)
Lemma store_accepts_the_validated_sample :
  validateEntry' mid_june_2026 good_entry = Some good
  /\ (Time.MonthFromTime (Time.LocalTime 0 mid_june_2026) <> 11
      \/ Time.DateFromTime (Time.LocalTime 0 mid_june_2026) <> 31)
  /\ validateScholarshipData' mid_june_2026 good
       = {| valid := true; reason := None |}.
Proof.
  assert (Hv : validateEntry' mid_june_2026 good_entry = Some good)
    by reflexivity.
  assert (Hm : Time.MonthFromTime (Time.LocalTime 0 mid_june_2026) <> 11
               \/ Time.DateFromTime (Time.LocalTime 0 mid_june_2026) <> 31).
  { left. vm_compute. discriminate. }
  split; [exact Hv|]. split; [exact Hm|].
  exact (store_accepts_what_extraction_accepted Host.URL_parse Host.Date_parse
           0 mid_june_2026 good_entry good Hv Hm).
Defined.

(** X15 on sample data: the administrator adds the fellowship with other
    letter case and surrounding blanks; the pipeline then meets the same
    fellowship, adds nothing and leaves one record. *)
Lemma pipeline_meets_the_record_added_by_hand :
  exists w1,
    addScholarship Host.URL_parse Host.Date_parse mid_june_2026 admin_entry
      empty_world = (Ok 0%nat, w1)
    /\ Str.ci_eq (Str.trim (ins_title admin_entry)) (Str.trim (title good))
         = true
    /\ Str.ci_eq (Str.trim (ins_organization admin_entry))
         (Str.trim (organization good)) = true
    /\ match storeScholarships' new_years_eve_2026 [good] "gemini" w1 with
       | (Ok n, w2) => n = 0%nat /\ List.length (Scholarship w2) = 1%nat
       | (Throw _, w2) => w2 = w1
       end.
Proof.
  pose (r := addScholarship Host.URL_parse Host.Date_parse mid_june_2026
               admin_entry empty_world).
  assert (H : r = (Ok 0%nat, snd r)) by (vm_compute; reflexivity).
  assert (Ht : Str.ci_eq (Str.trim (ins_title admin_entry))
                 (Str.trim (title good)) = true) by reflexivity.
  assert (Ho : Str.ci_eq (Str.trim (ins_organization admin_entry))
                 (Str.trim (organization good)) = true) by reflexivity.
  exists (snd r). split; [exact H|]. split; [exact Ht|]. split; [exact Ho|].
  destruct (pipeline_does_not_duplicate_a_record_added_by_hand Host.URL_parse
              Host.Date_parse 0 mid_june_2026 new_years_eve_2026 admin_entry
              empty_world (snd r) 0%nat good "gemini" H Ht Ho) as (_ & Hs).
  exact Hs.
Defined.
